(** * Umoria: the per-turn engine of [dungeon.c] and the key reader of [io.c]

    A shallow embedding of the status-effect updates, the fixed-point
    regeneration, the repeat-count parser, the count allow-list and the
    keypress reader, followed by the properties proved about them.

    Conventions.  C integers are [Z]; where an operation can leave the range
    of its C type the wrap-around is written out ([int16], [int32],
    [uint16]).  The header with the types is not among the sources: the
    counters of [py.misc] are taken as 16-bit, which the casts and the
    [MAX_SHORT] clamp of [regenhp] show, and the fractions as unsigned
    16-bit.  A timer is only decremented behind a [> 0] test, so [t - 1] is
    exact there.  Characters are their codes.

    Calls into the display, the monster list and the other services whose
    bodies are not part of these two files are recorded, in order, in the
    [trace] of the state.  What they do to the state is not tracked: the
    properties below are about fields those services do not write (the
    timers and their status bits, the regeneration accumulators), or about
    paths that overwrite what they write. *)

From Stdlib Require Import ZArith List String Ascii Bool Lia ZifyBool.
Import ListNotations.
Local Open Scope string_scope.
Local Open Scope Z_scope.

(** ** Machine integers and characters *)

Definition wrap_signed (bits z : Z) : Z :=
  (z + 2 ^ (bits - 1)) mod 2 ^ bits - 2 ^ (bits - 1).

Definition int16 (z : Z) : Z := wrap_signed 16 z.
Definition int32 (z : Z) : Z := wrap_signed 32 z.
Definition uint16 (z : Z) : Z := z mod 2 ^ 16.

(** [(char) i] on a platform whose [char] is signed. *)
Definition to_char (z : Z) : Z := wrap_signed 8 z.

(** The code of a character literal. *)
Definition ch (a : ascii) : Z := Z.of_N (N_of_ascii a).

(** Modelled from the spec: the macro [CTRL_KEY] lives in a header that is
    not part of the sources; the control code of an upper-case letter is its
    code minus 0x40. *)
Definition CTRL_KEY (a : ascii) : Z := ch a - 64.

(** Modelled from the spec: [ESCAPE] and [DELETE] come from the same missing
    header; they are the reserved escape key and the backspace-equivalent
    key, ASCII ESC and DEL. *)
Definition ESCAPE : Z := 27.
Definition DELETE : Z := 127.

(** Modelled from the spec: [MSG_LINE], the transient message line; [io.c]
    prints messages "to top line of screen". *)
Definition MSG_LINE : Z := 0.

(** [EOF] of the C library. *)
Definition EOF : Z := -1.

(** Modelled from the spec: [MAX_SHORT] is the largest value of the 16-bit
    domain of the hit-point and mana counters. *)
Definition MAX_SHORT : Z := 32767.

(** The constants of [constant.h] that the code names and whose values the
    sources do not show: the status bits and the regeneration biases. *)
Record constants : Type := Build_constants {
  PY_BLIND : Z;
  PY_CONFUSED : Z;
  PY_FEAR : Z;
  PY_POISONED : Z;
  PY_FAST : Z;
  PY_SLOW : Z;
  PY_SEARCH : Z;
  PY_INVULN : Z;
  PY_HERO : Z;
  PY_SHERO : Z;
  PY_BLESSED : Z;
  PY_DET_INV : Z;
  PY_TIM_INFRA : Z;
  PY_REPEAT : Z;
  PLAYER_REGEN_HPBASE : Z;
  PLAYER_REGEN_MNBASE : Z
}.

(** ** Service calls *)

(** The calls the modelled functions make into other files, named as the
    code names them. *)
Inductive call : Type :=
| prt_map | prt_blind | prt_confused | prt_afraid | prt_poisoned
| prt_pac | prt_mhp | prt_chp | prt_cmana | prt_state
| disturb (s l : Z)
| updateMonsters (attack : bool)
| printMessage (m : string)
| change_speed (n : Z)
| take_hit (damage : Z) (hit_from : string)
| rest_off
| calc_bonuses
| refresh
| wrefresh_curscr
| moriaterm
| save_char
| exit_game
| terminalBellSound
| putStringClearToEOL (m : string) (row col : Z)
| eraseLine (row col : Z)
| moveCursorRelative
| putQIO.

(** ** State *)

(** [py.flags]: the status word and the timers read by the engine. *)
Record player_flags : Type := Build_flags {
  status : Z;  (* uint32 bit mask *)
  hero : Z;
  shero : Z;
  blind : Z;
  confused : Z;
  afraid : Z;
  poisoned : Z;
  fast : Z;
  slow : Z;
  rest : Z;  (* signed: negative means rest until full *)
  paralysis : Z;
  invuln : Z;
  blessed : Z;
  detect_inv : Z;
  tim_infra : Z;
  see_inv : bool;
  see_infra : Z;
  regenerate : bool
}.

Definition set_status (v : Z) (r : player_flags) : player_flags :=
  Build_flags v (hero r) (shero r) (blind r) (confused r) (afraid r)
    (poisoned r) (fast r) (slow r) (rest r) (paralysis r) (invuln r)
    (blessed r) (detect_inv r) (tim_infra r) (see_inv r) (see_infra r)
    (regenerate r).

Definition set_hero (v : Z) (r : player_flags) : player_flags :=
  Build_flags (status r) v (shero r) (blind r) (confused r) (afraid r)
    (poisoned r) (fast r) (slow r) (rest r) (paralysis r) (invuln r)
    (blessed r) (detect_inv r) (tim_infra r) (see_inv r) (see_infra r)
    (regenerate r).

Definition set_shero (v : Z) (r : player_flags) : player_flags :=
  Build_flags (status r) (hero r) v (blind r) (confused r) (afraid r)
    (poisoned r) (fast r) (slow r) (rest r) (paralysis r) (invuln r)
    (blessed r) (detect_inv r) (tim_infra r) (see_inv r) (see_infra r)
    (regenerate r).

Definition set_blind (v : Z) (r : player_flags) : player_flags :=
  Build_flags (status r) (hero r) (shero r) v (confused r) (afraid r)
    (poisoned r) (fast r) (slow r) (rest r) (paralysis r) (invuln r)
    (blessed r) (detect_inv r) (tim_infra r) (see_inv r) (see_infra r)
    (regenerate r).

Definition set_confused (v : Z) (r : player_flags) : player_flags :=
  Build_flags (status r) (hero r) (shero r) (blind r) v (afraid r)
    (poisoned r) (fast r) (slow r) (rest r) (paralysis r) (invuln r)
    (blessed r) (detect_inv r) (tim_infra r) (see_inv r) (see_infra r)
    (regenerate r).

Definition set_afraid (v : Z) (r : player_flags) : player_flags :=
  Build_flags (status r) (hero r) (shero r) (blind r) (confused r) v
    (poisoned r) (fast r) (slow r) (rest r) (paralysis r) (invuln r)
    (blessed r) (detect_inv r) (tim_infra r) (see_inv r) (see_infra r)
    (regenerate r).

Definition set_poisoned (v : Z) (r : player_flags) : player_flags :=
  Build_flags (status r) (hero r) (shero r) (blind r) (confused r) (afraid r)
    v (fast r) (slow r) (rest r) (paralysis r) (invuln r) (blessed r)
    (detect_inv r) (tim_infra r) (see_inv r) (see_infra r) (regenerate r).

Definition set_fast (v : Z) (r : player_flags) : player_flags :=
  Build_flags (status r) (hero r) (shero r) (blind r) (confused r) (afraid r)
    (poisoned r) v (slow r) (rest r) (paralysis r) (invuln r) (blessed r)
    (detect_inv r) (tim_infra r) (see_inv r) (see_infra r) (regenerate r).

Definition set_slow (v : Z) (r : player_flags) : player_flags :=
  Build_flags (status r) (hero r) (shero r) (blind r) (confused r) (afraid r)
    (poisoned r) (fast r) v (rest r) (paralysis r) (invuln r) (blessed r)
    (detect_inv r) (tim_infra r) (see_inv r) (see_infra r) (regenerate r).

Definition set_rest (v : Z) (r : player_flags) : player_flags :=
  Build_flags (status r) (hero r) (shero r) (blind r) (confused r) (afraid r)
    (poisoned r) (fast r) (slow r) v (paralysis r) (invuln r) (blessed r)
    (detect_inv r) (tim_infra r) (see_inv r) (see_infra r) (regenerate r).

Definition set_paralysis (v : Z) (r : player_flags) : player_flags :=
  Build_flags (status r) (hero r) (shero r) (blind r) (confused r) (afraid r)
    (poisoned r) (fast r) (slow r) (rest r) v (invuln r) (blessed r)
    (detect_inv r) (tim_infra r) (see_inv r) (see_infra r) (regenerate r).

Definition set_invuln (v : Z) (r : player_flags) : player_flags :=
  Build_flags (status r) (hero r) (shero r) (blind r) (confused r) (afraid r)
    (poisoned r) (fast r) (slow r) (rest r) (paralysis r) v (blessed r)
    (detect_inv r) (tim_infra r) (see_inv r) (see_infra r) (regenerate r).

Definition set_blessed (v : Z) (r : player_flags) : player_flags :=
  Build_flags (status r) (hero r) (shero r) (blind r) (confused r) (afraid r)
    (poisoned r) (fast r) (slow r) (rest r) (paralysis r) (invuln r) v
    (detect_inv r) (tim_infra r) (see_inv r) (see_infra r) (regenerate r).

Definition set_detect_inv (v : Z) (r : player_flags) : player_flags :=
  Build_flags (status r) (hero r) (shero r) (blind r) (confused r) (afraid r)
    (poisoned r) (fast r) (slow r) (rest r) (paralysis r) (invuln r)
    (blessed r) v (tim_infra r) (see_inv r) (see_infra r) (regenerate r).

Definition set_tim_infra (v : Z) (r : player_flags) : player_flags :=
  Build_flags (status r) (hero r) (shero r) (blind r) (confused r) (afraid r)
    (poisoned r) (fast r) (slow r) (rest r) (paralysis r) (invuln r)
    (blessed r) (detect_inv r) v (see_inv r) (see_infra r) (regenerate r).

Definition set_see_inv (v : bool) (r : player_flags) : player_flags :=
  Build_flags (status r) (hero r) (shero r) (blind r) (confused r) (afraid r)
    (poisoned r) (fast r) (slow r) (rest r) (paralysis r) (invuln r)
    (blessed r) (detect_inv r) (tim_infra r) v (see_infra r) (regenerate r).

Definition set_see_infra (v : Z) (r : player_flags) : player_flags :=
  Build_flags (status r) (hero r) (shero r) (blind r) (confused r) (afraid r)
    (poisoned r) (fast r) (slow r) (rest r) (paralysis r) (invuln r)
    (blessed r) (detect_inv r) (tim_infra r) (see_inv r) v (regenerate r).

(** [py.misc]: vitals and combat bonuses. *)
Record player_misc : Type := Build_misc {
  mhp : Z;  (* max hit points, int16 *)
  chp : Z;  (* current hit points, int16 *)
  chp_frac : Z;  (* uint16 *)
  mana : Z;  (* max mana, int16 *)
  cmana : Z;  (* current mana, int16 *)
  cmana_frac : Z;  (* uint16 *)
  bth : Z;
  bthb : Z;
  pac : Z;
  dis_ac : Z
}.

Definition set_mhp (v : Z) (r : player_misc) : player_misc :=
  Build_misc v (chp r) (chp_frac r) (mana r) (cmana r) (cmana_frac r) (bth r)
    (bthb r) (pac r) (dis_ac r).

Definition set_chp (v : Z) (r : player_misc) : player_misc :=
  Build_misc (mhp r) v (chp_frac r) (mana r) (cmana r) (cmana_frac r) (bth r)
    (bthb r) (pac r) (dis_ac r).

Definition set_chp_frac (v : Z) (r : player_misc) : player_misc :=
  Build_misc (mhp r) (chp r) v (mana r) (cmana r) (cmana_frac r) (bth r)
    (bthb r) (pac r) (dis_ac r).

Definition set_cmana (v : Z) (r : player_misc) : player_misc :=
  Build_misc (mhp r) (chp r) (chp_frac r) (mana r) v (cmana_frac r) (bth r)
    (bthb r) (pac r) (dis_ac r).

Definition set_cmana_frac (v : Z) (r : player_misc) : player_misc :=
  Build_misc (mhp r) (chp r) (chp_frac r) (mana r) (cmana r) v (bth r)
    (bthb r) (pac r) (dis_ac r).

Definition set_bth (v : Z) (r : player_misc) : player_misc :=
  Build_misc (mhp r) (chp r) (chp_frac r) (mana r) (cmana r) (cmana_frac r) v
    (bthb r) (pac r) (dis_ac r).

Definition set_bthb (v : Z) (r : player_misc) : player_misc :=
  Build_misc (mhp r) (chp r) (chp_frac r) (mana r) (cmana r) (cmana_frac r)
    (bth r) v (pac r) (dis_ac r).

Definition set_pac (v : Z) (r : player_misc) : player_misc :=
  Build_misc (mhp r) (chp r) (chp_frac r) (mana r) (cmana r) (cmana_frac r)
    (bth r) (bthb r) v (dis_ac r).

Definition set_dis_ac (v : Z) (r : player_misc) : player_misc :=
  Build_misc (mhp r) (chp r) (chp_frac r) (mana r) (cmana r) (cmana_frac r)
    (bth r) (bthb r) (pac r) v.

(** The globals of the two files that the modelled functions touch. *)
Record game : Type := Build_game {
  flags : player_flags;  (* py.flags *)
  misc : player_misc;  (* py.misc *)
  current_game_turn : Z;  (* int32 *)
  command_count : Z;
  player_free_turn : bool;
  last_command : Z;
  running_counter : Z;
  find_count : Z;  (* the caller's counter behind the pointer argument *)
  use_roguelike_keys : bool;
  wizard_mode : bool;
  eof_flag : Z;
  msg_flag : bool;
  character_generated : bool;
  character_saved : bool;
  panic_save : bool;
  death : bool;
  died_from : string;
  screen_change : bool;
  input : list Z;  (* what the coming getch() calls return *)
  trace : list call  (* service calls made so far, newest first *)
}.

Definition set_flags (v : player_flags) (r : game) : game :=
  Build_game v (misc r) (current_game_turn r) (command_count r)
    (player_free_turn r) (last_command r) (running_counter r) (find_count r)
    (use_roguelike_keys r) (wizard_mode r) (eof_flag r) (msg_flag r)
    (character_generated r) (character_saved r) (panic_save r) (death r)
    (died_from r) (screen_change r) (input r) (trace r).

Definition set_misc (v : player_misc) (r : game) : game :=
  Build_game (flags r) v (current_game_turn r) (command_count r)
    (player_free_turn r) (last_command r) (running_counter r) (find_count r)
    (use_roguelike_keys r) (wizard_mode r) (eof_flag r) (msg_flag r)
    (character_generated r) (character_saved r) (panic_save r) (death r)
    (died_from r) (screen_change r) (input r) (trace r).

Definition set_command_count (v : Z) (r : game) : game :=
  Build_game (flags r) (misc r) (current_game_turn r) v (player_free_turn r)
    (last_command r) (running_counter r) (find_count r) (use_roguelike_keys r)
    (wizard_mode r) (eof_flag r) (msg_flag r) (character_generated r)
    (character_saved r) (panic_save r) (death r) (died_from r)
    (screen_change r) (input r) (trace r).

Definition set_player_free_turn (v : bool) (r : game) : game :=
  Build_game (flags r) (misc r) (current_game_turn r) (command_count r) v
    (last_command r) (running_counter r) (find_count r) (use_roguelike_keys r)
    (wizard_mode r) (eof_flag r) (msg_flag r) (character_generated r)
    (character_saved r) (panic_save r) (death r) (died_from r)
    (screen_change r) (input r) (trace r).

Definition set_last_command (v : Z) (r : game) : game :=
  Build_game (flags r) (misc r) (current_game_turn r) (command_count r)
    (player_free_turn r) v (running_counter r) (find_count r)
    (use_roguelike_keys r) (wizard_mode r) (eof_flag r) (msg_flag r)
    (character_generated r) (character_saved r) (panic_save r) (death r)
    (died_from r) (screen_change r) (input r) (trace r).

Definition set_find_count (v : Z) (r : game) : game :=
  Build_game (flags r) (misc r) (current_game_turn r) (command_count r)
    (player_free_turn r) (last_command r) (running_counter r) v
    (use_roguelike_keys r) (wizard_mode r) (eof_flag r) (msg_flag r)
    (character_generated r) (character_saved r) (panic_save r) (death r)
    (died_from r) (screen_change r) (input r) (trace r).

Definition set_eof_flag (v : Z) (r : game) : game :=
  Build_game (flags r) (misc r) (current_game_turn r) (command_count r)
    (player_free_turn r) (last_command r) (running_counter r) (find_count r)
    (use_roguelike_keys r) (wizard_mode r) v (msg_flag r)
    (character_generated r) (character_saved r) (panic_save r) (death r)
    (died_from r) (screen_change r) (input r) (trace r).

Definition set_msg_flag (v : bool) (r : game) : game :=
  Build_game (flags r) (misc r) (current_game_turn r) (command_count r)
    (player_free_turn r) (last_command r) (running_counter r) (find_count r)
    (use_roguelike_keys r) (wizard_mode r) (eof_flag r) v
    (character_generated r) (character_saved r) (panic_save r) (death r)
    (died_from r) (screen_change r) (input r) (trace r).

Definition set_panic_save (v : bool) (r : game) : game :=
  Build_game (flags r) (misc r) (current_game_turn r) (command_count r)
    (player_free_turn r) (last_command r) (running_counter r) (find_count r)
    (use_roguelike_keys r) (wizard_mode r) (eof_flag r) (msg_flag r)
    (character_generated r) (character_saved r) v (death r) (died_from r)
    (screen_change r) (input r) (trace r).

Definition set_death (v : bool) (r : game) : game :=
  Build_game (flags r) (misc r) (current_game_turn r) (command_count r)
    (player_free_turn r) (last_command r) (running_counter r) (find_count r)
    (use_roguelike_keys r) (wizard_mode r) (eof_flag r) (msg_flag r)
    (character_generated r) (character_saved r) (panic_save r) v (died_from r)
    (screen_change r) (input r) (trace r).

Definition set_died_from (v : string) (r : game) : game :=
  Build_game (flags r) (misc r) (current_game_turn r) (command_count r)
    (player_free_turn r) (last_command r) (running_counter r) (find_count r)
    (use_roguelike_keys r) (wizard_mode r) (eof_flag r) (msg_flag r)
    (character_generated r) (character_saved r) (panic_save r) (death r) v
    (screen_change r) (input r) (trace r).

Definition set_screen_change (v : bool) (r : game) : game :=
  Build_game (flags r) (misc r) (current_game_turn r) (command_count r)
    (player_free_turn r) (last_command r) (running_counter r) (find_count r)
    (use_roguelike_keys r) (wizard_mode r) (eof_flag r) (msg_flag r)
    (character_generated r) (character_saved r) (panic_save r) (death r)
    (died_from r) v (input r) (trace r).

Definition set_input (v : list Z) (r : game) : game :=
  Build_game (flags r) (misc r) (current_game_turn r) (command_count r)
    (player_free_turn r) (last_command r) (running_counter r) (find_count r)
    (use_roguelike_keys r) (wizard_mode r) (eof_flag r) (msg_flag r)
    (character_generated r) (character_saved r) (panic_save r) (death r)
    (died_from r) (screen_change r) v (trace r).

Definition set_trace (v : list call) (r : game) : game :=
  Build_game (flags r) (misc r) (current_game_turn r) (command_count r)
    (player_free_turn r) (last_command r) (running_counter r) (find_count r)
    (use_roguelike_keys r) (wizard_mode r) (eof_flag r) (msg_flag r)
    (character_generated r) (character_saved r) (panic_save r) (death r)
    (died_from r) (screen_change r) (input r) v.

Definition call_ (c : call) (s : game) : game := set_trace (c :: trace s) s.

Definition upd_flags (u : player_flags -> player_flags) (s : game) : game :=
  set_flags (u (flags s)) s.

Definition upd_misc (u : player_misc -> player_misc) (s : game) : game :=
  set_misc (u (misc s)) s.

(** [py.flags.status |= m] and [py.flags.status &= ~m]. *)
Definition status_or (m : Z) (s : game) : game :=
  upd_flags (fun f => set_status (Z.lor (status f) m) f) s.

Definition status_andnot (m : Z) (s : game) : game :=
  upd_flags (fun f => set_status (Z.land (status f) (Z.lnot m)) f) s.

(** [(m & py.flags.status) == 0] *)
Definition status_clear (m : Z) (s : game) : bool :=
  Z.land m (status (flags s)) =? 0.

(** ** The status-effect engine ([dungeon.c]) *)

Section Engine.

Variable K : constants.

(** [con_adj()] is defined with the player's statistics, outside these
    files; it is a function of the state. *)
Variable con_adj : game -> Z.

Definition playerActivateHeroism (s : game) : game :=
  let s := status_or (PY_HERO K) s in
  let s := call_ (disturb 0 0) s in
  let s := upd_misc (fun m => set_mhp (int16 (mhp m + 10)) m) s in
  let s := upd_misc (fun m => set_chp (int16 (chp m + 10)) m) s in
  let s := upd_misc (fun m => set_bth (int16 (bth m + 12)) m) s in
  let s := upd_misc (fun m => set_bthb (int16 (bthb m + 12)) m) s in
  let s := call_ (printMessage "You feel like a HERO!") s in
  let s := call_ prt_mhp s in
  call_ prt_chp s.

Definition playerDisableHeroism (s : game) : game :=
  let s := status_andnot (PY_HERO K) s in
  let s := call_ (disturb 0 0) s in
  let s := upd_misc (fun m => set_mhp (int16 (mhp m - 10)) m) s in
  let s :=
    if chp (misc s) >? mhp (misc s) then
      let s := upd_misc (fun m => set_chp (mhp m) m) s in
      let s := upd_misc (set_chp_frac 0) s in
      call_ prt_chp s
    else s in
  let s := upd_misc (fun m => set_bth (int16 (bth m - 12)) m) s in
  let s := upd_misc (fun m => set_bthb (int16 (bthb m - 12)) m) s in
  let s := call_ (printMessage "The heroism wears off.") s in
  call_ prt_mhp s.

Definition playerActivateSuperHeroism (s : game) : game :=
  let s := status_or (PY_SHERO K) s in
  let s := call_ (disturb 0 0) s in
  let s := upd_misc (fun m => set_mhp (int16 (mhp m + 20)) m) s in
  let s := upd_misc (fun m => set_chp (int16 (chp m + 20)) m) s in
  let s := upd_misc (fun m => set_bth (int16 (bth m + 24)) m) s in
  let s := upd_misc (fun m => set_bthb (int16 (bthb m + 24)) m) s in
  let s := call_ (printMessage "You feel like a SUPER HERO!") s in
  let s := call_ prt_mhp s in
  call_ prt_chp s.

Definition playerDisableSuperHeroism (s : game) : game :=
  let s := status_andnot (PY_SHERO K) s in
  let s := call_ (disturb 0 0) s in
  let s := upd_misc (fun m => set_mhp (int16 (mhp m - 20)) m) s in
  let s :=
    if chp (misc s) >? mhp (misc s) then
      let s := upd_misc (fun m => set_chp (mhp m) m) s in
      let s := upd_misc (set_chp_frac 0) s in
      call_ prt_chp s
    else s in
  let s := upd_misc (fun m => set_bth (int16 (bth m - 24)) m) s in
  let s := upd_misc (fun m => set_bthb (int16 (bthb m - 24)) m) s in
  let s := call_ (printMessage "The super heroism wears off.") s in
  call_ prt_mhp s.

(** The first block of [playerUpdateHeroStatus]. *)
Definition heroism_block (s : game) : game :=
  if hero (flags s) >? 0 then
    let s := if status_clear (PY_HERO K) s then playerActivateHeroism s else s in
    let s := upd_flags (fun f => set_hero (hero f - 1) f) s in
    if hero (flags s) =? 0 then playerDisableHeroism s else s
  else s.

(** Its second block. *)
Definition super_heroism_block (s : game) : game :=
  if shero (flags s) >? 0 then
    let s := if status_clear (PY_SHERO K) s then playerActivateSuperHeroism s else s in
    let s := upd_flags (fun f => set_shero (shero f - 1) f) s in
    if shero (flags s) =? 0 then playerDisableSuperHeroism s else s
  else s.

Definition playerUpdateHeroStatus (s : game) : game :=
  super_heroism_block (heroism_block s).

Definition playerUpdateBlindness (s : game) : game :=
  if blind (flags s) <=? 0 then s else
  let s :=
    if status_clear (PY_BLIND K) s then
      let s := status_or (PY_BLIND K) s in
      let s := call_ prt_map s in
      let s := call_ prt_blind s in
      let s := call_ (disturb 0 1) s in
      call_ (updateMonsters false) s
    else s in
  let s := upd_flags (fun f => set_blind (blind f - 1) f) s in
  if blind (flags s) =? 0 then
    let s := status_andnot (PY_BLIND K) s in
    let s := call_ prt_blind s in
    let s := call_ prt_map s in
    let s := call_ (disturb 0 1) s in
    let s := call_ (updateMonsters false) s in
    call_ (printMessage "The veil of darkness lifts.") s
  else s.

Definition playerUpdateConfusion (s : game) : game :=
  if confused (flags s) <=? 0 then s else
  let s :=
    if status_clear (PY_CONFUSED K) s then
      let s := status_or (PY_CONFUSED K) s in
      call_ prt_confused s
    else s in
  let s := upd_flags (fun f => set_confused (confused f - 1) f) s in
  if confused (flags s) =? 0 then
    let s := status_andnot (PY_CONFUSED K) s in
    let s := call_ prt_confused s in
    let s := call_ (printMessage "You feel less confused now.") s in
    if negb (rest (flags s) =? 0) then call_ rest_off s else s
  else s.

Definition playerUpdateFearState (s : game) : game :=
  if afraid (flags s) <=? 0 then s else
  let s :=
    if status_clear (PY_FEAR K) s then
      if shero (flags s) + hero (flags s) >? 0 then
        upd_flags (set_afraid 0) s
      else
        let s := status_or (PY_FEAR K) s in
        call_ prt_afraid s
    else if shero (flags s) + hero (flags s) >? 0 then
      upd_flags (set_afraid 1) s
    else s in
  let s := upd_flags (fun f => set_afraid (afraid f - 1) f) s in
  if afraid (flags s) =? 0 then
    let s := status_andnot (PY_FEAR K) s in
    let s := call_ prt_afraid s in
    let s := call_ (printMessage "You feel bolder now.") s in
    call_ (disturb 0 0) s
  else s.

(** The [switch (con_adj())] of [playerUpdatePoisonedState]; [%] is C's
    remainder, and a value outside the labels leaves [damage] at 0. *)
Definition poison_damage (adj turn : Z) : Z :=
  if adj =? -4 then 4
  else if (adj =? -3) || (adj =? -2) then 3
  else if adj =? -1 then 2
  else if adj =? 0 then 1
  else if (adj =? 1) || (adj =? 2) || (adj =? 3) then Z.b2z (Z.rem turn 2 =? 0)
  else if (adj =? 4) || (adj =? 5) then Z.b2z (Z.rem turn 3 =? 0)
  else if adj =? 6 then Z.b2z (Z.rem turn 4 =? 0)
  else 0.

Definition playerUpdatePoisonedState (s : game) : game :=
  if poisoned (flags s) <=? 0 then s else
  let s :=
    if status_clear (PY_POISONED K) s then
      let s := status_or (PY_POISONED K) s in
      call_ prt_poisoned s
    else s in
  let s := upd_flags (fun f => set_poisoned (poisoned f - 1) f) s in
  if poisoned (flags s) =? 0 then
    let s := status_andnot (PY_POISONED K) s in
    let s := call_ prt_poisoned s in
    let s := call_ (printMessage "You feel better.") s in
    call_ (disturb 0 0) s
  else
    let damage := poison_damage (con_adj s) (current_game_turn s) in
    let s := call_ (take_hit damage "poison") s in
    call_ (disturb 1 0) s.

Definition playerUpdateFastness (s : game) : game :=
  if fast (flags s) <=? 0 then s else
  let s :=
    if status_clear (PY_FAST K) s then
      let s := status_or (PY_FAST K) s in
      let s := call_ (change_speed (-1)) s in
      let s := call_ (printMessage "You feel yourself moving faster.") s in
      call_ (disturb 0 0) s
    else s in
  let s := upd_flags (fun f => set_fast (fast f - 1) f) s in
  if fast (flags s) =? 0 then
    let s := status_andnot (PY_FAST K) s in
    let s := call_ (change_speed 1) s in
    let s := call_ (printMessage "You feel yourself slow down.") s in
    call_ (disturb 0 0) s
  else s.

Definition playerUpdateSlowness (s : game) : game :=
  if slow (flags s) <=? 0 then s else
  let s :=
    if status_clear (PY_SLOW K) s then
      let s := status_or (PY_SLOW K) s in
      let s := call_ (change_speed 1) s in
      let s := call_ (printMessage "You feel yourself moving slower.") s in
      call_ (disturb 0 0) s
    else s in
  let s := upd_flags (fun f => set_slow (slow f - 1) f) s in
  if slow (flags s) =? 0 then
    let s := status_andnot (PY_SLOW K) s in
    let s := call_ (change_speed (-1)) s in
    let s := call_ (printMessage "You feel yourself speed up.") s in
    call_ (disturb 0 0) s
  else s.

Definition playerUpdateSpeed (s : game) : game :=
  playerUpdateSlowness (playerUpdateFastness s).

Definition playerUpdateParalysis (s : game) : game :=
  if paralysis (flags s) <=? 0 then s else
  let s := upd_flags (fun f => set_paralysis (paralysis f - 1) f) s in
  call_ (disturb 1 0) s.

Definition playerUpdateInvulnerability (s : game) : game :=
  if invuln (flags s) <=? 0 then s else
  let s :=
    if status_clear (PY_INVULN K) s then
      let s := status_or (PY_INVULN K) s in
      let s := call_ (disturb 0 0) s in
      let s := upd_misc (fun m => set_pac (int16 (pac m + 100)) m) s in
      let s := upd_misc (fun m => set_dis_ac (int16 (dis_ac m + 100)) m) s in
      let s := call_ prt_pac s in
      call_ (printMessage "Your skin turns into steel!") s
    else s in
  let s := upd_flags (fun f => set_invuln (invuln f - 1) f) s in
  if invuln (flags s) =? 0 then
    let s := status_andnot (PY_INVULN K) s in
    let s := call_ (disturb 0 0) s in
    let s := upd_misc (fun m => set_pac (int16 (pac m - 100)) m) s in
    let s := upd_misc (fun m => set_dis_ac (int16 (dis_ac m - 100)) m) s in
    let s := call_ prt_pac s in
    call_ (printMessage "Your skin returns to normal.") s
  else s.

Definition playerUpdateBlessedness (s : game) : game :=
  if blessed (flags s) <=? 0 then s else
  let s :=
    if status_clear (PY_BLESSED K) s then
      let s := status_or (PY_BLESSED K) s in
      let s := call_ (disturb 0 0) s in
      let s := upd_misc (fun m => set_bth (int16 (bth m + 5)) m) s in
      let s := upd_misc (fun m => set_bthb (int16 (bthb m + 5)) m) s in
      let s := upd_misc (fun m => set_pac (int16 (pac m + 2)) m) s in
      let s := upd_misc (fun m => set_dis_ac (int16 (dis_ac m + 2)) m) s in
      let s := call_ (printMessage "You feel righteous!") s in
      call_ prt_pac s
    else s in
  let s := upd_flags (fun f => set_blessed (blessed f - 1) f) s in
  if blessed (flags s) =? 0 then
    let s := status_andnot (PY_BLESSED K) s in
    let s := call_ (disturb 0 0) s in
    let s := upd_misc (fun m => set_bth (int16 (bth m - 5)) m) s in
    let s := upd_misc (fun m => set_bthb (int16 (bthb m - 5)) m) s in
    let s := upd_misc (fun m => set_pac (int16 (pac m - 2)) m) s in
    let s := upd_misc (fun m => set_dis_ac (int16 (dis_ac m - 2)) m) s in
    let s := call_ (printMessage "The prayer has expired.") s in
    call_ prt_pac s
  else s.

Definition playerUpdateDetectInvisible (s : game) : game :=
  if detect_inv (flags s) <=? 0 then s else
  let s :=
    if status_clear (PY_DET_INV K) s then
      let s := status_or (PY_DET_INV K) s in
      let s := upd_flags (set_see_inv true) s in
      call_ (updateMonsters false) s
    else s in
  let s := upd_flags (fun f => set_detect_inv (detect_inv f - 1) f) s in
  if detect_inv (flags s) =? 0 then
    let s := status_andnot (PY_DET_INV K) s in
    let s := call_ calc_bonuses s in
    call_ (updateMonsters false) s
  else s.

Definition playerUpdateInfraVision (s : game) : game :=
  if tim_infra (flags s) <=? 0 then s else
  let s :=
    if status_clear (PY_TIM_INFRA K) s then
      let s := status_or (PY_TIM_INFRA K) s in
      let s := upd_flags (fun f => set_see_infra (int16 (see_infra f + 1)) f) s in
      call_ (updateMonsters false) s
    else s in
  let s := upd_flags (fun f => set_tim_infra (tim_infra f - 1) f) s in
  if tim_infra (flags s) =? 0 then
    let s := status_andnot (PY_TIM_INFRA K) s in
    let s := upd_flags (fun f => set_see_infra (int16 (see_infra f - 1)) f) s in
    call_ (updateMonsters false) s
  else s.

(** *** Fixed-point regeneration *)

Definition regenhp (percent : Z) (s : game) : game :=
  let old_chp := chp (misc s) in
  let new_chp := int32 (mhp (misc s) * percent + PLAYER_REGEN_HPBASE K) in
  (* div 65536 *)
  let s := upd_misc (fun m => set_chp (int16 (chp m + Z.shiftr new_chp 16)) m) s in
  (* check for overflow *)
  let s :=
    if (chp (misc s) <? 0) && (old_chp >? 0) then upd_misc (set_chp MAX_SHORT) s
    else s in
  (* mod 65536 *)
  let new_chp_frac := Z.land new_chp 65535 + chp_frac (misc s) in
  let s :=
    if new_chp_frac >=? 65536 then
      let s := upd_misc (set_chp_frac (uint16 (new_chp_frac - 65536))) s in
      upd_misc (fun m => set_chp (int16 (chp m + 1)) m) s
    else upd_misc (set_chp_frac (uint16 new_chp_frac)) s in
  (* must set frac to zero even if equal *)
  let s :=
    if chp (misc s) >=? mhp (misc s) then
      let s := upd_misc (fun m => set_chp (mhp m) m) s in
      upd_misc (set_chp_frac 0) s
    else s in
  if negb (old_chp =? chp (misc s)) then call_ prt_chp s else s.

Definition regenmana (percent : Z) (s : game) : game :=
  let old_cmana := cmana (misc s) in
  let new_mana := int32 (mana (misc s) * percent + PLAYER_REGEN_MNBASE K) in
  (* div 65536 *)
  let s := upd_misc (fun m => set_cmana (int16 (cmana m + Z.shiftr new_mana 16)) m) s in
  (* check for overflow *)
  let s :=
    if (cmana (misc s) <? 0) && (old_cmana >? 0) then upd_misc (set_cmana MAX_SHORT) s
    else s in
  (* mod 65536 *)
  let new_mana_frac := Z.land new_mana 65535 + cmana_frac (misc s) in
  let s :=
    if new_mana_frac >=? 65536 then
      let s := upd_misc (set_cmana_frac (uint16 (new_mana_frac - 65536))) s in
      upd_misc (fun m => set_cmana (int16 (cmana m + 1)) m) s
    else upd_misc (set_cmana_frac (uint16 new_mana_frac)) s in
  (* must set frac to zero even if equal *)
  let s :=
    if cmana (misc s) >=? mana (misc s) then
      let s := upd_misc (fun m => set_cmana (mana m) m) s in
      upd_misc (set_cmana_frac 0) s
    else s in
  if negb (old_cmana =? cmana (misc s)) then call_ prt_cmana s else s.

(** The rate [playerUpdateRegeneration] passes on, after its two
    adjustments. *)
Definition regeneration_amount (amount : Z) (s : game) : Z :=
  let amount := if regenerate (flags s) then Z.quot (int32 (amount * 3)) 2 else amount in
  if negb (Z.land (status (flags s)) (PY_SEARCH K) =? 0) || negb (rest (flags s) =? 0)
  then int32 (amount * 2) else amount.

Definition playerUpdateRegeneration (amount : Z) (s : game) : game :=
  let amount := regeneration_amount amount s in
  let s :=
    if (poisoned (flags s) <? 1) && (chp (misc s) <? mhp (misc s)) then regenhp amount s
    else s in
  if cmana (misc s) <? mana (misc s) then regenmana amount s else s.

End Engine.

(** ** The keypress reader ([io.c]) *)

(** What a call that may end the process comes to. *)
Inductive outcome (A : Type) : Type :=
| Returned (a : A) (s : game)
| Exited (s : game).

Arguments Returned {A} a s.
Arguments Exited {A} s.

Section Reader.

(** [save_char()] belongs to the save files; only its verdict is used. *)
Variable save_char_ok : game -> bool.

Definition put_qio (s : game) : game :=
  let s := set_screen_change true s in
  call_ refresh s.

(** The [i == EOF] branch of [inkey]. *)
Definition inkey_eof (s : game) : outcome Z :=
  let s := set_msg_flag false s in
  let s := set_eof_flag (eof_flag s + 1) s in
  let s := call_ refresh s in
  if negb (character_generated s) || character_saved s then Exited (call_ exit_game s)
  else
    let s := call_ (disturb 1 0) s in
    if eof_flag s >? 100 then
      let s := set_panic_save true s in
      let s := set_died_from "(end of input: panic saved)" s in
      let ok := save_char_ok s in
      let s := call_ save_char s in
      let s :=
        if negb ok then
          let s := set_died_from "panic: unexpected eof" s in
          set_death true s
        else s in
      Exited (call_ exit_game s)
    else Returned ESCAPE s.

(** The [while (true)] of [inkey], with [pending] what [getch()] has yet to
    hand out; an exhausted terminal answers [EOF]. *)
Fixpoint inkey_loop (pending : list Z) (s : game) : outcome Z :=
  match pending with
  | [] => inkey_eof (set_input [] s)
  | i :: pending =>
      if i =? EOF then inkey_eof (set_input pending s)
      else if negb (i =? CTRL_KEY "R") then Returned (to_char i) (set_input pending s)
      else
        let s := call_ wrefresh_curscr s in
        let s := call_ moriaterm s in
        inkey_loop pending s
  end.

Definition inkey (s : game) : outcome Z :=
  let s := put_qio s in
  let s := set_command_count 0 s in
  inkey_loop (input s) s.

End Reader.

(** ** The command interpreter ([dungeon.c]) *)

(** The files whose text [displayTextHelpFile] shows. *)
Inductive help_file : Type := MORIA_GPL | MORIA_HELP | MORIA_ORIG_HELP | MORIA_VER.

(** The command handlers [do_command] dispatches to.  Most are defined in
    other files; what they do to the state is the parameter [run] below. *)
Inductive handler : Type :=
| commandQuit | commandPreviousMessage | commandFlipWizardMode
| commandSaveAndExit | commandLocateOnMap | commandToggleSearch
| displayTextHelpFile (f : help_file)
| terminalSaveScreen | terminalRestoreScreen | set_options | scribe_object
| move_char (dir : Z) (do_pickup : bool)
| find_init (dir : Z)
| tunnel (dir : Z)
| displayWorldObjectDescription | rest_a_while
| go_up | go_down | bash | change_name | disarm_trap | playerEat
| refill_lamp | gain_spells | showScoresScreen | aim | displayDungeonMap
| examine_book | closeobject | inven_command (c : Z) | throw_object
| jamdoor | look | getAndCastMagicSpell | openobject | pray | quaff
| read_scroll | search | use
| doWizardCommands (c : Z).

(** [sprintf(tmp, "%d", counter)] for the counts the parser can hold: at
    most three digits, no sign. *)
Definition digit_char (d : Z) : ascii := ascii_of_N (Z.to_N (ch "0" + d)).

Definition sprintf_d (n : Z) : string :=
  if n <? 10 then String (digit_char n) EmptyString
  else if n <? 100 then
    String (digit_char (n / 10)) (String (digit_char (n mod 10)) EmptyString)
  else
    String (digit_char (n / 100))
      (String (digit_char (n / 10 mod 10)) (String (digit_char (n mod 10)) EmptyString)).

(** Check whether this command will accept a count. -CJS- *)
Definition count_refused : list Z :=
  [ch "Q"; CTRL_KEY "W"; CTRL_KEY "X"; ch "="; ch "{"; ch "/"; ch "<"; ch ">";
   ch "?"; ch "C"; ch "E"; ch "F"; ch "G"; ch "V"; ch "#"; ch "z"; ch "P";
   ch "c"; ch "d"; ch "e"; ch "t"; ch "i"; ch "x"; ch "m"; ch "p"; ch "q";
   ch "r"; ch "T"; ch "Z"; ch "v"; ch "w"; ch "W"; ch "X"; CTRL_KEY "A";
   ch "\"; CTRL_KEY "I"; ch "*"; ch ":"; CTRL_KEY "T"; CTRL_KEY "E";
   CTRL_KEY "F"; CTRL_KEY "S"; CTRL_KEY "Q"].

Definition count_accepted : list Z :=
  [CTRL_KEY "P"; ESCAPE; ch " "; ch "-"; ch "b"; ch "f"; ch "j"; ch "n";
   ch "h"; ch "l"; ch "y"; ch "k"; ch "u"; ch "."; ch "B"; ch "J"; ch "N";
   ch "H"; ch "L"; ch "Y"; ch "K"; ch "U"; ch "D"; ch "R"; CTRL_KEY "Y";
   CTRL_KEY "K"; CTRL_KEY "U"; CTRL_KEY "L"; CTRL_KEY "N"; CTRL_KEY "J";
   CTRL_KEY "B"; CTRL_KEY "H"; ch "S"; ch "o"; ch "s"; CTRL_KEY "D";
   CTRL_KEY "G"; ch "+"].

Definition valid_countcommand (c : Z) : bool :=
  if existsb (Z.eqb c) count_refused then false
  else if existsb (Z.eqb c) count_accepted then true
  else false.

(** Modelled from the spec: [getKeyInput] is the key reader of the display
    and input service ([readKey]); these sources hold it only under its
    earlier name [inkey], whose redraw and end-of-input handling are treated
    there.  Here it hands out the next key of the stream, and the reserved
    [ESCAPE] once the stream is exhausted. *)
Definition getKeyInput (s : game) : Z * game :=
  match input s with
  | [] => (ESCAPE, s)
  | k :: pending => (k, set_input pending s)
  end.

Definition is_digit (c : Z) : bool := (ch "0" <=? c) && (c <=? ch "9").

(** One round of the [while (true)] that reads the repeat count: [None] is
    the [break]. *)
Definition count_key (counter c : Z) (s : game) : option (Z * game) :=
  if (c =? DELETE) || (c =? CTRL_KEY "H") then
    let counter := Z.quot counter 10 in
    Some (counter, call_ (putStringClearToEOL (sprintf_d counter) 0 14) s)
  else if is_digit c then
    if counter >? 99 then Some (counter, call_ terminalBellSound s)
    else
      let counter := counter * 10 + c - ch "0" in
      Some (counter, call_ (putStringClearToEOL (sprintf_d counter) 0 14) s)
  else None.

(** The loop itself; [pending] is what [getKeyInput] has yet to hand out.
    When the stream runs dry the reader answers [ESCAPE], which is neither a
    digit nor a backspace, so the loop ends with it. *)
Fixpoint count_loop (pending : list Z) (counter c : Z) (s : game)
  : Z * Z * game :=
  match count_key counter c s with
  | None => (counter, c, set_input pending s)
  | Some (counter, s) =>
      match pending with
      | c :: pending => count_loop pending counter c s
      | [] => (counter, ESCAPE, set_input [] s)
      end
  end.

(** "Get a count for a command": from the first [getKeyInput] to the end of
    the [if] that parses the count.  Yields [counter] and
    [lastInputCommand]. *)
Definition get_count (s : game) : Z * Z * game :=
  let '(c, s) := getKeyInput s in
  if (use_roguelike_keys s && is_digit c)
     || (negb (use_roguelike_keys s) && (c =? ch "#")) then
    let s := call_ (putStringClearToEOL "Repeat count:" 0 0) s in
    let c := if c =? ch "#" then ch "0" else c in
    let '(counter, c, s) := count_loop (input s) 0 c s in
    let '(counter, s) :=
      if counter =? 0 then
        (99, call_ (putStringClearToEOL (sprintf_d 99) 0 14) s)
      else (counter, s) in
    (* a special hack to allow numbers as commands *)
    if c =? ch " " then
      let s := call_ (putStringClearToEOL "Command:" 0 20) s in
      let '(c, s) := getKeyInput s in
      (counter, c, s)
    else (counter, c, s)
  else (0, c, s).

Section Interpreter.

Variable K : constants.

(** What the handlers and the direction prompt do is decided elsewhere. *)
Variable run : handler -> game -> game.
Variable get_dir : game -> option Z * game.

(** [getCommand] is [get_com] of [io.c]: prompt, one key, [false] on
    [ESCAPE]. *)
Definition getCommand (prompt : string) (s : game) : bool * Z * game :=
  let s := call_ (putStringClearToEOL prompt 0 0) s in
  let '(c, s) := getKeyInput s in
  let res := negb (c =? ESCAPE) in
  let s := call_ (eraseLine MSG_LINE 0) s in
  (res, c, s).

(** "Another way of typing control codes". *)
Definition control_code (c : Z) (s : game) : Z * game :=
  if c =? ch "^" then
    let s := if command_count s >? 0 then call_ prt_state s else s in
    let '(res, c, s) := getCommand "Control-" s in
    if res then
      if (ch "A" <=? c) && (c <=? ch "Z") then (c - (ch "A" - 1), s)
      else if (ch "a" <=? c) && (c <=? ch "z") then (c - (ch "a" - 1), s)
      else (ch " ", call_ (printMessage "Type ^ <letter> for a control char") s)
    else (ch " ", s)
  else (c, s).

(** The inner [switch (dir_val)] of the run and tunnel prefixes. *)
Definition run_command (dir_val : Z) : Z :=
  if dir_val =? 1 then ch "B" else if dir_val =? 2 then ch "J"
  else if dir_val =? 3 then ch "N" else if dir_val =? 4 then ch "H"
  else if dir_val =? 6 then ch "L" else if dir_val =? 7 then ch "Y"
  else if dir_val =? 8 then ch "K" else if dir_val =? 9 then ch "U"
  else ch " ".

Definition tunnel_command (dir_val : Z) : Z :=
  if dir_val =? 1 then CTRL_KEY "B" else if dir_val =? 2 then CTRL_KEY "J"
  else if dir_val =? 3 then CTRL_KEY "N" else if dir_val =? 4 then CTRL_KEY "H"
  else if dir_val =? 6 then CTRL_KEY "L" else if dir_val =? 7 then CTRL_KEY "Y"
  else if dir_val =? 8 then CTRL_KEY "K" else if dir_val =? 9 then CTRL_KEY "U"
  else ch " ".

(** The cases of [original_commands] that only rename, or keep, the key. *)
Definition original_table : list (Z * Z) :=
  [(CTRL_KEY "K", ch "Q"); (CTRL_KEY "J", ch "+"); (CTRL_KEY "M", ch "+");
   (CTRL_KEY "P", CTRL_KEY "P"); (CTRL_KEY "W", CTRL_KEY "W");
   (CTRL_KEY "X", CTRL_KEY "X"); (CTRL_KEY "V", CTRL_KEY "V");
   (ch " ", ch " "); (ch "!", ch "!"); (ch "$", ch "$");
   (ch "/", ch "/"); (ch "<", ch "<"); (ch ">", ch ">"); (ch "-", ch "-");
   (ch "=", ch "="); (ch "{", ch "{"); (ch "?", ch "?"); (ch "A", ch "A");
   (ch "1", ch "b"); (ch "2", ch "j"); (ch "3", ch "n"); (ch "4", ch "h");
   (ch "5", ch "."); (ch "6", ch "l"); (ch "7", ch "y"); (ch "8", ch "k");
   (ch "9", ch "u"); (ch "B", ch "f");
   (ch "C", ch "C"); (ch "D", ch "D"); (ch "E", ch "E"); (ch "F", ch "F");
   (ch "G", ch "G"); (ch "L", ch "W"); (ch "M", ch "M"); (ch "R", ch "R");
   (ch "S", ch "#"); (ch "V", ch "V");
   (ch "a", ch "z"); (ch "b", ch "P");
   (ch "c", ch "c"); (ch "d", ch "d"); (ch "e", ch "e");
   (ch "f", ch "t"); (ch "h", ch "?"); (ch "i", ch "i"); (ch "j", ch "S");
   (ch "l", ch "x");
   (ch "m", ch "m"); (ch "o", ch "o"); (ch "p", ch "p"); (ch "q", ch "q");
   (ch "r", ch "r"); (ch "s", ch "s");
   (ch "t", ch "T"); (ch "u", ch "Z"); (ch "v", ch "v"); (ch "w", ch "w");
   (ch "x", ch "X");
   (CTRL_KEY "A", CTRL_KEY "A"); (CTRL_KEY "B", CTRL_KEY "O");
   (CTRL_KEY "D", CTRL_KEY "D"); (CTRL_KEY "H", ch "\");
   (CTRL_KEY "I", CTRL_KEY "I"); (CTRL_KEY "L", ch "*");
   (ch ":", ch ":"); (CTRL_KEY "T", CTRL_KEY "T"); (CTRL_KEY "E", CTRL_KEY "E");
   (CTRL_KEY "F", CTRL_KEY "F"); (CTRL_KEY "G", CTRL_KEY "G");
   (ch "@", ch "@"); (ch "+", ch "+"); (CTRL_KEY "U", ch "&")].

Fixpoint lookup_key (c : Z) (t : list (Z * Z)) : option Z :=
  match t with
  | [] => None
  | (k, v) :: t => if c =? k then Some v else lookup_key c t
  end.

Definition original_commands (com_val : Z) (s : game) : Z * game :=
  if com_val =? ch "." then
    match get_dir s with
    | (Some dir_val, s) => (run_command dir_val, s)
    | (None, s) => (ch " ", s)
    end
  else if com_val =? ch "T" then
    match get_dir s with
    | (Some dir_val, s) => (tunnel_command dir_val, s)
    | (None, s) => (ch " ", s)
    end
  else
    match lookup_key com_val original_table with
    | Some c => (c, s)
    | None => (ch "~", s) (* Anything illegal. *)
    end.

(** The inner [switch (dir_val)] of [moveWithoutPickup]. *)
Definition move_command (dir_val : Z) : Z :=
  if dir_val =? 1 then ch "b" else if dir_val =? 2 then ch "j"
  else if dir_val =? 3 then ch "n" else if dir_val =? 4 then ch "h"
  else if dir_val =? 6 then ch "l" else if dir_val =? 7 then ch "y"
  else if dir_val =? 8 then ch "k" else if dir_val =? 9 then ch "u"
  else ch "~".

(** Yields the return value and the command left behind the pointer. *)
Definition moveWithoutPickup (com_val : Z) (s : game) : bool * Z * game :=
  if negb (com_val =? ch "-") then (true, com_val, s)
  else
    let countSave := command_count s in
    match get_dir s with
    | (Some dir_val, s) =>
        let s := set_command_count countSave s in
        (false, move_command dir_val, s)
    | (None, s) => (false, ch " ", s)
    end.

Definition free_turn (s : game) : game := set_player_free_turn true s.

(** The [switch (com_val)] of [do_command]. *)
Definition do_command_switch (c : Z) (do_pickup : bool) (s : game) : game :=
  if c =? ch "Q" then free_turn (run commandQuit s)
  else if c =? CTRL_KEY "P" then free_turn (run commandPreviousMessage s)
  else if c =? CTRL_KEY "V" then free_turn (run (displayTextHelpFile MORIA_GPL) s)
  else if c =? CTRL_KEY "W" then free_turn (run commandFlipWizardMode s)
  else if c =? CTRL_KEY "X" then free_turn (run commandSaveAndExit s)
  else if c =? ch "=" then
    free_turn (run terminalRestoreScreen (run set_options (run terminalSaveScreen s)))
  else if c =? ch "{" then free_turn (run scribe_object s)
  else if (c =? ch "!") || (c =? ch "$") then free_turn s
  else if (c =? ESCAPE) || (c =? ch " ") then free_turn s
  else if c =? ch "b" then run (move_char 1 do_pickup) s
  else if c =? ch "j" then run (move_char 2 do_pickup) s
  else if c =? ch "n" then run (move_char 3 do_pickup) s
  else if c =? ch "h" then run (move_char 4 do_pickup) s
  else if c =? ch "l" then run (move_char 6 do_pickup) s
  else if c =? ch "y" then run (move_char 7 do_pickup) s
  else if c =? ch "k" then run (move_char 8 do_pickup) s
  else if c =? ch "u" then run (move_char 9 do_pickup) s
  else if c =? ch "B" then run (find_init 1) s
  else if c =? ch "J" then run (find_init 2) s
  else if c =? ch "N" then run (find_init 3) s
  else if c =? ch "H" then run (find_init 4) s
  else if c =? ch "L" then run (find_init 6) s
  else if c =? ch "Y" then run (find_init 7) s
  else if c =? ch "K" then run (find_init 8) s
  else if c =? ch "U" then run (find_init 9) s
  else if c =? ch "/" then free_turn (run displayWorldObjectDescription s)
  else if c =? ch "." then
    let s := run (move_char 5 do_pickup) s in
    if command_count s >? 1 then
      let s := set_command_count (command_count s - 1) s in
      run rest_a_while s
    else s
  else if c =? ch "<" then run go_up s
  else if c =? ch ">" then run go_down s
  else if c =? ch "?" then
    let s :=
      if use_roguelike_keys s then run (displayTextHelpFile MORIA_HELP) s
      else run (displayTextHelpFile MORIA_ORIG_HELP) s in
    free_turn s
  else if c =? ch "f" then run bash s
  else if c =? ch "C" then
    free_turn (run terminalRestoreScreen (run change_name (run terminalSaveScreen s)))
  else if c =? ch "D" then run disarm_trap s
  else if c =? ch "E" then run playerEat s
  else if c =? ch "F" then run refill_lamp s
  else if c =? ch "G" then run gain_spells s
  else if c =? ch "V" then
    free_turn (run terminalRestoreScreen (run showScoresScreen (run terminalSaveScreen s)))
  else if c =? ch "W" then free_turn (run commandLocateOnMap s)
  else if c =? ch "R" then run rest_a_while s
  else if c =? ch "#" then free_turn (run commandToggleSearch s)
  else if c =? CTRL_KEY "B" then run (tunnel 1) s
  else if (c =? CTRL_KEY "M") || (c =? CTRL_KEY "J") then run (tunnel 2) s
  else if c =? CTRL_KEY "N" then run (tunnel 3) s
  else if c =? CTRL_KEY "H" then run (tunnel 4) s
  else if c =? CTRL_KEY "L" then run (tunnel 6) s
  else if c =? CTRL_KEY "Y" then run (tunnel 7) s
  else if c =? CTRL_KEY "K" then run (tunnel 8) s
  else if c =? CTRL_KEY "U" then run (tunnel 9) s
  else if c =? ch "z" then run aim s
  else if c =? ch "M" then free_turn (run displayDungeonMap s)
  else if c =? ch "P" then free_turn (run examine_book s)
  else if c =? ch "c" then run closeobject s
  else if c =? ch "d" then run (inven_command (ch "d")) s
  else if c =? ch "e" then run (inven_command (ch "e")) s
  else if c =? ch "t" then run throw_object s
  else if c =? ch "i" then run (inven_command (ch "i")) s
  else if c =? ch "S" then run jamdoor s
  else if c =? ch "x" then free_turn (run look s)
  else if c =? ch "m" then run getAndCastMagicSpell s
  else if c =? ch "o" then run openobject s
  else if c =? ch "p" then run pray s
  else if c =? ch "q" then run quaff s
  else if c =? ch "r" then run read_scroll s
  else if c =? ch "s" then run search s
  else if c =? ch "T" then run (inven_command (ch "t")) s
  else if c =? ch "Z" then run use s
  else if c =? ch "v" then free_turn (run (displayTextHelpFile MORIA_VER) s)
  else if c =? ch "w" then run (inven_command (ch "w")) s
  else if c =? ch "X" then run (inven_command (ch "x")) s
  else
    (* Wizard commands are free moves *)
    let s := free_turn s in
    if wizard_mode s then run (doWizardCommands c) s
    else call_ (putStringClearToEOL "Type '?' for help." 0 0) s.

Definition do_command (com_val : Z) (s : game) : game :=
  let '(do_pickup, com_val, s) := moveWithoutPickup com_val s in
  let s := do_command_switch com_val do_pickup s in
  set_last_command com_val s.

(** The [if (counter > 0)] that admits or refuses the count. *)
Definition check_count (counter lastInputCommand : Z) (s : game) : Z * game :=
  if counter >? 0 then
    if negb (valid_countcommand lastInputCommand) then
      let s := set_player_free_turn true s in
      (ch " ", call_ (printMessage "Invalid command with a count.") s)
    else
      let s := set_command_count counter s in
      (lastInputCommand, call_ prt_state s)
  else (lastInputCommand, s).

(** From "Flash the message line" to the end of the loop body:
    [do_command] and the bookkeeping of the count after it. *)
Definition dispatch (lastInputCommand : Z) (s : game) : game :=
  let s := call_ (eraseLine MSG_LINE 0) s in
  let s := call_ moveCursorRelative s in
  let s := call_ putQIO s in
  let s := do_command lastInputCommand s in
  (* Find is counted differently, as the command changes. *)
  if negb (running_counter s =? 0) then
    let s := set_find_count (command_count s - 1) s in
    set_command_count 0 s
  else if player_free_turn s then set_command_count 0 s
  else if negb (command_count s =? 0) then
    set_command_count (command_count s - 1) s
  else s.

(** One turn of the [do ... while] of [executeInputCommands] on its third
    branch (not running, no inventory command under way): with a count
    pending the last command is dispatched again, otherwise a command is
    read, checked and dispatched.  The flag [use_last_direction], which only
    the direction prompt reads, is left out. *)
Definition executeInputCommands_once (lastInputCommand : Z) (s : game)
  : Z * game :=
  let s :=
    if negb (Z.land (status (flags s)) (PY_REPEAT K) =? 0) then call_ prt_state s
    else s in
  let s := set_player_free_turn false s in
  (* move the cursor to the players character *)
  let s := call_ moveCursorRelative s in
  if command_count s >? 0 then
    let s := set_msg_flag false s in
    (lastInputCommand, dispatch lastInputCommand s)
  else
    let s := set_msg_flag false s in
    let '(counter, c, s) := get_count s in
    let '(c, s) := control_code c s in
    (* move cursor to player char again, in case it moved *)
    let s := call_ moveCursorRelative s in
    (* Commands are always converted to rogue form. -CJS- *)
    let '(c, s) :=
      if negb (use_roguelike_keys s) then original_commands c s else (c, s) in
    let '(c, s) := check_count counter c s in
    (c, dispatch c s).

End Interpreter.

(** ** The template of the timed effects

    The twelve effects that pair a timer with a status bit, and the template
    the engine's design gives for their updates: set the bit and apply the
    activation effects when a positive timer meets a clear bit, decrement,
    clear the bit and undo when the timer reaches 0. *)

Inductive effect : Type :=
| Blindness | Confusion | Fear | Poison | Fastness | Slowness
| Heroism | SuperHeroism | Invulnerability | Blessedness
| DetectInvisible | InfraVision.

Definition timer (e : effect) (s : game) : Z :=
  match e with
  | Blindness => blind (flags s)
  | Confusion => confused (flags s)
  | Fear => afraid (flags s)
  | Poison => poisoned (flags s)
  | Fastness => fast (flags s)
  | Slowness => slow (flags s)
  | Heroism => hero (flags s)
  | SuperHeroism => shero (flags s)
  | Invulnerability => invuln (flags s)
  | Blessedness => blessed (flags s)
  | DetectInvisible => detect_inv (flags s)
  | InfraVision => tim_infra (flags s)
  end.

Definition set_timer (e : effect) (v : Z) (s : game) : game :=
  match e with
  | Blindness => upd_flags (set_blind v) s
  | Confusion => upd_flags (set_confused v) s
  | Fear => upd_flags (set_afraid v) s
  | Poison => upd_flags (set_poisoned v) s
  | Fastness => upd_flags (set_fast v) s
  | Slowness => upd_flags (set_slow v) s
  | Heroism => upd_flags (set_hero v) s
  | SuperHeroism => upd_flags (set_shero v) s
  | Invulnerability => upd_flags (set_invuln v) s
  | Blessedness => upd_flags (set_blessed v) s
  | DetectInvisible => upd_flags (set_detect_inv v) s
  | InfraVision => upd_flags (set_tim_infra v) s
  end.

Section Template.

Variable K : constants.
Variable con_adj : game -> Z.

Definition status_bit (e : effect) : Z :=
  match e with
  | Blindness => PY_BLIND K
  | Confusion => PY_CONFUSED K
  | Fear => PY_FEAR K
  | Poison => PY_POISONED K
  | Fastness => PY_FAST K
  | Slowness => PY_SLOW K
  | Heroism => PY_HERO K
  | SuperHeroism => PY_SHERO K
  | Invulnerability => PY_INVULN K
  | Blessedness => PY_BLESSED K
  | DetectInvisible => PY_DET_INV K
  | InfraVision => PY_TIM_INFRA K
  end.

(** The effect's bit is set in the status word. *)
Definition active (e : effect) (s : game) : bool :=
  negb (status_clear (status_bit e) s).

(** The per-turn update of each effect, as the engine runs it. *)
Definition update (e : effect) : game -> game :=
  match e with
  | Blindness => playerUpdateBlindness K
  | Confusion => playerUpdateConfusion K
  | Fear => playerUpdateFearState K
  | Poison => playerUpdatePoisonedState K con_adj
  | Fastness => playerUpdateFastness K
  | Slowness => playerUpdateSlowness K
  | Heroism => heroism_block K
  | SuperHeroism => super_heroism_block K
  | Invulnerability => playerUpdateInvulnerability K
  | Blessedness => playerUpdateBlessedness K
  | DetectInvisible => playerUpdateDetectInvisible K
  | InfraVision => playerUpdateInfraVision K
  end.

Definition calls (l : list call) (s : game) : game :=
  set_trace (rev l ++ trace s) s.

(** Step 1 of the template: the bit and the one-time activation effects. *)
Definition activation (e : effect) (s : game) : game :=
  let s := status_or (status_bit e) s in
  match e with
  | Blindness => calls [prt_map; prt_blind; disturb 0 1; updateMonsters false] s
  | Confusion => calls [prt_confused] s
  | Fear => calls [prt_afraid] s
  | Poison => calls [prt_poisoned] s
  | Fastness =>
      calls [change_speed (-1); printMessage "You feel yourself moving faster.";
             disturb 0 0] s
  | Slowness =>
      calls [change_speed 1; printMessage "You feel yourself moving slower.";
             disturb 0 0] s
  | Heroism =>
      let s := calls [disturb 0 0] s in
      let s :=
        upd_misc (fun m => set_bthb (int16 (bthb m + 12))
                   (set_bth (int16 (bth m + 12))
                   (set_chp (int16 (chp m + 10))
                   (set_mhp (int16 (mhp m + 10)) m)))) s in
      calls [printMessage "You feel like a HERO!"; prt_mhp; prt_chp] s
  | SuperHeroism =>
      let s := calls [disturb 0 0] s in
      let s :=
        upd_misc (fun m => set_bthb (int16 (bthb m + 24))
                   (set_bth (int16 (bth m + 24))
                   (set_chp (int16 (chp m + 20))
                   (set_mhp (int16 (mhp m + 20)) m)))) s in
      calls [printMessage "You feel like a SUPER HERO!"; prt_mhp; prt_chp] s
  | Invulnerability =>
      let s := calls [disturb 0 0] s in
      let s :=
        upd_misc (fun m => set_dis_ac (int16 (dis_ac m + 100))
                   (set_pac (int16 (pac m + 100)) m)) s in
      calls [prt_pac; printMessage "Your skin turns into steel!"] s
  | Blessedness =>
      let s := calls [disturb 0 0] s in
      let s :=
        upd_misc (fun m => set_dis_ac (int16 (dis_ac m + 2))
                   (set_pac (int16 (pac m + 2))
                   (set_bthb (int16 (bthb m + 5))
                   (set_bth (int16 (bth m + 5)) m)))) s in
      calls [printMessage "You feel righteous!"; prt_pac] s
  | DetectInvisible =>
      calls [updateMonsters false] (upd_flags (set_see_inv true) s)
  | InfraVision =>
      calls [updateMonsters false]
        (upd_flags (fun f => set_see_infra (int16 (see_infra f + 1)) f) s)
  end.

(** The clamp of the current hit points when heroism takes its extra
    maximum back. *)
Definition clamp_chp (s : game) : game :=
  if chp (misc s) >? mhp (misc s) then
    calls [prt_chp] (upd_misc (fun m => set_chp_frac 0 (set_chp (mhp m) m)) s)
  else s.

(** Step 3 of the template: the bit cleared and the effects undone. *)
Definition deactivation (e : effect) (s : game) : game :=
  let s := status_andnot (status_bit e) s in
  match e with
  | Blindness =>
      calls [prt_blind; prt_map; disturb 0 1; updateMonsters false;
             printMessage "The veil of darkness lifts."] s
  | Confusion =>
      let s := calls [prt_confused; printMessage "You feel less confused now."] s in
      if negb (rest (flags s) =? 0) then calls [rest_off] s else s
  | Fear => calls [prt_afraid; printMessage "You feel bolder now."; disturb 0 0] s
  | Poison => calls [prt_poisoned; printMessage "You feel better."; disturb 0 0] s
  | Fastness =>
      calls [change_speed 1; printMessage "You feel yourself slow down.";
             disturb 0 0] s
  | Slowness =>
      calls [change_speed (-1); printMessage "You feel yourself speed up.";
             disturb 0 0] s
  | Heroism =>
      let s := calls [disturb 0 0] s in
      let s := upd_misc (fun m => set_mhp (int16 (mhp m - 10)) m) s in
      let s := clamp_chp s in
      let s :=
        upd_misc (fun m => set_bthb (int16 (bthb m - 12))
                   (set_bth (int16 (bth m - 12)) m)) s in
      calls [printMessage "The heroism wears off."; prt_mhp] s
  | SuperHeroism =>
      let s := calls [disturb 0 0] s in
      let s := upd_misc (fun m => set_mhp (int16 (mhp m - 20)) m) s in
      let s := clamp_chp s in
      let s :=
        upd_misc (fun m => set_bthb (int16 (bthb m - 24))
                   (set_bth (int16 (bth m - 24)) m)) s in
      calls [printMessage "The super heroism wears off."; prt_mhp] s
  | Invulnerability =>
      let s := calls [disturb 0 0] s in
      let s :=
        upd_misc (fun m => set_dis_ac (int16 (dis_ac m - 100))
                   (set_pac (int16 (pac m - 100)) m)) s in
      calls [prt_pac; printMessage "Your skin returns to normal."] s
  | Blessedness =>
      let s := calls [disturb 0 0] s in
      let s :=
        upd_misc (fun m => set_dis_ac (int16 (dis_ac m - 2))
                   (set_pac (int16 (pac m - 2))
                   (set_bthb (int16 (bthb m - 5))
                   (set_bth (int16 (bth m - 5)) m)))) s in
      calls [printMessage "The prayer has expired."; prt_pac] s
  | DetectInvisible => calls [calc_bonuses; updateMonsters false] s
  | InfraVision =>
      calls [updateMonsters false]
        (upd_flags (fun f => set_see_infra (int16 (see_infra f - 1)) f) s)
  end.

(** What an effect does on a turn that leaves its timer positive: nothing,
    but for the damage of poison. *)
Definition per_turn (e : effect) (s : game) : game :=
  match e with
  | Poison =>
      calls [take_hit (poison_damage (con_adj s) (current_game_turn s)) "poison";
             disturb 1 0] s
  | _ => s
  end.

(** Fear under heroism or super-heroism. *)
Definition suppressed (e : effect) (s : game) : bool :=
  match e with
  | Fear => shero (flags s) + hero (flags s) >? 0
  | _ => false
  end.

(** The activation effects fire on this turn. *)
Definition fires_activation (e : effect) (s : game) : bool :=
  (0 <? timer e s) && negb (active e s) && negb (suppressed e s).

(** The value the decrement meets: the timer, or what suppressed fear
    forces it to. *)
Definition armed_timer (e : effect) (s : game) : Z :=
  if suppressed e s then (if active e s then 1 else 0) else timer e s.

(** The deactivation effects fire on this turn. *)
Definition fires_deactivation (e : effect) (s : game) : bool :=
  (0 <? timer e s) && (armed_timer e s =? 1).

(** One turn of the template. *)
Definition tick (e : effect) (s : game) : game :=
  if timer e s <=? 0 then s
  else
    let s1 := if fires_activation e s then activation e s else s in
    let s2 := set_timer e (armed_timer e s - 1) s1 in
    if fires_deactivation e s then deactivation e s2 else per_turn e s2.

(** How often the activation and the deactivation effects fire in [k]
    consecutive updates. *)
Fixpoint edges (e : effect) (k : nat) (s : game) : nat * nat :=
  match k with
  | O => (O, O)
  | S k =>
      let '(a, d) := edges e k (update e s) in
      ((if fires_activation e s then S a else a),
       (if fires_deactivation e s then S d else d))
  end.

End Template.

(** ** Vocabulary of the statements *)

(** The damage of the [take_hit] calls in a trace, newest first. *)
Fixpoint hits (l : list call) : list Z :=
  match l with
  | [] => []
  | take_hit damage _ :: l => damage :: hits l
  | _ :: l => hits l
  end.

(** The damage table of poison, as the design words it: what a turn with
    constitution adjustment [adj] deals at turn counter [turn]. *)
Definition poison_schedule (adj turn damage : Z) : Prop :=
  (adj = -4 -> damage = 4)
  /\ (adj = -3 \/ adj = -2 -> damage = 3)
  /\ (adj = -1 -> damage = 2)
  /\ (adj = 0 -> damage = 1)
  /\ (1 <= adj <= 3 -> damage = if turn mod 2 =? 0 then 1 else 0)
  /\ (4 <= adj <= 5 -> damage = if turn mod 3 =? 0 then 1 else 0)
  /\ (adj = 6 -> damage = if turn mod 4 =? 0 then 1 else 0).

(** [n] calls in a row. *)
Fixpoint iterate {A : Type} (n : nat) (f : A -> A) (x : A) : A :=
  match n with
  | O => x
  | S n => iterate n f (f x)
  end.

(** Hit points below their maximum, every field within its C type. *)
Definition hp_below_max (s : game) : Prop :=
  -32768 <= chp (misc s) /\ chp (misc s) < mhp (misc s) /\ mhp (misc s) <= 32767
  /\ 0 <= chp_frac (misc s) < 65536.

(** What [getch()] can answer with the keypad off, as [moriaterm] sets it:
    [EOF] or an 8-bit code. *)
Definition terminal_code (i : Z) : Prop := -1 <= i <= 255.

(** What [inkey] does with a ^R: redraw, and set the terminal up again. *)
Definition redraw (s : game) : game := call_ moriaterm (call_ wrefresh_curscr s).

(** [getch()] is about to answer [EOF]. *)
Definition at_end_of_input (s : game) : Prop :=
  input s = [] \/ exists pending, input s = EOF :: pending.

(** The keys the count loop takes: backspaces and digits. *)
Definition is_backspace (c : Z) : bool := (c =? DELETE) || (c =? CTRL_KEY "H").

Definition is_count_key (c : Z) : bool := is_backspace c || is_digit c.

(** The count after one more such key. *)
Definition count_after (counter c : Z) : Z :=
  if is_backspace c then Z.quot counter 10
  else if counter >? 99 then counter
  else counter * 10 + c - ch "0".

Definition typed_count (keys : list Z) : Z := fold_left count_after keys 0.

(** The digits typed on a count above 99. *)
Fixpoint refused_digits (keys : list Z) (counter : Z) : nat :=
  match keys with
  | [] => O
  | c :: keys =>
      ((if negb (is_backspace c) && (counter >? 99) then 1 else 0)
       + refused_digits keys (count_after counter c))%nat
  end.

Fixpoint bells (l : list call) : nat :=
  match l with
  | [] => O
  | terminalBellSound :: l => S (bells l)
  | _ :: l => bells l
  end.

(** The key that opens a count: a digit under the roguelike keys, [#] under
    the original ones. *)
Definition starts_count (s : game) (c : Z) : bool :=
  (use_roguelike_keys s && is_digit c) || (negb (use_roguelike_keys s) && (c =? ch "#")).

(** The keys after the count end it: none left, or one the loop does not
    take. *)
Definition ends_count (tail : list Z) : bool :=
  match tail with
  | [] => true
  | c :: _ => negb (is_count_key c)
  end.

(** The commands [do_command] hands to [inven_command]: drop, equipment
    list, inventory list, take off, wear, exchange. *)
Definition inventory_commands : list Z :=
  [ch "d"; ch "e"; ch "i"; ch "T"; ch "w"; ch "X"].

(** The commands that use up an item: eat, fill the lamp, quaff, read, aim
    a wand, use a staff, throw. *)
Definition item_commands : list Z :=
  [ch "E"; ch "F"; ch "q"; ch "r"; ch "z"; ch "Z"; ch "t"].

(** The eight directions of a single step. *)
Definition movement_commands : list Z :=
  [ch "b"; ch "j"; ch "n"; ch "h"; ch "l"; ch "y"; ch "k"; ch "u"].

(** Modelled from the spec: [constant.h] is not among the sources.  The
    status flags are independent bits of one mask and the regeneration
    biases are small and positive; the values below follow the
    game's [constant.h] and serve to run the model on concrete states; no
    theorem depends on them. *)
Definition umoria_constants : constants :=
  {| PY_BLIND := 4; PY_CONFUSED := 8; PY_FEAR := 16; PY_POISONED := 32;
     PY_FAST := 64; PY_SLOW := 128; PY_SEARCH := 256; PY_INVULN := 4096;
     PY_HERO := 8192; PY_SHERO := 16384; PY_BLESSED := 32768;
     PY_DET_INV := 65536; PY_TIM_INFRA := 131072; PY_REPEAT := 2097152;
     PLAYER_REGEN_HPBASE := 1442; PLAYER_REGEN_MNBASE := 524 |}.

(** A character in play with nothing going on: 10 of 10 hit points, no
    timer running, no key typed. *)
Definition quiet_flags : player_flags :=
  {| status := 0; hero := 0; shero := 0; blind := 0; confused := 0; afraid := 0;
     poisoned := 0; fast := 0; slow := 0; rest := 0; paralysis := 0; invuln := 0;
     blessed := 0; detect_inv := 0; tim_infra := 0; see_inv := false;
     see_infra := 0; regenerate := false |}.

Definition quiet_misc : player_misc :=
  {| mhp := 10; chp := 10; chp_frac := 0; mana := 5; cmana := 5; cmana_frac := 0;
     bth := 0; bthb := 0; pac := 0; dis_ac := 0 |}.

Definition quiet_game : game :=
  {| flags := quiet_flags; misc := quiet_misc; current_game_turn := 1;
     command_count := 0; player_free_turn := false; last_command := 0;
     running_counter := 0; find_count := 0; use_roguelike_keys := true;
     wizard_mode := false; eof_flag := 0; msg_flag := false;
     character_generated := true; character_saved := false;
     panic_save := false; death := false; died_from := EmptyString;
     screen_change := false; input := []; trace := [] |}.

(** The same before any character is generated. *)
Definition no_character_game : game :=
  {| flags := quiet_flags; misc := quiet_misc; current_game_turn := 1;
     command_count := 0; player_free_turn := false; last_command := 0;
     running_counter := 0; find_count := 0; use_roguelike_keys := true;
     wizard_mode := false; eof_flag := 0; msg_flag := false;
     character_generated := false; character_saved := false;
     panic_save := false; death := false; died_from := EmptyString;
     screen_change := false; input := []; trace := [] |}.

(** No handler and no direction prompt, for running the interpreter on
    commands that call neither. *)
Definition no_handler (h : handler) (s : game) : game := s.
Definition no_direction (s : game) : option Z * game := (None, s).

(** Every status bit names at least one bit of the mask. *)
Definition status_bits_nonzero (K : constants) : Prop :=
  forall e, status_bit K e <> 0.

(** * More of the two files

    The functions of [dungeon.c] and [io.c] that the first part leaves
    out and that can be written over the same state, or over a small
    extension of it: resting, the light and the lamp, hunger, the plain
    protections, Word-of-Recall, the redisplay flags, two commands, and the
    message line with its prompts.  The conventions are those of the first
    part. *)

(** The directions a direction prompt can answer with a move: the keypad
    digits but 5. *)
Definition is_direction (d : Z) : bool := (1 <=? d) && (d <=? 9) && negb (d =? 5).

(** A direction prompt that answers [d] and touches nothing. *)
Definition answer_direction (d : Z) (s : game) : option Z * game := (Some d, s).



(** Hit points and mana as 16.16 fixed-point numbers. *)
Definition hp_total (s : game) : Z := chp (misc s) * 65536 + chp_frac (misc s).
Definition mana_total (s : game) : Z := cmana (misc s) * 65536 + cmana_frac (misc s).






(** ** More of the engine ([dungeon.c]) *)

(** Resting is over? *)
Definition playerUpdateRestingState (s : game) : game :=
  if rest (flags s) >? 0 then
    let s := upd_flags (fun f => set_rest (rest f - 1) f) s in
    (* Resting over *)
    if rest (flags s) =? 0 then call_ rest_off s else s
  else if rest (flags s) <? 0 then
    (* Rest until reach max mana and max hit points. *)
    let s := upd_flags (fun f => set_rest (rest f + 1) f) s in
    if ((chp (misc s) =? mhp (misc s)) && (cmana (misc s) =? mana (misc s)))
       || (rest (flags s) =? 0)
    then call_ rest_off s else s
  else s.

(** The [rest_off] calls in a trace. *)
Fixpoint rest_offs (l : list call) : nat :=
  match l with
  | [] => O
  | rest_off :: l => S (rest_offs l)
  | _ :: l => rest_offs l
  end.


(** [inkey] called again and again, as long as it returns: the keys it
    returned, oldest first, and how the last call ended. *)
Fixpoint inkey_times (save_char_ok : game -> bool) (n : nat) (s : game)
  : list Z * outcome unit :=
  match n with
  | O => ([], Returned tt s)
  | S n =>
      match inkey save_char_ok s with
      | Returned k s =>
          let '(keys, r) := inkey_times save_char_ok n s in (k :: keys, r)
      | Exited s => ([], Exited s)
      end
  end.

(** ** The rest of the turn ([dungeon.c]) *)

(** More constants of [constant.h] that the code names and whose values
    the sources do not show: further status bits, the hunger thresholds and
    regeneration classes, the capacity of the lamp, the size of the
    message ring and that of a message buffer. *)
Record more_constants : Type := Build_more_constants {
  PY_HUNGRY : Z;
  PY_WEAK : Z;
  PY_SPEED : Z;
  PY_PARALYSED : Z;
  PY_ARMOR : Z;
  PY_STATS : Z;
  PY_STR : Z;
  PY_HP : Z;
  PY_MANA : Z;
  PLAYER_FOOD_ALERT : Z;
  PLAYER_FOOD_WEAK : Z;
  PLAYER_FOOD_FAINT : Z;
  PLAYER_REGEN_NORMAL : Z;
  PLAYER_REGEN_WEAK : Z;
  PLAYER_REGEN_FAINT : Z;
  OBJ_LAMP_MAX : Z;
  MAX_SAVE_MSG : Z;
  VTYPESIZ : Z
}.

(** The calls these functions make: those of the first list, the routines
    [do_command] dispatches to, and a few more. *)
Inductive service : Type :=
| known (c : call)
| handled (h : handler)
| prt_hunger | prt_speed | prt_stat (n : Z)
| putString (m : string) (row col : Z)
| waitForContinueKey (line : Z)
| itemTypeRemainingCountDescription (i : Z)
| inven_destroy (i : Z).

(** The state these functions work on: the state of the first part and
    the further globals they read and write.  The counters of [py.flags]
    and of an inventory item are taken as 16-bit, like those of [py.misc].
    Calls are recorded in [journal], in order. *)
Record dungeon : Type := Build_dungeon {
  player : game;  (* the state of the first part *)
  food : Z;  (* py.flags.food *)
  food_digested : Z;  (* py.flags.food_digested *)
  speed : Z;  (* py.flags.speed *)
  protevil : Z;  (* py.flags.protevil *)
  resist_heat : Z;  (* py.flags.resist_heat *)
  resist_cold : Z;  (* py.flags.resist_cold *)
  word_recall : Z;  (* py.flags.word_recall *)
  max_dlv : Z;  (* py.misc.max_dlv, uint16 *)
  current_dungeon_level : Z;  (* int16 *)
  generate_new_level : bool;
  player_carrying_light : bool;
  light_p1 : Z;  (* inventory[INVEN_LIGHT].p1: turns of light left *)
  light_subval : Z;  (* inventory[INVEN_LIGHT].subval: 0 for a lamp *)
  messages : list string;  (* the ring of kept messages *)
  last_message_id : Z;  (* index of the newest one *)
  dice : nat -> Z;  (* what the calls of randomNumber return, in order *)
  rolls : nat;  (* how many of them were made *)
  journal : list service  (* service calls made so far, newest first *)
}.

Definition set_player (v : game) (r : dungeon) : dungeon :=
  Build_dungeon v (food r) (food_digested r) (speed r) (protevil r)
    (resist_heat r) (resist_cold r) (word_recall r) (max_dlv r)
    (current_dungeon_level r) (generate_new_level r) (player_carrying_light r)
    (light_p1 r) (light_subval r) (messages r) (last_message_id r) (dice r)
    (rolls r) (journal r).

Definition set_food (v : Z) (r : dungeon) : dungeon :=
  Build_dungeon (player r) v (food_digested r) (speed r) (protevil r)
    (resist_heat r) (resist_cold r) (word_recall r) (max_dlv r)
    (current_dungeon_level r) (generate_new_level r) (player_carrying_light r)
    (light_p1 r) (light_subval r) (messages r) (last_message_id r) (dice r)
    (rolls r) (journal r).

Definition set_food_digested (v : Z) (r : dungeon) : dungeon :=
  Build_dungeon (player r) (food r) v (speed r) (protevil r) (resist_heat r)
    (resist_cold r) (word_recall r) (max_dlv r) (current_dungeon_level r)
    (generate_new_level r) (player_carrying_light r) (light_p1 r)
    (light_subval r) (messages r) (last_message_id r) (dice r) (rolls r)
    (journal r).

Definition set_speed (v : Z) (r : dungeon) : dungeon :=
  Build_dungeon (player r) (food r) (food_digested r) v (protevil r)
    (resist_heat r) (resist_cold r) (word_recall r) (max_dlv r)
    (current_dungeon_level r) (generate_new_level r) (player_carrying_light r)
    (light_p1 r) (light_subval r) (messages r) (last_message_id r) (dice r)
    (rolls r) (journal r).

Definition set_protevil (v : Z) (r : dungeon) : dungeon :=
  Build_dungeon (player r) (food r) (food_digested r) (speed r) v
    (resist_heat r) (resist_cold r) (word_recall r) (max_dlv r)
    (current_dungeon_level r) (generate_new_level r) (player_carrying_light r)
    (light_p1 r) (light_subval r) (messages r) (last_message_id r) (dice r)
    (rolls r) (journal r).

Definition set_resist_heat (v : Z) (r : dungeon) : dungeon :=
  Build_dungeon (player r) (food r) (food_digested r) (speed r) (protevil r) v
    (resist_cold r) (word_recall r) (max_dlv r) (current_dungeon_level r)
    (generate_new_level r) (player_carrying_light r) (light_p1 r)
    (light_subval r) (messages r) (last_message_id r) (dice r) (rolls r)
    (journal r).

Definition set_resist_cold (v : Z) (r : dungeon) : dungeon :=
  Build_dungeon (player r) (food r) (food_digested r) (speed r) (protevil r)
    (resist_heat r) v (word_recall r) (max_dlv r) (current_dungeon_level r)
    (generate_new_level r) (player_carrying_light r) (light_p1 r)
    (light_subval r) (messages r) (last_message_id r) (dice r) (rolls r)
    (journal r).

Definition set_word_recall (v : Z) (r : dungeon) : dungeon :=
  Build_dungeon (player r) (food r) (food_digested r) (speed r) (protevil r)
    (resist_heat r) (resist_cold r) v (max_dlv r) (current_dungeon_level r)
    (generate_new_level r) (player_carrying_light r) (light_p1 r)
    (light_subval r) (messages r) (last_message_id r) (dice r) (rolls r)
    (journal r).

Definition set_max_dlv (v : Z) (r : dungeon) : dungeon :=
  Build_dungeon (player r) (food r) (food_digested r) (speed r) (protevil r)
    (resist_heat r) (resist_cold r) (word_recall r) v
    (current_dungeon_level r) (generate_new_level r) (player_carrying_light r)
    (light_p1 r) (light_subval r) (messages r) (last_message_id r) (dice r)
    (rolls r) (journal r).

Definition set_current_dungeon_level (v : Z) (r : dungeon) : dungeon :=
  Build_dungeon (player r) (food r) (food_digested r) (speed r) (protevil r)
    (resist_heat r) (resist_cold r) (word_recall r) (max_dlv r) v
    (generate_new_level r) (player_carrying_light r) (light_p1 r)
    (light_subval r) (messages r) (last_message_id r) (dice r) (rolls r)
    (journal r).

Definition set_generate_new_level (v : bool) (r : dungeon) : dungeon :=
  Build_dungeon (player r) (food r) (food_digested r) (speed r) (protevil r)
    (resist_heat r) (resist_cold r) (word_recall r) (max_dlv r)
    (current_dungeon_level r) v (player_carrying_light r) (light_p1 r)
    (light_subval r) (messages r) (last_message_id r) (dice r) (rolls r)
    (journal r).

Definition set_player_carrying_light (v : bool) (r : dungeon) : dungeon :=
  Build_dungeon (player r) (food r) (food_digested r) (speed r) (protevil r)
    (resist_heat r) (resist_cold r) (word_recall r) (max_dlv r)
    (current_dungeon_level r) (generate_new_level r) v (light_p1 r)
    (light_subval r) (messages r) (last_message_id r) (dice r) (rolls r)
    (journal r).

Definition set_light_p1 (v : Z) (r : dungeon) : dungeon :=
  Build_dungeon (player r) (food r) (food_digested r) (speed r) (protevil r)
    (resist_heat r) (resist_cold r) (word_recall r) (max_dlv r)
    (current_dungeon_level r) (generate_new_level r) (player_carrying_light r)
    v (light_subval r) (messages r) (last_message_id r) (dice r) (rolls r)
    (journal r).

Definition set_light_subval (v : Z) (r : dungeon) : dungeon :=
  Build_dungeon (player r) (food r) (food_digested r) (speed r) (protevil r)
    (resist_heat r) (resist_cold r) (word_recall r) (max_dlv r)
    (current_dungeon_level r) (generate_new_level r) (player_carrying_light r)
    (light_p1 r) v (messages r) (last_message_id r) (dice r) (rolls r)
    (journal r).

Definition set_messages (v : list string) (r : dungeon) : dungeon :=
  Build_dungeon (player r) (food r) (food_digested r) (speed r) (protevil r)
    (resist_heat r) (resist_cold r) (word_recall r) (max_dlv r)
    (current_dungeon_level r) (generate_new_level r) (player_carrying_light r)
    (light_p1 r) (light_subval r) v (last_message_id r) (dice r) (rolls r)
    (journal r).

Definition set_last_message_id (v : Z) (r : dungeon) : dungeon :=
  Build_dungeon (player r) (food r) (food_digested r) (speed r) (protevil r)
    (resist_heat r) (resist_cold r) (word_recall r) (max_dlv r)
    (current_dungeon_level r) (generate_new_level r) (player_carrying_light r)
    (light_p1 r) (light_subval r) (messages r) v (dice r) (rolls r)
    (journal r).

Definition set_dice (v : nat -> Z) (r : dungeon) : dungeon :=
  Build_dungeon (player r) (food r) (food_digested r) (speed r) (protevil r)
    (resist_heat r) (resist_cold r) (word_recall r) (max_dlv r)
    (current_dungeon_level r) (generate_new_level r) (player_carrying_light r)
    (light_p1 r) (light_subval r) (messages r) (last_message_id r) v (rolls r)
    (journal r).

Definition set_rolls (v : nat) (r : dungeon) : dungeon :=
  Build_dungeon (player r) (food r) (food_digested r) (speed r) (protevil r)
    (resist_heat r) (resist_cold r) (word_recall r) (max_dlv r)
    (current_dungeon_level r) (generate_new_level r) (player_carrying_light r)
    (light_p1 r) (light_subval r) (messages r) (last_message_id r) (dice r) v
    (journal r).

Definition set_journal (v : list service) (r : dungeon) : dungeon :=
  Build_dungeon (player r) (food r) (food_digested r) (speed r) (protevil r)
    (resist_heat r) (resist_cold r) (word_recall r) (max_dlv r)
    (current_dungeon_level r) (generate_new_level r) (player_carrying_light r)
    (light_p1 r) (light_subval r) (messages r) (last_message_id r) (dice r)
    (rolls r) v.
Definition note (c : service) (d : dungeon) : dungeon :=
  set_journal (c :: journal d) d.

Definition tell (c : call) (d : dungeon) : dungeon := note (known c) d.

Definition upd_player (u : game -> game) (d : dungeon) : dungeon :=
  set_player (u (player d)) d.

(** [randomNumber(max)] belongs to another file; what it returns is the
    next value of the stream [dice], and [max] only bounds it there. *)
Definition randomNumber (max : Z) (d : dungeon) : Z * dungeon :=
  (dice d (rolls d), set_rolls (S (rolls d)) d).

Section Turn.

Variable K : more_constants.


(** Check for a maximum level *)
Definition playerUpdateDeepestDungeonLevelVisited (d : dungeon) : dungeon :=
  if current_dungeon_level d >? max_dlv d then
    set_max_dlv (uint16 (current_dungeon_level d)) d
  else d.

(** Check light status *)
Definition playerUpdateLightStatus (d : dungeon) : dungeon :=
  if player_carrying_light d then
    if light_p1 d >? 0 then
      let d := set_light_p1 (light_p1 d - 1) d in
      if light_p1 d =? 0 then
        let d := set_player_carrying_light false d in
        let d := tell (printMessage "Your light has gone out!") d in
        let d := tell (disturb 0 1) d in
        (* unlight creatures *)
        tell (updateMonsters false) d
      else if light_p1 d <? 40 then
        let '(r, d) := randomNumber 5 d in
        if (r =? 1) && (blind (flags (player d)) <? 1) then
          let d := tell (disturb 0 0) d in
          tell (printMessage "Your light is growing faint.") d
        else d
      else d
    else
      let d := set_player_carrying_light false d in
      let d := tell (disturb 0 1) d in
      (* unlight creatures *)
      tell (updateMonsters false) d
  else if light_p1 d >? 0 then
    let d := set_light_p1 (light_p1 d - 1) d in
    let d := set_player_carrying_light true d in
    let d := tell (disturb 0 1) d in
    (* light creatures *)
    tell (updateMonsters false) d
  else d.

(** The first half of [playerFoodConsumption]: the regeneration class of
    this turn, and the notices of hunger. *)
Definition hunger_notices (d : dungeon) : Z * dungeon :=
  (* Regenerate hp and mana *)
  let regen_amount := PLAYER_REGEN_NORMAL K in
  if food d <? PLAYER_FOOD_ALERT K then
    if food d <? PLAYER_FOOD_WEAK K then
      let regen_amount :=
        if food d <? 0 then 0
        else if food d <? PLAYER_FOOD_FAINT K then PLAYER_REGEN_FAINT K
        else if food d <? PLAYER_FOOD_WEAK K then PLAYER_REGEN_WEAK K
        else regen_amount in
      let d :=
        if status_clear (PY_WEAK K) (player d) then
          let d := upd_player (status_or (PY_WEAK K)) d in
          let d := tell (printMessage "You are getting weak from hunger.") d in
          let d := tell (disturb 0 0) d in
          note prt_hunger d
        else d in
      let d :=
        if food d <? PLAYER_FOOD_FAINT K then
          let '(r, d) := randomNumber 8 d in
          if r =? 1 then
            let '(r, d) := randomNumber 5 d in
            let d :=
              upd_player
                (upd_flags (fun f => set_paralysis (int16 (paralysis f + r)) f)) d in
            let d := tell (printMessage "You faint from the lack of food.") d in
            tell (disturb 1 0) d
          else d
        else d in
      (regen_amount, d)
    else if status_clear (PY_HUNGRY K) (player d) then
      let d := upd_player (status_or (PY_HUNGRY K)) d in
      let d := tell (printMessage "You are getting hungry.") d in
      let d := tell (disturb 0 0) d in
      (regen_amount, note prt_hunger d)
    else (regen_amount, d)
  else (regen_amount, d).

(** Its second half: food consumption. *)
Definition digestion (d : dungeon) : dungeon :=
  (* Note: Sped up characters really burn up the food! *)
  let d :=
    if speed d <? 0 then set_food (int16 (food d - speed d * speed d)) d else d in
  let d := set_food (int16 (food d - food_digested d)) d in
  if food d <? 0 then
    let d := tell (take_hit (Z.quot (- food d) 16) "starvation") d in
    tell (disturb 1 0) d
  else d.

Definition playerFoodConsumption (d : dungeon) : Z * dungeon :=
  let '(regen_amount, d) := hunger_notices d in
  let d := digestion d in
  (regen_amount, d).

(** Protection from evil counter *)
Definition playerUpdateEvilProtection (d : dungeon) : dungeon :=
  if protevil d <=? 0 then d else
  let d := set_protevil (protevil d - 1) d in
  if protevil d =? 0 then tell (printMessage "You no longer feel safe from evil.") d
  else d.

(** Resist Heat *)
Definition playerUpdateHeatResistance (d : dungeon) : dungeon :=
  if resist_heat d <=? 0 then d else
  let d := set_resist_heat (resist_heat d - 1) d in
  if resist_heat d =? 0 then tell (printMessage "You no longer feel safe from flame.") d
  else d.

Definition playerUpdateColdResistance (d : dungeon) : dungeon :=
  if resist_cold d <=? 0 then d else
  let d := set_resist_cold (resist_cold d - 1) d in
  if resist_cold d =? 0 then tell (printMessage "You no longer feel safe from cold.") d
  else d.

(** Word-of-Recall  Note: Word-of-Recall is a delayed action *)
Definition playerUpdateWordOfRecall (d : dungeon) : dungeon :=
  if word_recall d <=? 0 then d else
  if word_recall d =? 1 then
    let d := set_generate_new_level true d in
    let d :=
      upd_player (upd_flags (fun f => set_paralysis (int16 (paralysis f + 1)) f)) d in
    let d := set_word_recall 0 d in
    if current_dungeon_level d >? 0 then
      let d := set_current_dungeon_level 0 d in
      tell (printMessage "You feel yourself yanked upwards!") d
    else if negb (max_dlv d =? 0) then
      let d := set_current_dungeon_level (int16 (max_dlv d)) d in
      tell (printMessage "You feel yourself yanked downwards!") d
    else d
  else set_word_recall (word_recall d - 1) d.

(** [py.flags.status & m], as a test. *)
Definition status_has (m : Z) (d : dungeon) : bool :=
  negb (Z.land (status (flags (player d))) m =? 0).

(** The [for] over the six statistics. *)
Definition print_changed_stats (d : dungeon) : dungeon :=
  fold_left
    (fun d n =>
       if negb (Z.land (Z.shiftl (PY_STR K) n) (status (flags (player d))) =? 0)
       then note (prt_stat n) d else d)
    [0; 1; 2; 3; 4; 5] d.

(** The six blocks of [playerUpdateStatusFlags], in order. *)
Definition speed_block (d : dungeon) : dungeon :=
  if status_has (PY_SPEED K) d then
    let d := upd_player (status_andnot (PY_SPEED K)) d in
    note prt_speed d
  else d.

Definition paralysis_block (d : dungeon) : dungeon :=
  if status_has (PY_PARALYSED K) d && (paralysis (flags (player d)) <? 1) then
    let d := tell prt_state d in
    upd_player (status_andnot (PY_PARALYSED K)) d
  else if paralysis (flags (player d)) >? 0 then
    let d := tell prt_state d in
    upd_player (status_or (PY_PARALYSED K)) d
  else if negb (rest (flags (player d)) =? 0) then tell prt_state d
  else d.

Definition armor_block (d : dungeon) : dungeon :=
  if status_has (PY_ARMOR K) d then
    let d := tell prt_pac d in
    upd_player (status_andnot (PY_ARMOR K)) d
  else d.

Definition stats_block (d : dungeon) : dungeon :=
  if status_has (PY_STATS K) d then
    let d := print_changed_stats d in
    upd_player (status_andnot (PY_STATS K)) d
  else d.

Definition hp_block (d : dungeon) : dungeon :=
  if status_has (PY_HP K) d then
    let d := tell prt_mhp d in
    let d := tell prt_chp d in
    upd_player (status_andnot (PY_HP K)) d
  else d.

Definition mana_block (d : dungeon) : dungeon :=
  if status_has (PY_MANA K) d then
    let d := tell prt_cmana d in
    upd_player (status_andnot (PY_MANA K)) d
  else d.

Definition playerUpdateStatusFlags (d : dungeon) : dungeon :=
  let d := speed_block d in
  let d := paralysis_block d in
  let d := armor_block d in
  let d := stats_block d in
  let d := hp_block d in
  mana_block d.

End Turn.

(** The commands of [dungeon.c] that work on this state.  [do_command]
    reaches them through the handlers of the same names. *)
Module Dungeon.

Section Commands.

Variable K : more_constants.

(** [find_range(TV_FLASK, TV_NEVER, &i, &j)] searches the pack, which is
    kept in another file: what it answers for the pack as it stands is the
    first slot [i] that holds a flask, here together with
    [inventory[i].p1], the oil in it. *)
Variable find_flask : option (Z * Z).

(** [messages[msgID]] *)
Definition message_at (msgID : Z) (d : dungeon) : string :=
  nth (Z.to_nat msgID) (messages d) EmptyString.

(** The [while (maxMessages > 0)] of [commandPreviousMessage]. *)
Fixpoint show_messages (maxMessages : nat) (msgID : Z) (d : dungeon) : dungeon :=
  match maxMessages with
  | O => d
  | S maxMessages =>
      let d :=
        tell (putStringClearToEOL (message_at msgID d) (Z.of_nat maxMessages) 0) d in
      let msgID := if msgID =? 0 then MAX_SAVE_MSG K - 1 else msgID - 1 in
      show_messages maxMessages msgID d
  end.

Definition commandPreviousMessage (d : dungeon) : dungeon :=
  let maxMessages := MAX_SAVE_MSG K in
  let '(maxMessages, d) :=
    if command_count (player d) >? 0 then
      let maxMessages := command_count (player d) in
      let maxMessages :=
        if maxMessages >? MAX_SAVE_MSG K then MAX_SAVE_MSG K else maxMessages in
      (maxMessages, upd_player (set_command_count 0) d)
    else if negb (last_command (player d) =? CTRL_KEY "P") then (1, d)
    else (maxMessages, d) in
  let msgID := last_message_id d in
  if maxMessages >? 1 then
    let d := note (handled terminalSaveScreen) d in
    let lineNumber := maxMessages in
    let d := show_messages (Z.to_nat maxMessages) msgID d in
    let d := tell (eraseLine lineNumber 0) d in
    let d := note (waitForContinueKey lineNumber) d in
    note (handled terminalRestoreScreen) d
  else
    (* Distinguish real and recovered messages with a '>'. *)
    let d := note (putString ">" 0 0) d in
    tell (putStringClearToEOL (message_at msgID d) 0 1) d.

(** Refill the players lamp *)
Definition refill_lamp (d : dungeon) : dungeon :=
  let d := upd_player (set_player_free_turn true) d in
  if negb (light_subval d =? 0) then
    tell (printMessage "But you are not using a lamp.") d
  else
    match find_flask with
    | None => tell (printMessage "You have no oil.") d
    | Some (i, oil) =>
        let d := upd_player (set_player_free_turn false) d in
        let d := set_light_p1 (int16 (light_p1 d + oil)) d in
        let d :=
          if light_p1 d >? OBJ_LAMP_MAX K then
            let d := set_light_p1 (OBJ_LAMP_MAX K) d in
            let d :=
              tell (printMessage "Your lamp overflows, spilling oil on the ground.") d in
            tell (printMessage "Your lamp is full.") d
          else if light_p1 d >? Z.quot (OBJ_LAMP_MAX K) 2 then
            tell (printMessage "Your lamp is more than half full.") d
          else if light_p1 d =? Z.quot (OBJ_LAMP_MAX K) 2 then
            tell (printMessage "Your lamp is half full.") d
          else tell (printMessage "Your lamp is less than half full.") d in
        let d := note (itemTypeRemainingCountDescription i) d in
        note (inven_destroy i) d
    end.

End Commands.

End Dungeon.

(** *** Vocabulary *)

(** How often the message [m] was printed. *)
Fixpoint printed (m : string) (j : list service) : nat :=
  match j with
  | [] => O
  | known (printMessage m') :: j =>
      if String.eqb m m' then S (printed m j) else printed m j
  | _ :: j => printed m j
  end.

(** The damage of the [take_hit] calls, newest first. *)
Fixpoint blows (j : list service) : list Z :=
  match j with
  | [] => []
  | known (take_hit damage _) :: j => damage :: blows j
  | _ :: j => blows j
  end.

(** The three protections that only count down and say goodbye. *)
Inductive ward : Type := EvilProtection | HeatResistance | ColdResistance.

Definition ward_timer (w : ward) (d : dungeon) : Z :=
  match w with
  | EvilProtection => protevil d
  | HeatResistance => resist_heat d
  | ColdResistance => resist_cold d
  end.

Definition set_ward_timer (w : ward) (v : Z) (d : dungeon) : dungeon :=
  match w with
  | EvilProtection => set_protevil v d
  | HeatResistance => set_resist_heat v d
  | ColdResistance => set_resist_cold v d
  end.

Definition ward_update (w : ward) : dungeon -> dungeon :=
  match w with
  | EvilProtection => playerUpdateEvilProtection
  | HeatResistance => playerUpdateHeatResistance
  | ColdResistance => playerUpdateColdResistance
  end.

Definition ward_farewell (w : ward) : string :=
  match w with
  | EvilProtection => "You no longer feel safe from evil."
  | HeatResistance => "You no longer feel safe from flame."
  | ColdResistance => "You no longer feel safe from cold."
  end.

(** The status bits [playerUpdateStatusFlags] clears once the display is
    brought up to date. *)
Definition display_bits (K : more_constants) : list Z :=
  [PY_SPEED K; PY_ARMOR K; PY_STATS K; PY_HP K; PY_MANA K].

(** The state of the player with the status word replaced. *)
Definition with_status (st : Z) (g : game) : game := upd_flags (set_status st) g.

(** What [playerUpdateStatusFlags] leaves of the status word [st] when
    the paralysis timer is [par]. *)
Definition paralysed_after (K : more_constants) (st par : Z) : Z :=
  if negb (Z.land st (PY_PARALYSED K) =? 0) && (par <? 1)
  then Z.land st (Z.lnot (PY_PARALYSED K))
  else if par >? 0 then Z.lor st (PY_PARALYSED K) else st.

Definition status_after (K : more_constants) (st par : Z) : Z :=
  let st := Z.land st (Z.lnot (PY_SPEED K)) in
  let st := paralysed_after K st par in
  let st := Z.land st (Z.lnot (PY_ARMOR K)) in
  let st := Z.land st (Z.lnot (PY_STATS K)) in
  let st := Z.land st (Z.lnot (PY_HP K)) in
  Z.land st (Z.lnot (PY_MANA K)).

(** Where Word-of-Recall takes the player: up to the town from the
    dungeon, down to the deepest level visited from the town. *)
Definition recall_destination (d : dungeon) : Z :=
  if current_dungeon_level d >? 0 then 0
  else if max_dlv d =? 0 then current_dungeon_level d
  else max_dlv d.

(** The lines [commandPreviousMessage] writes for [shown] messages, the
    newest of which is [messages[last]]: row [r] holds the message
    [shown - 1 - r] places before the newest one in the ring. *)
Definition message_rows (K : more_constants) (shown : nat) (last : Z) (d : dungeon)
  : list service :=
  map (fun r =>
         known (putStringClearToEOL
                  (Dungeon.message_at
                     ((last - (Z.of_nat shown - 1 - Z.of_nat r)) mod MAX_SAVE_MSG K) d)
                  (Z.of_nat r) 0))
      (seq 0 shown).

(** How many messages [commandPreviousMessage] shows. *)
Definition messages_shown (K : more_constants) (d : dungeon) : Z :=
  if command_count (player d) >? 0 then Z.min (command_count (player d)) (MAX_SAVE_MSG K)
  else if last_command (player d) =? CTRL_KEY "P" then MAX_SAVE_MSG K
  else 1.

(** Sample values for running the model on concrete states, with a ring
    of four messages; no theorem depends on them. *)
Definition umoria_more_constants : more_constants :=
  {| PY_HUNGRY := 1; PY_WEAK := 2; PY_SPEED := 262144; PY_PARALYSED := 1048576;
     PY_ARMOR := 4194304; PY_STATS := 1056964608; PY_STR := 16777216;
     PY_HP := 1073741824; PY_MANA := 2147483648;
     PLAYER_FOOD_ALERT := 2000; PLAYER_FOOD_WEAK := 1000; PLAYER_FOOD_FAINT := 300;
     PLAYER_REGEN_NORMAL := 197; PLAYER_REGEN_WEAK := 98; PLAYER_REGEN_FAINT := 33;
     OBJ_LAMP_MAX := 15000; MAX_SAVE_MSG := 4; VTYPESIZ := 80 |}.

(** A dungeon around [quiet_game]: level 3 of 7, a lit lamp with 3 turns
    of oil, four kept messages, dice that always show 1. *)
Definition quiet_dungeon : dungeon :=
  {| player := quiet_game; food := 5000; food_digested := 2; speed := 0;
     protevil := 0; resist_heat := 0; resist_cold := 0;
     word_recall := 0; max_dlv := 7; current_dungeon_level := 3;
     generate_new_level := false; player_carrying_light := true;
     light_p1 := 3; light_subval := 0;
     messages := ["first"; "second"; "third"; "fourth"]; last_message_id := 1;
     dice := fun _ => 1; rolls := O; journal := [] |}.

(** ** The message line and the prompts ([io.c]) *)

(** The calls into the curses library and the system. *)
Inductive curses : Type :=
| move (row col : Z)
| clrtoeol
| clear
| addstr (s : string)
| addch (c : Z)
| mvaddstr (row col : Z) (s : string)
| mvaddch (row col c : Z)
| write_bell  (* write(1, "\007", 1) *)
| abort.

(** The state of the terminal routines: the globals of the first part,
    the ring of kept messages and the flags of this file.  A C string is
    the [string] of its characters before the terminator. *)
Record terminal : Type := Build_terminal {
  globals : game;
  old_msg : list string;  (* MAX_SAVE_MSG buffers of VTYPESIZ characters *)
  last_msg : Z;
  wait_for_more : bool;
  sound_beep_flag : bool;
  screen : list curses  (* calls made so far, newest first *)
}.

Definition set_globals (v : game) (r : terminal) : terminal :=
  Build_terminal v (old_msg r) (last_msg r) (wait_for_more r) (sound_beep_flag r)
    (screen r).

Definition set_old_msg (v : list string) (r : terminal) : terminal :=
  Build_terminal (globals r) v (last_msg r) (wait_for_more r) (sound_beep_flag r)
    (screen r).

Definition set_last_msg (v : Z) (r : terminal) : terminal :=
  Build_terminal (globals r) (old_msg r) v (wait_for_more r) (sound_beep_flag r)
    (screen r).

Definition set_wait_for_more (v : bool) (r : terminal) : terminal :=
  Build_terminal (globals r) (old_msg r) (last_msg r) v (sound_beep_flag r)
    (screen r).

Definition set_screen (v : list curses) (r : terminal) : terminal :=
  Build_terminal (globals r) (old_msg r) (last_msg r) (wait_for_more r)
    (sound_beep_flag r) v.

(** How a routine ends: it comes back with a value, or the process is
    over ([abort], [exit_game]). *)
Inductive ended (A : Type) : Type :=
| Back (a : A) (t : terminal)
| Gone (t : terminal).

Arguments Back {A} a t.
Arguments Gone {A} t.

(** A routine of this file.  [None] stands for a loop that has not ended
    within the rounds allowed to it. *)
Definition io (A : Type) : Type := terminal -> option (ended A).

Definition ret {A : Type} (a : A) : io A := fun t => Some (Back a t).

Definition bind {A B : Type} (m : io A) (f : A -> io B) : io B :=
  fun t =>
    match m t with
    | Some (Back a t) => f a t
    | Some (Gone t) => Some (Gone t)
    | None => None
    end.

Notation "x <- m ;; f" := (bind m (fun x => f))
  (at level 61, m at next level, right associativity).
Notation "' pat <- m ;; f" := (bind m (fun x => match x with pat => f end))
  (at level 61, pat pattern, m at next level, right associativity).
Notation "m ;; f" := (bind m (fun _ => f))
  (at level 61, right associativity).

Definition get {A : Type} (f : terminal -> A) : io A := fun t => Some (Back (f t) t).

Definition modify (u : terminal -> terminal) : io unit :=
  fun t => Some (Back tt (u t)).

(** A call of the library, and an update of the globals. *)
Definition curse (c : curses) : io unit :=
  modify (fun t => set_screen (c :: screen t) t).

Definition global (u : game -> game) : io unit :=
  modify (fun t => set_globals (u (globals t)) t).

Definition out_of_rounds {A : Type} : io A := fun _ => None.

(** [old_msg[i]], and [old_msg[i] = m]. *)
Definition message (i : Z) (t : terminal) : string :=
  nth (Z.to_nat i) (old_msg t) EmptyString.

Fixpoint store (i : nat) (m : string) (l : list string) {struct l} : list string :=
  match l, i with
  | [], _ => []
  | _ :: l, O => m :: l
  | x :: l, S i => x :: store i m l
  end.

Definition set_message (i : Z) (m : string) (t : terminal) : terminal :=
  set_old_msg (store (Z.to_nat i) m (old_msg t)) t.

(** [isprint], in the C locale. *)
Definition isprint (i : Z) : bool := (32 <=? i) && (i <=? 126).

Section Terminal.

Variable K : more_constants.

(** [save_char()] belongs to the save files; only its verdict is used. *)
Variable save_char_ok : game -> bool.

(** Whether the library answers [ERR] to [mvaddstr(row, col, str)]. *)
Variable mvaddstr_ERR : Z -> Z -> string -> bool.

(** [getyx(stdscr, y, x)]: where the library has the cursor. *)
Variable getyx : terminal -> Z * Z.

(** [inkey], as a routine of the terminal. *)
Definition inkey_io : io Z :=
  fun t =>
    match inkey save_char_ok (globals t) with
    | Returned k g => Some (Back k (set_globals g t))
    | Exited g => Some (Gone (set_globals g t))
    end.

(** [do k = inkey(); while (again k)], for at most [rounds] rounds. *)
Fixpoint inkey_while (again : Z -> bool) (rounds : nat) : io Z :=
  match rounds with
  | O => out_of_rounds
  | S rounds =>
      k <- inkey_io;;
      if again k then inkey_while again rounds else ret k
  end.

(** Every round of a loop on [inkey] takes a key, or finds none left and
    gets [ESCAPE], which ends each of the loops below: one more round than
    there are keys is all a loop can use. *)
Definition rounds_left : io nat :=
  get (fun t => S (List.length (input (globals t)))).

(** Dump IO to buffer.  The text is cut so that it won't go past the
    right edge of the screen; [col] is not below 0 in any call of these
    files.  [abort()] ends the process, the lines after it are never
    reached. *)
Definition put_buffer (out_str : string) (row col : Z) : io unit :=
  let col := if col >? 79 then 79 else col in
  let tmp_str := substring 0 (Z.to_nat (79 - col)) out_str in
  curse (mvaddstr row col tmp_str);;
  if mvaddstr_ERR row col tmp_str then
    curse abort;; (fun t => Some (Gone t))
  else ret tt.

(** The keys that do not answer the [-more-] prompt. *)
Definition more_waits (in_char : Z) : bool :=
  negb (in_char =? ch " ") && negb (in_char =? ESCAPE)
  && negb (in_char =? ch "010") && negb (in_char =? ch "013").

(** The first part of [msg_print], the [if (msg_flag)]: what to do about
    the message still on the line.  It yields [old_len] and
    [combine_messages].  [None] is the null string. *)
Definition flush_message (str_buff : option string) : io (Z * bool) :=
  flag <- get (fun t => msg_flag (globals t));;
  if flag : bool then
    old_len <- get (fun t => Z.of_nat (String.length (message (last_msg t) t)) + 1);;
    (* If the new message and the old message are short enough, we want
       display them together on the same line. *)
    let new_len :=
      match str_buff with
      | Some s => Z.of_nat (String.length s)
      | None => 0
      end in
    if (match str_buff with None => true | Some _ => false end)
       || (new_len + old_len + 2 >=? 73) then
      (* ensure that the complete -more- message is visible. *)
      let old_len := if old_len >? 73 then 73 else old_len in
      put_buffer " -more-" MSG_LINE old_len;;
      (* let sigint handler know that we are waiting for a space *)
      modify (set_wait_for_more true);;
      rounds <- rounds_left;;
      inkey_while more_waits rounds;;
      modify (set_wait_for_more false);;
      ret (old_len, false)
    else ret (old_len, true)
  else ret (0, false).

(** The second part: the new message is shown and kept. *)
Definition show_message (str_buff : option string) (old_len : Z)
  (combine_messages : bool) : io unit :=
  (if negb combine_messages then curse (move MSG_LINE 0);; curse clrtoeol
   else ret tt);;
  (* Make the null string a special case. *)
  match str_buff with
  | Some s =>
      global (set_command_count 0);;
      global (set_msg_flag true);;
      if combine_messages then
        put_buffer s MSG_LINE (old_len + 2);;
        modify (fun t =>
                  set_message (last_msg t) (message (last_msg t) t ++ "  " ++ s) t)
      else
        put_buffer s MSG_LINE 0;;
        modify (fun t => set_last_msg (last_msg t + 1) t);;
        modify (fun t =>
                  if last_msg t >=? MAX_SAVE_MSG K then set_last_msg 0 t else t);;
        modify (fun t =>
                  set_message (last_msg t)
                    (substring 0 (Z.to_nat (VTYPESIZ K - 1)) s) t)
  | None => global (set_msg_flag false)
  end.

(** Outputs message to top line of screen.  These messages are kept for
    later reference. *)
Definition msg_print (str_buff : option string) : io unit :=
  '(old_len, combine_messages) <- flush_message str_buff;;
  show_message str_buff old_len combine_messages.

(** Clears given line of text *)
Definition erase_line (row col : Z) : io unit :=
  flag <- get (fun t => msg_flag (globals t));;
  (if (row =? MSG_LINE) && flag then msg_print None else ret tt);;
  curse (move row col);;
  curse clrtoeol.

(** Print a message so as not to interrupt a counted command. *)
Definition count_msg_print (p : option string) : io unit :=
  i <- get (fun t => command_count (globals t));;
  msg_print p;;
  global (set_command_count i).

(** Outputs a line to a given y, x position *)
Definition prt (str_buff : string) (row col : Z) : io unit :=
  flag <- get (fun t => msg_flag (globals t));;
  (if (row =? MSG_LINE) && flag then msg_print None else ret tt);;
  curse (move row col);;
  curse clrtoeol;;
  put_buffer str_buff row col.

(** Used to verify a choice - user gets the chance to abort choice. *)
Definition get_check (prompt : string) : io bool :=
  prt prompt 0 0;;
  '(y, x) <- get getyx;;
  (if x >? 73 then curse (move 0 73) else ret tt);;
  curse (addstr " [y/n]");;
  rounds <- rounds_left;;
  res <- inkey_while (fun res => res =? ch " ") rounds;;
  erase_line 0 0;;
  if (res =? ch "Y") || (res =? ch "y") then ret true else ret false.

(** Prompts (optional) and returns ord value of input char.  The flag is
    false if <ESCAPE> is input. *)
Definition get_com (prompt : option string) : io (bool * Z) :=
  match prompt with
  | Some s => prt s 0 0
  | None => ret tt
  end;;
  command <- inkey_io;;
  let res := if command =? ESCAPE then false else true in
  erase_line MSG_LINE 0;;
  ret (res, command).

Definition bell : io unit :=
  global put_qio;;
  (* The player can turn off beeps if he/she finds them annoying. *)
  beep <- get sound_beep_flag;;
  if negb beep then ret tt else curse write_bell.

(** The [do ... while] of [get_string].  [typed] is the buffer from
    [in_str] up to [p], newest character first; the routine keeps [p] and
    [column] in step.  [None] is [aborted]. *)
Fixpoint get_string_loop (row start_col end_col : Z) (rounds : nat)
  (typed : list Z) (column : Z) : io (option (list Z)) :=
  match rounds with
  | O => out_of_rounds
  | S rounds =>
      i <- inkey_io;;
      if i =? ESCAPE then ret None
      else if (i =? CTRL_KEY "J") || (i =? CTRL_KEY "M") then ret (Some typed)
      else if (i =? DELETE) || (i =? CTRL_KEY "H") then
        if column >? start_col then
          let column := column - 1 in
          put_buffer " " row column;;
          curse (move row column);;
          get_string_loop row start_col end_col rounds (tl typed) column
        else get_string_loop row start_col end_col rounds typed column
      else if negb (isprint i) || (column >? end_col) then
        bell;;
        get_string_loop row start_col end_col rounds typed column
      else
        curse (mvaddch row column (to_char i));;
        get_string_loop row start_col end_col rounds (i :: typed) (column + 1)
  end.

(** [for (i = slen; i > 0; i--) addch(' ')] *)
Fixpoint blank_out (i : nat) : io unit :=
  match i with
  | O => ret tt
  | S i => curse (addch (ch " "));; blank_out i
  end.

(** Remove trailing blanks: [while (p > in_str && p[-1] == ' ') p--]. *)
Fixpoint trim (typed : list Z) : list Z :=
  match typed with
  | c :: rest => if c =? ch " " then trim rest else typed
  | [] => []
  end.

(** Gets a string terminated by <RETURN>: the characters of [in_str],
    or [None] if <ESCAPE> is input, when the buffer is left unterminated. *)
Definition get_string (row column slen : Z) : io (option (list Z)) :=
  curse (move row column);;
  blank_out (Z.to_nat slen);;
  curse (move row column);;
  let start_col := column in
  let end_col := column + slen - 1 in
  let end_col := if end_col >? 79 then 79 else end_col in
  rounds <- rounds_left;;
  r <- get_string_loop row start_col end_col rounds [] column;;
  match r with
  | None => ret None
  | Some typed => ret (Some (rev (trim typed)))
  end.

(** Pauses for user response before returning *)
Definition pause_line (prt_line : Z) : io unit :=
  prt "[Press any key to continue.]" prt_line 23;;
  inkey_io;;
  erase_line prt_line 0.

End Terminal.

(** *** Vocabulary *)

(** The ring of kept messages is in order: the index of the newest is
    within it, and every message fits its buffer with the terminator. *)
Definition ring_ok (K : more_constants) (t : terminal) : Prop :=
  0 <= last_msg t < MAX_SAVE_MSG K
  /\ Z.of_nat (List.length (old_msg t)) = MAX_SAVE_MSG K
  /\ Forall (fun m => Z.of_nat (String.length m) < VTYPESIZ K) (old_msg t).

(** The texts handed to [mvaddstr], with their places. *)
Fixpoint written (l : list curses) : list (Z * Z * string) :=
  match l with
  | [] => []
  | mvaddstr row col s :: l => (row, col, s) :: written l
  | _ :: l => written l
  end.

(** A key as the keyboard sends it: a 7-bit code other than ^R. *)
Definition plain_key (k : Z) : Prop := 0 <= k < 128 /\ k <> CTRL_KEY "R".

(** What a loop on [inkey] leaves alone: everything of the terminal but
    the globals. *)
Definition keeps_display (t0 t : terminal) : Prop :=
  old_msg t = old_msg t0 /\ last_msg t = last_msg t0
  /\ wait_for_more t = wait_for_more t0 /\ sound_beep_flag t = sound_beep_flag t0
  /\ screen t = screen t0.

(** A game in good order for reading keys: a character is in play, the
    keys still to come are plain, and [spare] more ends of input can be met
    before the reader gives up. *)
Definition calm (spare : Z) (g : game) : Prop :=
  character_generated g = true /\ character_saved g = false
  /\ 0 <= eof_flag g /\ eof_flag g + spare <= 100
  /\ Forall plain_key (input g).

(** The keys still to come. *)
Definition keys (t : terminal) : list Z := input (globals t).

(** What [get_string] keeps of its loop: [typed] fills the field from
    [start_col] up to [column], which has not passed the end of the field,
    with printable characters. *)
Definition field_ok (start_col end_col : Z) (typed : list Z) (column : Z) : Prop :=
  Z.of_nat (List.length typed) = column - start_col
  /\ column <= Z.max start_col (end_col + 1)
  /\ Forall (fun c => isprint c = true) typed.

(** A library that never answers [ERR], and a cursor that stays put. *)
Definition no_ERR (row col : Z) (s : string) : bool := false.
Definition cursor_home (t : terminal) : Z * Z := (0, 0).

(** A terminal around [quiet_game], with four kept messages. *)
Definition quiet_terminal : terminal :=
  {| globals := quiet_game; old_msg := ["first"; "second"; "third"; "fourth"];
     last_msg := 1; wait_for_more := false; sound_beep_flag := true;
     screen := [] |}.

(** * Properties *)

(** ** Proof tools *)

Ltac records :=
  cbv [set_status set_hero set_shero set_blind set_confused set_afraid set_poisoned
       set_fast set_slow set_rest set_paralysis set_invuln set_blessed set_detect_inv
       set_tim_infra set_see_inv set_see_infra
       set_mhp set_chp set_chp_frac set_cmana set_cmana_frac set_bth set_bthb set_pac set_dis_ac
       set_flags set_misc set_command_count set_player_free_turn set_last_command set_find_count
       set_eof_flag set_msg_flag set_panic_save set_death set_died_from set_screen_change
       set_input set_trace
       upd_flags upd_misc call_ calls status_or status_andnot status_clear
       flags misc current_game_turn command_count player_free_turn last_command
       running_counter find_count use_roguelike_keys wizard_mode eof_flag msg_flag
       character_generated character_saved panic_save death died_from screen_change
       input trace
       status hero shero blind confused afraid poisoned fast slow rest paralysis invuln
       blessed detect_inv tim_infra see_inv see_infra regenerate
       mhp chp chp_frac mana cmana cmana_frac bth bthb pac dis_ac
       rev app].

Ltac records_in_all :=
  cbv [set_status set_hero set_shero set_blind set_confused set_afraid set_poisoned
       set_fast set_slow set_rest set_paralysis set_invuln set_blessed set_detect_inv
       set_tim_infra set_see_inv set_see_infra
       set_mhp set_chp set_chp_frac set_cmana set_cmana_frac set_bth set_bthb set_pac set_dis_ac
       set_flags set_misc set_command_count set_player_free_turn set_last_command set_find_count
       set_eof_flag set_msg_flag set_panic_save set_death set_died_from set_screen_change
       set_input set_trace
       upd_flags upd_misc call_ calls status_or status_andnot status_clear
       flags misc current_game_turn command_count player_free_turn last_command
       running_counter find_count use_roguelike_keys wizard_mode eof_flag msg_flag
       character_generated character_saved panic_save death died_from screen_change
       input trace
       status hero shero blind confused afraid poisoned fast slow rest paralysis invuln
       blessed detect_inv tim_infra see_inv see_infra regenerate
       mhp chp chp_frac mana cmana cmana_frac bth bthb pac dis_ac
       rev app] in *.

Ltac open_state s :=
  let f := fresh "f" in let m := fresh "m" in
  destruct s as [f m]; destruct f, m.

(* Decide the tests the goal shows, innermost first. *)
Ltac entry_tests :=
  repeat match goal with
  | |- context [if ?b then _ else _] =>
      lazymatch b with
      | context [if _ then _ else _] => fail
      | _ => destruct b eqn:?; cbv beta iota
      end
  end.

Ltac engine_defs :=
  cbv beta iota delta
      [update tick playerUpdateBlindness playerUpdateConfusion playerUpdateFearState
       playerUpdatePoisonedState playerUpdateFastness playerUpdateSlowness heroism_block
       super_heroism_block playerUpdateInvulnerability playerUpdateBlessedness
       playerUpdateDetectInvisible playerUpdateInfraVision
       playerActivateHeroism playerDisableHeroism playerActivateSuperHeroism
       playerDisableSuperHeroism
       fires_activation fires_deactivation armed_timer suppressed active timer set_timer
       activation deactivation per_turn clamp_chp status_bit].


(** ** The timed effects follow the template *)

Lemma land_lor_self m st : Z.land m (Z.lor st m) = m.
Proof.
  apply Z.bits_inj'; intros n _.
  rewrite Z.land_spec, Z.lor_spec.
  destruct (Z.testbit m n), (Z.testbit st n); reflexivity.
Qed.

Lemma land_andnot_self m st : Z.land m (Z.land st (Z.lnot m)) = 0.
Proof.
  apply Z.bits_inj'; intros n Hn.
  rewrite Z.land_spec, Z.land_spec, Z.lnot_spec, Z.bits_0 by assumption.
  destruct (Z.testbit m n), (Z.testbit st n); reflexivity.
Qed.

Ltac bits := rewrite ?land_lor_self, ?land_andnot_self in *.

Ltac engine tac :=
  engine_defs; entry_tests; cbv zeta;
  match goal with s : game |- _ => open_state s end;
  records; entry_tests; try reflexivity;
  records_in_all; bits; tac.

Lemma update_is_tick K ca e s : update K ca e s = tick K ca e s.
Proof. destruct e; engine lia. Qed.

Section TickLaws.
Variable K : constants.
Variable ca : game -> Z.

Lemma tick_timer e s :
  timer e (tick K ca e s) =
  if timer e s <=? 0 then timer e s else armed_timer K e s - 1.
Proof. destruct e; engine lia. Qed.

Lemma tick_suppressed e s : suppressed e (tick K ca e s) = suppressed e s.
Proof. destruct e; engine lia. Qed.

Lemma tick_active e s :
  status_bit K e <> 0 ->
  active K e (tick K ca e s) =
  if timer e s <=? 0 then active K e s
  else if fires_deactivation K e s then false
  else active K e s || fires_activation K e s.
Proof. intros Hbit; destruct e; cbv [status_bit] in Hbit; engine lia. Qed.

End TickLaws.

Section Edges.
Variable K : constants.
Variable ca : game -> Z.

Lemma edges_idle e k : forall s, timer e s <= 0 -> edges K ca e k s = (O, O).
Proof.
  induction k as [|k IH]; intros s Ht; [reflexivity|].
  cbn [edges]. rewrite update_is_tick.
  assert (Hs : tick K ca e s = s).
  { unfold tick. destruct (timer e s <=? 0) eqn:E; [reflexivity | lia]. }
  rewrite Hs, (IH s Ht).
  unfold fires_activation, fires_deactivation.
  destruct (0 <? timer e s) eqn:E; [lia | reflexivity].
Qed.

Lemma edges_steady e k :
  status_bit K e <> 0 ->
  forall s, active K e s = true -> suppressed e s = false -> 0 < timer e s ->
  edges K ca e k s = (O, if timer e s <=? Z.of_nat k then 1%nat else O).
Proof.
  intros Hbit. induction k as [|k IH]; intros s Ha Hs Ht.
  - cbn [edges]. destruct (timer e s <=? Z.of_nat 0) eqn:E; [lia | reflexivity].
  - cbn [edges]. rewrite update_is_tick.
    assert (Hfa : fires_activation K e s = false).
    { unfold fires_activation. rewrite Ha. destruct (0 <? timer e s); reflexivity. }
    assert (Hfd : fires_deactivation K e s = (timer e s =? 1)).
    { unfold fires_deactivation, armed_timer. rewrite Hs.
    destruct (0 <? timer e s) eqn:E; [reflexivity | lia]. }
    pose proof (tick_timer K ca e s) as Htt.
    pose proof (tick_active K ca e s Hbit) as Hta.
    pose proof (tick_suppressed K ca e s) as Hts.
    unfold armed_timer in Htt. rewrite Hs in Htt, Hts.
    rewrite Hfa, Hfd in *.
    destruct (timer e s <=? 0) eqn:E0; [lia|].
    destruct (timer e s =? 1) eqn:E1.
    + rewrite edges_idle by lia.
      destruct (timer e s <=? Z.of_nat (S k)) eqn:E2; [reflexivity | lia].
    + rewrite IH; [ | | assumption | lia ].
      * rewrite Htt.
        destruct (timer e s - 1 <=? Z.of_nat k) eqn:E2;
          destruct (timer e s <=? Z.of_nat (S k)) eqn:E3; try reflexivity; lia.
      * rewrite Hta, Ha. reflexivity.
Qed.

Lemma edges_from_rest e k :
  status_bit K e <> 0 ->
  forall s, active K e s = false -> suppressed e s = false -> 0 < timer e s ->
  edges K ca e (S k) s = (1%nat, if timer e s <=? Z.of_nat (S k) then 1%nat else O).
Proof.
  intros Hbit s Ha Hs Ht.
  cbn [edges]. rewrite update_is_tick.
  assert (Hfa : fires_activation K e s = true).
  { unfold fires_activation. rewrite Ha, Hs.
    destruct (0 <? timer e s) eqn:E; [reflexivity | lia]. }
  assert (Hfd : fires_deactivation K e s = (timer e s =? 1)).
  { unfold fires_deactivation, armed_timer. rewrite Hs.
    destruct (0 <? timer e s) eqn:E; [reflexivity | lia]. }
  pose proof (tick_timer K ca e s) as Htt.
  pose proof (tick_active K ca e s Hbit) as Hta.
  pose proof (tick_suppressed K ca e s) as Hts.
  unfold armed_timer in Htt. rewrite Hs in Htt, Hts.
  rewrite Hfa, Hfd in *.
  destruct (timer e s <=? 0) eqn:E0; [lia|].
  destruct (timer e s =? 1) eqn:E1.
  - rewrite edges_idle by lia.
    destruct (timer e s <=? Z.of_nat (S k)) eqn:E2; [reflexivity | lia].
  - rewrite edges_steady; [ | assumption | | assumption | lia ].
    + rewrite Htt.
      destruct (timer e s - 1 <=? Z.of_nat k) eqn:E2;
        destruct (timer e s <=? Z.of_nat (S k)) eqn:E3; try reflexivity; lia.
    + rewrite Hta, Ha. reflexivity.
Qed.

End Edges.

(** C1 (amended).  Whenever no status bit is set over a timer that is not
    positive, each of the twelve per-turn updates is one turn of the
    template, after it the bit is set if and only if the timer is positive,
    and a timer that starts positive with its bit clear fires the
    activation effects once and the deactivation effects once, on the turn
    it reaches 0, however many more updates follow.  For fear this holds
    while neither heroism nor super-heroism is running; under them the
    template itself ([tick]) forces the timer and fires no activation. *)
Theorem timed_effects_are_edge_triggered
  (K : constants) (con_adj : game -> Z) (e : effect) (s : game) :
  status_bits_nonzero K ->
  (active K e s = true -> 0 < timer e s) ->
  update K con_adj e s = tick K con_adj e s
  /\ (active K e (update K con_adj e s) = true <-> 0 < timer e (update K con_adj e s))
  /\ (0 < timer e s -> active K e s = false -> suppressed e s = false ->
      forall k : nat,
        edges K con_adj e (S k) s =
        (1%nat, if timer e s <=? Z.of_nat (S k) then 1%nat else O)).
Proof.
  intros Hbits Hstale.
  split; [apply update_is_tick|].
  split.
  - rewrite update_is_tick, tick_timer, tick_active by apply Hbits.
    unfold fires_deactivation, fires_activation, armed_timer.
    destruct (active K e s) eqn:Ha.
    + specialize (Hstale eq_refl).
      destruct (suppressed e s); destruct (timer e s <=? 0) eqn:E0;
        destruct (0 <? timer e s) eqn:E1; destruct (timer e s =? 1) eqn:E2;
        cbn; split; intros; try reflexivity; lia.
    + destruct (suppressed e s); destruct (timer e s <=? 0) eqn:E0;
        destruct (0 <? timer e s) eqn:E1; destruct (timer e s =? 1) eqn:E2;
        cbn; split; intros; try reflexivity; lia.
  - intros Ht Ha Hs k. apply edges_from_rest; auto.
Qed.

Lemma timed_effects_are_edge_triggered_witness :
  let s := upd_flags (set_blind 3) quiet_game in
  status_bits_nonzero umoria_constants
  /\ (active umoria_constants Blindness s = true -> 0 < timer Blindness s)
  /\ edges umoria_constants (fun _ => 0) Blindness 5 s = (1%nat, 1%nat)
  /\ edges umoria_constants (fun _ => 0) Blindness 2 s = (1%nat, 0%nat).
Proof.
  intros s.
  assert (Hbits : status_bits_nonzero umoria_constants)
    by (intros e; destruct e; discriminate).
  assert (Hstale : active umoria_constants Blindness s = true -> 0 < timer Blindness s)
    by (intros _; reflexivity).
  destruct (timed_effects_are_edge_triggered
              umoria_constants (fun _ => 0) Blindness s Hbits Hstale) as (_ & _ & H).
  split; [exact Hbits|]. split; [exact Hstale|].
  split; [exact (H eq_refl eq_refl eq_refl 4%nat) | exact (H eq_refl eq_refl eq_refl 1%nat)].
Defined.

(** C1, as stated, fails twice.  Under heroism a fear timer of 5 with its
    bit clear drops to -1 in one update that fires neither the activation
    nor the deactivation effects; and a bit left set over a timer of 0
    stays set, the update returning at once. *)
Lemma fear_under_heroism_fires_no_edge :
  let s := upd_flags (fun f => set_hero 3 (set_afraid 5 f)) quiet_game in
  let s' := playerUpdateFearState umoria_constants s in
  let t := upd_flags (set_status (PY_BLIND umoria_constants)) quiet_game in
  let t' := playerUpdateBlindness umoria_constants t in
  (0 < afraid (flags s) /\ active umoria_constants Fear s = false
   /\ afraid (flags s') = -1 /\ active umoria_constants Fear s' = false
   /\ trace s' = trace s)
  /\ (active umoria_constants Blindness t' = true /\ blind (flags t') = 0).
Proof. vm_compute. repeat split. Qed.

(** ** Poison and fear *)

Lemma rem_zero_iff_mod_zero t n : n <> 0 -> (Z.rem t n =? 0) = (t mod n =? 0).
Proof.
  intros Hn.
  destruct (Z.rem t n =? 0) eqn:E1; destruct (t mod n =? 0) eqn:E2; try reflexivity.
  - apply Z.eqb_eq in E1. apply Z.eqb_neq in E2.
    apply Z.rem_divide in E1; [|assumption]. apply Z.mod_divide in E1; [|assumption]. contradiction.
  - apply Z.eqb_neq in E1. apply Z.eqb_eq in E2.
    apply Z.mod_divide in E2; [|assumption]. apply Z.rem_divide in E2; [|assumption]. contradiction.
Qed.

Lemma poison_damage_schedule adj turn :
  poison_schedule adj turn (poison_damage adj turn).
Proof.
  unfold poison_schedule, poison_damage.
  rewrite !rem_zero_iff_mod_zero by lia.
  repeat split; intros H;
    repeat match goal with
    | |- context [if ?b then _ else _] =>
        lazymatch b with
        | context [Z.modulo] => fail
        | _ => destruct b eqn:?
        end
    end; try lia; try reflexivity.
  all: destruct (_ mod _ =? 0); reflexivity.
Qed.

(** C2.  On a turn that leaves the poison timer positive, the update
    makes one [take_hit] call whose damage is the one the table gives for
    the constitution adjustment and the turn counter. *)
Theorem poison_damage_follows_the_table
  (K : constants) (con_adj : game -> Z) (adj : Z) (s : game) :
  (forall g, con_adj g = adj) ->
  1 < poisoned (flags s) ->
  exists damage,
    hits (trace (playerUpdatePoisonedState K con_adj s)) = damage :: hits (trace s)
    /\ poison_schedule adj (current_game_turn s) damage
    /\ poisoned (flags (playerUpdatePoisonedState K con_adj s)) = poisoned (flags s) - 1.
Proof.
  intros Hadj Hp.
  exists (poison_damage adj (current_game_turn s)).
  split; [|split; [apply poison_damage_schedule|]].
  - unfold playerUpdatePoisonedState. rewrite !Hadj. entry_tests.
    all: open_state s; records; records_in_all; try reflexivity; lia.
  - unfold playerUpdatePoisonedState. entry_tests.
    all: open_state s; records; records_in_all; try reflexivity; lia.
Qed.

(** C7.  While heroism or super-heroism runs, the fear update never sets
    the fear bit and fires nothing when the bit is clear; when the bit is
    set it does what it does on a timer of 1: the timer ends at 0 and the
    bit is cleared. *)
Theorem fear_is_suppressed_under_heroism (K : constants) (s : game) :
  0 < hero (flags s) + shero (flags s) ->
  (active K Fear s = false ->
     active K Fear (playerUpdateFearState K s) = false
     /\ trace (playerUpdateFearState K s) = trace s
     /\ (0 < afraid (flags s) -> afraid (flags (playerUpdateFearState K s)) = -1))
  /\ (active K Fear s = true -> 0 < afraid (flags s) ->
     playerUpdateFearState K s = playerUpdateFearState K (upd_flags (set_afraid 1) s)
     /\ afraid (flags (playerUpdateFearState K s)) = 0
     /\ active K Fear (playerUpdateFearState K s) = false).
Proof.
  intros Hh. split.
  - intros Ha. unfold active, status_bit in *. unfold playerUpdateFearState.
    entry_tests.
    all: open_state s; records; records_in_all; bits; repeat split; try reflexivity; try lia.
  - intros Ha Ht. unfold active, status_bit in *. unfold playerUpdateFearState.
    entry_tests.
    all: open_state s; records; records_in_all; bits; repeat split; try reflexivity; try lia.
Qed.

Lemma poison_damage_follows_the_table_witness :
  let s := upd_flags (set_poisoned 5) quiet_game in
  exists damage,
    hits (trace (playerUpdatePoisonedState umoria_constants (fun _ => 6) s))
    = damage :: hits (trace s)
    /\ poison_schedule 6 (current_game_turn s) damage
    /\ poisoned (flags (playerUpdatePoisonedState umoria_constants (fun _ => 6) s))
       = poisoned (flags s) - 1.
Proof.
  intros s.
  apply (poison_damage_follows_the_table umoria_constants (fun _ => 6) 6 s).
  - intros g. reflexivity.
  - reflexivity.
Defined.

Lemma fear_is_suppressed_under_heroism_witness :
  let K := umoria_constants in
  let s := upd_flags (fun f => set_status (PY_FEAR K) (set_hero 3 (set_afraid 5 f)))
             quiet_game in
  0 < hero (flags s) + shero (flags s)
  /\ afraid (flags (playerUpdateFearState K s)) = 0
  /\ active K Fear (playerUpdateFearState K s) = false.
Proof.
  intros K s.
  assert (Hh : 0 < hero (flags s) + shero (flags s)) by reflexivity.
  split; [exact Hh|].
  destruct (fear_is_suppressed_under_heroism K s Hh) as (_ & H).
  destruct (H eq_refl eq_refl) as (_ & H1 & H2).
  split; [exact H1 | exact H2].
Defined.

(** ** Regeneration *)

Ltac regen tac :=
  cbv beta iota zeta delta [regenhp regenmana];
  entry_tests;
  match goal with s : game |- _ => open_state s end;
  records; records_in_all; tac.

(** C4.  After [regenhp] the current hit points do not exceed the
    maximum, and where they equal it the fraction is 0; likewise for
    [regenmana] and the mana. *)
Theorem regeneration_stops_at_the_maximum (K : constants) (percent : Z) (s : game) :
  (chp (misc (regenhp K percent s)) <= mhp (misc (regenhp K percent s))
   /\ (chp (misc (regenhp K percent s)) = mhp (misc (regenhp K percent s)) ->
       chp_frac (misc (regenhp K percent s)) = 0))
  /\ (cmana (misc (regenmana K percent s)) <= mana (misc (regenmana K percent s))
   /\ (cmana (misc (regenmana K percent s)) = mana (misc (regenmana K percent s)) ->
       cmana_frac (misc (regenmana K percent s)) = 0)).
Proof.
  split.
  - regen ltac:(split; [lia | intros; try reflexivity; lia]).
  - regen ltac:(split; [lia | intros; try reflexivity; lia]).
Qed.

Lemma regeneration_stops_at_the_maximum_witness :
  let s := upd_misc (set_chp 9) quiet_game in
  chp (misc (regenhp umoria_constants 65536 s))
  = mhp (misc (regenhp umoria_constants 65536 s))
  /\ chp_frac (misc (regenhp umoria_constants 65536 s)) = 0.
Proof.
  intros s.
  destruct (regeneration_stops_at_the_maximum umoria_constants 65536 s) as ((_ & H) & _).
  split; [reflexivity | exact (H eq_refl)].
Defined.

Lemma regenhp_frame K p s :
  flags (regenhp K p s) = flags s
  /\ mhp (misc (regenhp K p s)) = mhp (misc s)
  /\ mana (misc (regenhp K p s)) = mana (misc s)
  /\ cmana (misc (regenhp K p s)) = cmana (misc s)
  /\ cmana_frac (misc (regenhp K p s)) = cmana_frac (misc s).
Proof. regen ltac:(repeat split; reflexivity). Qed.

Lemma regenmana_frame K p s :
  flags (regenmana K p s) = flags s
  /\ mhp (misc (regenmana K p s)) = mhp (misc s)
  /\ chp (misc (regenmana K p s)) = chp (misc s)
  /\ chp_frac (misc (regenmana K p s)) = chp_frac (misc s).
Proof. regen ltac:(repeat split; reflexivity). Qed.

Lemma regenmana_reads_mana_only K p s s' :
  mana (misc s) = mana (misc s') ->
  cmana (misc s) = cmana (misc s') ->
  cmana_frac (misc s) = cmana_frac (misc s') ->
  cmana (misc (regenmana K p s)) = cmana (misc (regenmana K p s'))
  /\ cmana_frac (misc (regenmana K p s)) = cmana_frac (misc (regenmana K p s')).
Proof.
  intros H1 H2 H3.
  cbv beta iota zeta delta [regenmana].
  entry_tests.
  all: open_state s; open_state s'; records; records_in_all; subst; split; try reflexivity; lia.
Qed.

(** C6.  With the poison timer at 1 or more the regeneration step does
    not call [regenhp]: hit points and their fraction are left alone.  With
    the timer below 1 and hit points below the maximum it does.  Mana
    regeneration runs whenever mana is below its maximum, and comes out the
    same whatever the poison timer. *)
Theorem poison_gates_hp_regeneration_only (K : constants) (amount : Z) (s : game) :
  let rate := regeneration_amount K amount s in
  let s' := playerUpdateRegeneration K amount s in
  (1 <= poisoned (flags s) ->
     s' = (if cmana (misc s) <? mana (misc s) then regenmana K rate s else s)
     /\ chp (misc s') = chp (misc s) /\ chp_frac (misc s') = chp_frac (misc s))
  /\ (poisoned (flags s) < 1 -> chp (misc s) < mhp (misc s) ->
     s' = (if cmana (misc s) <? mana (misc s)
           then regenmana K rate (regenhp K rate s) else regenhp K rate s))
  /\ (cmana (misc s) < mana (misc s) ->
     cmana (misc s') = cmana (misc (regenmana K rate s))
     /\ cmana_frac (misc s') = cmana_frac (misc (regenmana K rate s))).
Proof.
  intros rate s'. subst rate s'. unfold playerUpdateRegeneration.
  set (rate := regeneration_amount K amount s).
  destruct (regenhp_frame K rate s) as (Hf & Hmhp & Hmana & Hcmana & Hfrac).
  destruct (regenmana_frame K rate s) as (Hf' & Hmhp' & Hchp' & Hfrac').
  split; [|split].
  - intros Hp.
    destruct (poisoned (flags s) <? 1) eqn:E; [lia|]. cbn [andb].
    split; [reflexivity|].
    destruct (cmana (misc s) <? mana (misc s)); auto.
  - intros Hp Hc.
    destruct (poisoned (flags s) <? 1) eqn:E; [|lia].
    destruct (chp (misc s) <? mhp (misc s)) eqn:E'; [|lia]. cbn [andb].
    rewrite Hcmana, Hmana. reflexivity.
  - intros Hm.
    destruct ((poisoned (flags s) <? 1) && (chp (misc s) <? mhp (misc s))).
    + rewrite Hcmana, Hmana.
      destruct (cmana (misc s) <? mana (misc s)) eqn:E; [|lia].
      apply regenmana_reads_mana_only; assumption.
    + destruct (cmana (misc s) <? mana (misc s)) eqn:E; [|lia]. split; reflexivity.
Qed.

Lemma poison_gates_hp_regeneration_only_witness :
  let K := umoria_constants in
  let s := upd_flags (set_poisoned 3)
             (upd_misc (fun m => set_cmana 2 (set_chp 5 m)) quiet_game) in
  1 <= poisoned (flags s)
  /\ chp (misc (playerUpdateRegeneration K 197 s)) = chp (misc s)
  /\ chp_frac (misc (playerUpdateRegeneration K 197 s)) = chp_frac (misc s)
  /\ cmana_frac (misc (playerUpdateRegeneration K 197 s))
     = cmana_frac (misc (regenmana K (regeneration_amount K 197 s) s)).
Proof.
  intros K s.
  assert (Hp : 1 <= poisoned (flags s)) by discriminate.
  destruct (poison_gates_hp_regeneration_only K 197 s) as (H1 & _ & H3).
  destruct (H1 Hp) as (_ & Hc & Hf).
  destruct (H3 eq_refl) as (_ & Hm).
  repeat split; assumption.
Defined.

(** ** Regeneration at rate 0 *)

Lemma int16_small z : -32768 <= z <= 32767 -> int16 z = z.
Proof.
  intros H. unfold int16, wrap_signed.
  change (2 ^ (16 - 1)) with 32768. change (2 ^ 16) with 65536.
  rewrite Z.mod_small; lia.
Qed.

Lemma int32_small z : -2147483648 <= z <= 2147483647 -> int32 z = z.
Proof.
  intros H. unfold int32, wrap_signed.
  change (2 ^ (32 - 1)) with 2147483648. change (2 ^ 32) with 4294967296.
  rewrite Z.mod_small; lia.
Qed.

Lemma uint16_small z : 0 <= z < 65536 -> uint16 z = z.
Proof. intros H. unfold uint16. change (2 ^ 16) with 65536. apply Z.mod_small; lia. Qed.

Lemma low16_small z : 0 <= z < 65536 -> Z.land z 65535 = z.
Proof.
  intros H. change 65535 with (Z.ones 16).
  rewrite Z.land_ones by lia. change (2 ^ 16) with 65536. apply Z.mod_small; lia.
Qed.

Lemma high16_small z : 0 <= z < 65536 -> Z.shiftr z 16 = 0.
Proof.
  intros H. rewrite Z.shiftr_div_pow2 by lia. change (2 ^ 16) with 65536.
  apply Z.div_small; lia.
Qed.

(** One call at rate 0: the bias goes to the fraction, and a full fraction
    becomes one point. *)
Lemma regenhp_rate_0 K s :
  0 < PLAYER_REGEN_HPBASE K < 65536 ->
  hp_below_max s ->
  mhp (misc (regenhp K 0 s)) = mhp (misc s)
  /\ if chp_frac (misc s) + PLAYER_REGEN_HPBASE K <? 65536
     then chp (misc (regenhp K 0 s)) = chp (misc s)
          /\ chp_frac (misc (regenhp K 0 s)) = chp_frac (misc s) + PLAYER_REGEN_HPBASE K
     else chp (misc (regenhp K 0 s)) = chp (misc s) + 1
          /\ 0 <= chp_frac (misc (regenhp K 0 s)) < 65536.
Proof.
  intros HB (Hlo & Hlt & Hhi & Hfrac).
  cbv beta iota zeta delta [regenhp].
  rewrite Z.mul_0_r, Z.add_0_l.
  rewrite (int32_small (PLAYER_REGEN_HPBASE K)) by lia.
  rewrite (high16_small (PLAYER_REGEN_HPBASE K)), (low16_small (PLAYER_REGEN_HPBASE K)) by lia.
  entry_tests.
  all: open_state s; records; records_in_all.
  all: rewrite ?Z.add_0_r in *.
  all: repeat match goal with
       | H : context [int16 ?z] |- _ => rewrite (int16_small z) in H by lia
       | |- context [int16 ?z] => rewrite (int16_small z) by lia
       | |- context [uint16 ?z] => rewrite (uint16_small z) by lia
       end.
  all: split; [reflexivity|].
  all: unfold MAX_SHORT in *; lia.
Qed.

Lemma regenhp_rate_0_eventually K (n : nat) :
  0 < PLAYER_REGEN_HPBASE K < 65536 ->
  forall s, hp_below_max s -> 65536 - chp_frac (misc s) <= Z.of_nat n ->
  exists k, chp (misc (iterate k (regenhp K 0) s)) = chp (misc s) + 1.
Proof.
  intros HB. induction n as [|n IH]; intros s Hr Hn.
  - destruct Hr as (_ & _ & _ & Hf). lia.
  - destruct (regenhp_rate_0 K s HB Hr) as (Hm & Hstep).
    destruct (chp_frac (misc s) + PLAYER_REGEN_HPBASE K <? 65536) eqn:E.
    + destruct Hstep as (Hc & Hfr).
      destruct (IH (regenhp K 0 s)) as (k & Hk).
      * unfold hp_below_max in *. rewrite Hm, Hc, Hfr. lia.
      * rewrite Hfr. lia.
      * exists (S k). cbn [iterate]. rewrite Hk, Hc. reflexivity.
    + exists 1%nat. cbn [iterate]. apply Hstep.
Qed.

(** C5 (amended).  With a bias between 1 and 65535 and hit points below
    the maximum, a call at rate 0 adds the bias to the fraction and leaves
    the hit points alone only while the fraction stays below 65536; when it
    overflows the hit points rise by one, and some number of calls makes
    that happen. *)
Theorem rate_0_regeneration_is_slow_not_idle (K : constants) (s : game) :
  0 < PLAYER_REGEN_HPBASE K < 65536 ->
  hp_below_max s ->
  (if chp_frac (misc s) + PLAYER_REGEN_HPBASE K <? 65536
   then chp (misc (regenhp K 0 s)) = chp (misc s)
        /\ chp_frac (misc (regenhp K 0 s)) = chp_frac (misc s) + PLAYER_REGEN_HPBASE K
   else chp (misc (regenhp K 0 s)) = chp (misc s) + 1)
  /\ exists k, chp (misc (iterate k (regenhp K 0) s)) = chp (misc s) + 1.
Proof.
  intros HB Hr. split.
  - destruct (regenhp_rate_0 K s HB Hr) as (_ & H).
    destruct (chp_frac (misc s) + PLAYER_REGEN_HPBASE K <? 65536); [exact H | apply H].
  - apply (regenhp_rate_0_eventually K (Z.to_nat (65536 - chp_frac (misc s))) HB s Hr).
    destruct Hr as (_ & _ & _ & Hf). lia.
Qed.

Lemma rate_0_regeneration_is_slow_not_idle_witness :
  let s := upd_misc (set_chp 5) quiet_game in
  hp_below_max s
  /\ chp_frac (misc (regenhp umoria_constants 0 s)) = 1442
  /\ exists k, chp (misc (iterate k (regenhp umoria_constants 0) s)) = 6.
Proof.
  intros s.
  assert (HB : 0 < PLAYER_REGEN_HPBASE umoria_constants < 65536)
    by (split; reflexivity).
  assert (Hr : hp_below_max s)
    by (repeat split; try reflexivity; discriminate).
  destruct (rate_0_regeneration_is_slow_not_idle umoria_constants s HB Hr) as (H1 & H2).
  split; [exact Hr|]. split; [exact (proj2 H1) | exact H2].
Defined.

(** C5, as stated, fails: from 5 of 10 hit points and an empty fraction,
    46 calls at rate 0 bring the hit points to 6. *)
Lemma rate_0_regeneration_changes_current :
  let s := upd_misc (set_chp 5) quiet_game in
  chp (misc s) < mhp (misc s)
  /\ chp (misc (iterate 45 (regenhp umoria_constants 0) s)) = 5
  /\ chp (misc (iterate 46 (regenhp umoria_constants 0) s)) = 6.
Proof. vm_compute. repeat split. Qed.

(** ** The keypress reader *)

Lemma to_char_byte i :
  0 <= i <= 255 -> to_char i = if i <? 128 then i else i - 256.
Proof.
  intros H. unfold to_char, wrap_signed.
  change (2 ^ (8 - 1)) with 128. change (2 ^ 8) with 256.
  destruct (i <? 128) eqn:E.
  - rewrite Z.mod_small; lia.
  - replace (i + 128) with (i - 128 + 1 * 256) by lia.
    rewrite Z.mod_add by lia. rewrite Z.mod_small; lia.
Qed.

Section ReaderFacts.
Variable save_char_ok : game -> bool.

Lemma inkey_eof_outcome s :
  match inkey_eof save_char_ok s with
  | Returned k s' => k = ESCAPE /\ command_count s' = command_count s
  | Exited s' => command_count s' = command_count s
  end.
Proof.
  unfold inkey_eof. entry_tests.
  all: open_state s; records; try split; reflexivity.
Qed.

Lemma inkey_loop_outcome pending :
  Forall terminal_code pending ->
  forall s,
  match inkey_loop save_char_ok pending s with
  | Returned k s' => k <> CTRL_KEY "R" /\ command_count s' = command_count s
  | Exited s' => command_count s' = command_count s
  end.
Proof.
  induction 1 as [|i pending Hi _ IH]; intros s; cbn [inkey_loop].
  - pose proof (inkey_eof_outcome (set_input [] s)) as H.
    destruct (inkey_eof save_char_ok (set_input [] s)) as [k s'|s'].
    + destruct H as [-> H]. split; [discriminate | exact H].
    + exact H.
  - destruct (i =? EOF) eqn:E.
    + pose proof (inkey_eof_outcome (set_input pending s)) as H.
      destruct (inkey_eof save_char_ok (set_input pending s)) as [k s'|s'].
      * destruct H as [-> H]. split; [discriminate | exact H].
      * exact H.
    + destruct (i =? CTRL_KEY "R") eqn:E'; cbn [negb].
      * specialize (IH (call_ moriaterm (call_ wrefresh_curscr s))).
        destruct (inkey_loop save_char_ok pending _); exact IH.
      * split; [|reflexivity].
        unfold terminal_code, EOF in *. change (CTRL_KEY "R") with 18 in *.
        rewrite to_char_byte by lia. destruct (i <? 128) eqn:E2; lia.
Qed.

Lemma inkey_loop_redraws n : forall pending s,
  inkey_loop save_char_ok ((repeat (CTRL_KEY "R") n ++ pending)%list) s =
  inkey_loop save_char_ok pending (iterate n redraw s).
Proof.
  induction n as [|n IH]; intros pending s; [reflexivity|].
  cbn [repeat app inkey_loop iterate].
  change (CTRL_KEY "R" =? EOF) with false.
  rewrite Z.eqb_refl. cbn [negb]. apply IH.
Qed.

End ReaderFacts.

(** C10.  [inkey] sets the count to 0 before it reads, and the count is
    0 on every way out.  Fed what a terminal sends, it never returns ^R:
    past [n] of them, each answered by a redraw, it returns the next key,
    or treats the end of input. *)
Theorem inkey_never_returns_ctrl_r (save_char_ok : game -> bool) (s : game) :
  Forall terminal_code (input s) ->
  inkey save_char_ok s =
    inkey_loop save_char_ok (input s) (set_command_count 0 (put_qio s))
  /\ match inkey save_char_ok s with
     | Returned k s' => k <> CTRL_KEY "R" /\ command_count s' = 0
     | Exited s' => command_count s' = 0
     end
  /\ (forall n k pending,
        input s = (repeat (CTRL_KEY "R") n ++ k :: pending)%list ->
        k <> CTRL_KEY "R" -> k <> EOF ->
        inkey save_char_ok s =
        Returned (to_char k)
          (set_input pending (iterate n redraw (set_command_count 0 (put_qio s)))))
  /\ (forall n pending,
        input s = (repeat (CTRL_KEY "R") n ++ pending)%list ->
        pending = [] \/ hd 0 pending = EOF ->
        inkey save_char_ok s =
        inkey_eof save_char_ok
          (set_input (tl pending) (iterate n redraw (set_command_count 0 (put_qio s))))).
Proof.
  intros Hin.
  split; [reflexivity|]. split; [|split].
  - unfold inkey.
    pose proof (inkey_loop_outcome save_char_ok _ Hin (set_command_count 0 (put_qio s))) as H.
    replace (input (set_command_count 0 (put_qio s))) with (input s) by (destruct s; reflexivity).
    destruct (inkey_loop save_char_ok (input s) _); exact H.
  - intros n k pending Hs Hk Heof. unfold inkey.
    replace (input (set_command_count 0 (put_qio s))) with (input s) by (destruct s; reflexivity).
    rewrite Hs, inkey_loop_redraws. cbn [inkey_loop].
    destruct (k =? EOF) eqn:E; [lia|].
    destruct (k =? CTRL_KEY "R") eqn:E'; [lia|]. reflexivity.
  - intros n pending Hs Hp. unfold inkey.
    replace (input (set_command_count 0 (put_qio s))) with (input s) by (destruct s; reflexivity).
    rewrite Hs, inkey_loop_redraws.
    destruct pending as [|i pending]; [reflexivity|].
    destruct Hp as [Hp|Hp]; [discriminate|]. cbn [hd] in Hp. subst i.
    cbn [inkey_loop tl]. rewrite Z.eqb_refl. reflexivity.
Qed.

Lemma inkey_never_returns_ctrl_r_witness :
  let s := set_input [CTRL_KEY "R"; CTRL_KEY "R"; ch "h"] quiet_game in
  Forall terminal_code (input s)
  /\ inkey (fun _ => true) s =
     Returned (ch "h")
       (set_input [] (iterate 2 redraw (set_command_count 0 (put_qio s)))).
Proof.
  intros s.
  assert (Hin : Forall terminal_code (input s))
    by (repeat constructor; discriminate).
  split; [exact Hin|].
  destruct (inkey_never_returns_ctrl_r (fun _ => true) s Hin) as (_ & _ & H & _).
  apply (H 2%nat (ch "h") []); [reflexivity | discriminate | discriminate].
Defined.

(** C9 (amended).  At end of input, with a character generated and not
    yet saved, [inkey] counts the occurrence and raises a disturb; up to the
    100th occurrence it returns [ESCAPE], from the 101st on it sets the
    panic-save flag, saves the character and exits.  With no character
    generated, or one already saved, it exits at once: no disturb, no key,
    no panic save. *)
Theorem end_of_input_escalates (save_char_ok : game -> bool) (s : game) :
  at_end_of_input s ->
  (character_generated s = true -> character_saved s = false ->
     exists s', eof_flag s' = eof_flag s + 1
       /\ if eof_flag s + 1 <=? 100
          then inkey save_char_ok s = Returned ESCAPE s'
               /\ trace s' = disturb 1 0 :: refresh :: refresh :: trace s
               /\ panic_save s' = panic_save s
          else inkey save_char_ok s = Exited s'
               /\ trace s' =
                  exit_game :: save_char :: disturb 1 0 :: refresh :: refresh :: trace s
               /\ panic_save s' = true)
  /\ (character_generated s = false \/ character_saved s = true ->
     exists s', inkey save_char_ok s = Exited s'
       /\ trace s' = exit_game :: refresh :: refresh :: trace s
       /\ panic_save s' = panic_save s).
Proof.
  intros Hend.
  assert (Hk : inkey save_char_ok s =
               inkey_eof save_char_ok (set_input (tl (input s)) (set_command_count 0 (put_qio s)))).
  { unfold inkey.
    replace (input (set_command_count 0 (put_qio s))) with (input s) by (destruct s; reflexivity).
    destruct Hend as [H|[pending H]]; rewrite H; [reflexivity|].
    cbn [inkey_loop tl]. rewrite Z.eqb_refl. reflexivity. }
  rewrite Hk. clear Hk Hend. generalize (tl (input s)) as rest. intros rest.
  split.
  - intros Hg Hs. unfold inkey_eof, put_qio.
    open_state s. records. records_in_all. subst. cbn [negb orb].
    match goal with
    | |- context [if ?a >? 100 then _ else _] =>
        destruct (a >? 100) eqn:E; destruct (a <=? 100) eqn:E'; try lia
    end.
    + destruct (save_char_ok _); cbn [negb]; eexists; (split; [|repeat split]); reflexivity.
    + eexists; (split; [|repeat split]); reflexivity.
  - intros Hg. unfold inkey_eof, put_qio.
    open_state s. records. records_in_all.
    destruct Hg; subst; cbn [negb orb]; rewrite ?orb_true_r;
      eexists; repeat split; reflexivity.
Qed.

Lemma end_of_input_escalates_witness :
  let s := set_eof_flag 100 quiet_game in
  at_end_of_input s
  /\ exists s', eof_flag s' = 101
       /\ inkey (fun _ => true) s = Exited s'
       /\ trace s' = [exit_game; save_char; disturb 1 0; refresh; refresh]
       /\ panic_save s' = true.
Proof.
  intros s.
  assert (Hend : at_end_of_input s) by (left; reflexivity).
  split; [exact Hend|].
  destruct (end_of_input_escalates (fun _ => true) s Hend) as (H & _).
  exact (H eq_refl eq_refl).
Defined.

(** C9, as stated, fails: before any character is generated the first end
    of input ends the process, with no disturb, no [ESCAPE] returned and no
    panic save. *)
Lemma end_of_input_without_character_exits_at_once :
  let s := no_character_game in
  character_generated s = false /\ eof_flag s = 0
  /\ exists s', inkey (fun _ => true) s = Exited s'
       /\ trace s' = [exit_game; refresh; refresh]
       /\ panic_save s' = false.
Proof. vm_compute. split; [reflexivity|]. split; [reflexivity|]. eexists. repeat split. Qed.

(** ** The repeat count *)

Lemma bells_call c s :
  bells (trace (call_ c s)) =
  match c with terminalBellSound => S (bells (trace s)) | _ => bells (trace s) end.
Proof. destruct s; destruct c; reflexivity. Qed.

Lemma count_key_count_after counter c s :
  is_count_key c = true ->
  exists s',
    count_key counter c s = Some (count_after counter c, s')
    /\ bells (trace s') =
       (bells (trace s)
        + if negb (is_backspace c) && (counter >? 99) then 1 else 0)%nat.
Proof.
  unfold is_count_key, count_key, count_after. intros H.
  fold (is_backspace c).
  destruct (is_backspace c) eqn:Eb; cbn [negb andb orb] in *.
  - eexists; split; [reflexivity|]. rewrite bells_call. lia.
  - rewrite H. destruct (counter >? 99) eqn:E.
    + eexists; split; [reflexivity|]. rewrite bells_call. lia.
    + eexists; split; [reflexivity|]. rewrite bells_call. lia.
Qed.

Lemma count_key_other counter c s :
  is_count_key c = false -> count_key counter c s = None.
Proof.
  unfold is_count_key, count_key. fold (is_backspace c). intros H.
  destruct (is_backspace c); [discriminate|]. cbn [orb] in H. rewrite H. reflexivity.
Qed.

Lemma count_loop_break pending counter c s :
  count_key counter c s = None ->
  count_loop pending counter c s = (counter, c, set_input pending s).
Proof. intros H. destruct pending; cbn [count_loop]; rewrite H; reflexivity. Qed.

Lemma count_loop_spec keys : forall c counter s tail,
  is_count_key c = true ->
  forallb is_count_key keys = true ->
  ends_count tail = true ->
  exists s',
    count_loop (keys ++ tail)%list counter c s =
      (fold_left count_after (c :: keys) counter, hd ESCAPE tail, s')
    /\ bells (trace s') = (bells (trace s) + refused_digits (c :: keys) counter)%nat
    /\ input s' = tl tail.
Proof.
  induction keys as [|k keys IH]; intros c counter s tail Hc Hk Ht.
  - destruct (count_key_count_after counter c s Hc) as (s1 & H1 & Hb).
    cbn [app fold_left refused_digits]. 
    destruct tail as [|c' tail]; cbn [count_loop]; rewrite H1.
    + eexists; split; [reflexivity|]. split; [|destruct s1; reflexivity].
      replace (trace (set_input [] s1)) with (trace s1) by (destruct s1; reflexivity). lia.
    + cbn [ends_count] in Ht. apply negb_true_iff in Ht.
      rewrite (count_loop_break _ _ _ _ (count_key_other _ _ _ Ht)).
      eexists; split; [reflexivity|]. split; [|destruct s1; reflexivity].
      replace (trace (set_input tail s1)) with (trace s1) by (destruct s1; reflexivity). lia.
  - cbn [forallb] in Hk. apply andb_true_iff in Hk. destruct Hk as [Hk Hks].
    destruct (count_key_count_after counter c s Hc) as (s1 & H1 & Hb).
    cbn [app count_loop]. rewrite H1.
    destruct (IH k (count_after counter c) s1 tail Hk Hks Ht) as (s' & H' & Hb' & Hi').
    exists s'. split; [exact H'|]. split; [|exact Hi'].
    rewrite Hb', Hb. cbn [refused_digits]. lia.
Qed.

Lemma count_after_range counter c :
  is_count_key c = true -> 0 <= counter <= 999 -> 0 <= count_after counter c <= 999.
Proof.
  unfold is_count_key, count_after, is_digit. intros Hc Hr.
  change (ch "0") with 48 in *. change (ch "9") with 57 in *.
  destruct (is_backspace c); cbn [orb] in Hc.
  - rewrite Z.quot_div_nonneg by lia.
    pose proof (Z.div_le_upper_bound counter 10 999).
    pose proof (Z.div_pos counter 10). lia.
  - destruct (counter >? 99) eqn:E; lia.
Qed.

Lemma fold_count_after_range keys : forall counter,
  forallb is_count_key keys = true -> 0 <= counter <= 999 ->
  0 <= fold_left count_after keys counter <= 999.
Proof.
  induction keys as [|k keys IH]; intros counter Hk Hr; [exact Hr|].
  cbn [forallb] in Hk. apply andb_true_iff in Hk. destruct Hk as [Hk Hks].
  cbn [fold_left]. apply IH; [assumption|]. apply count_after_range; assumption.
Qed.

(** C3 (amended).  The count parser takes a digit while the count is at
    most 99, so counts run up to 999; a digit typed on a count above 99
    rings the bell and changes nothing; a backspace or DELETE divides the
    count by 10; a final count of 0 becomes 99. *)
Theorem repeat_count_parser (s : game) (k0 : Z) (keys tail : list Z) :
  input s = (k0 :: keys ++ tail)%list ->
  starts_count s k0 = true ->
  forallb is_count_key keys = true ->
  ends_count tail = true ->
  let first := if k0 =? ch "#" then ch "0" else k0 in
  let typed := typed_count (first :: keys) in
  let '(counter, _, s') := get_count s in
  counter = (if typed =? 0 then 99 else typed)
  /\ 1 <= counter <= 999
  /\ bells (trace s') = (bells (trace s) + refused_digits (first :: keys) 0)%nat
  /\ typed_count [ch "1"; ch "5"] = 15
  /\ typed_count [ch "1"; ch "5"; DELETE] = 1
  /\ typed_count [ch "0"] = 0.
Proof.
  intros Hin Hstart Hkeys Hend first typed.
  assert (Hfirst : is_count_key first = true).
  { subst first. unfold starts_count in Hstart. unfold is_count_key.
    destruct (k0 =? ch "#") eqn:E; [reflexivity|].
    destruct (use_roguelike_keys s); cbn [negb andb orb] in Hstart.
    - rewrite orb_false_r in Hstart. rewrite Hstart. apply orb_true_r.
    - discriminate. }
  assert (Hrange : 0 <= typed <= 999).
  { subst typed. unfold typed_count. apply fold_count_after_range; [|lia].
    cbn [forallb]. rewrite Hfirst, Hkeys. reflexivity. }
  unfold get_count, getKeyInput. rewrite Hin.
  replace (use_roguelike_keys (set_input (keys ++ tail) s)) with (use_roguelike_keys s)
    by (destruct s; reflexivity).
  fold (starts_count s k0). rewrite Hstart.
  replace (input (call_ (putStringClearToEOL "Repeat count:" 0 0) (set_input (keys ++ tail) s)))
    with (keys ++ tail)%list by (destruct s; reflexivity).
  fold first.
  destruct (count_loop_spec keys first 0
              (call_ (putStringClearToEOL "Repeat count:" 0 0) (set_input (keys ++ tail) s))
              tail Hfirst Hkeys Hend) as (s1 & H1 & Hb & Hi).
  rewrite H1. fold (typed_count (first :: keys)). fold typed.
  replace (bells (trace (call_ (putStringClearToEOL "Repeat count:" 0 0)
                           (set_input (keys ++ tail) s))))
    with (bells (trace s)) in Hb by (destruct s; reflexivity).
  assert (Hset : forall p x, bells (trace (set_input p x)) = bells (trace x))
    by (intros p x; destruct x; reflexivity).
  destruct (typed =? 0) eqn:Ez; cbv beta iota zeta;
    destruct (hd ESCAPE tail =? ch " ");
    try match goal with |- context [input ?x] => destruct (input x) end;
    cbv beta iota zeta;
    (split; [reflexivity|]; split; [lia|]; split; [|repeat split]);
    rewrite ?Hset, ?bells_call, ?Hset, ?bells_call; exact Hb.
Qed.

Lemma repeat_count_parser_witness :
  let s := set_input [ch "1"; ch "5"; DELETE; ch "h"] quiet_game in
  let '(counter, _, s') := get_count s in
  counter = 1 /\ 1 <= counter <= 999 /\ bells (trace s') = 0%nat
  /\ typed_count [ch "1"; ch "5"] = 15
  /\ typed_count [ch "1"; ch "5"; DELETE] = 1
  /\ typed_count [ch "0"] = 0.
Proof.
  exact (repeat_count_parser
           (set_input [ch "1"; ch "5"; DELETE; ch "h"] quiet_game)
           (ch "1") [ch "5"; DELETE] [ch "h"] eq_refl eq_refl eq_refl eq_refl).
Defined.

(** C3, as stated, fails: the keys 1, 5, 0 give the count 150, above 99,
    and no bell rings; the bell waits for the fourth digit. *)
Lemma repeat_count_exceeds_99 :
  let '(counter, c, s') := get_count (set_input [ch "1"; ch "5"; ch "0"; ch "h"] quiet_game) in
  counter = 150 /\ c = ch "h" /\ bells (trace s') = 0%nat.
Proof. vm_compute. repeat split. Qed.

Example repeat_count_15 :
  fst (fst (get_count (set_input [ch "1"; ch "5"; ch "h"] quiet_game))) = 15.
Proof. reflexivity. Qed.

Example repeat_count_0_is_99 :
  fst (fst (get_count (set_input [ch "0"; ch "h"] quiet_game))) = 99.
Proof. reflexivity. Qed.

Example repeat_count_fourth_digit_rings :
  let '(counter, _, s') :=
    get_count (set_input [ch "1"; ch "5"; ch "0"; ch "7"; ch "h"] quiet_game) in
  counter = 150 /\ bells (trace s') = 1%nat.
Proof. vm_compute. split; reflexivity. Qed.

(** ** Counts and the allow-list *)

Lemma do_command_space run get_dir s :
  do_command run get_dir (ch " ") s =
  set_last_command (ch " ") (set_player_free_turn true s).
Proof. reflexivity. Qed.

(** C8 (amended).  A command that is off the allow-list and comes with a
    positive count is replaced by the no-op: the message is printed, the
    turn is free, no handler runs and the count ends at 0.  The list
    refuses quit, save, help and version, and all six inventory commands;
    it accepts the eight movement keys, searching and resting. *)
Theorem count_off_the_allow_list_is_refused
  (run : handler -> game -> game) (get_dir : game -> option Z * game)
  (counter c : Z) (s : game) :
  0 < counter ->
  valid_countcommand c = false ->
  (let '(c', s1) := check_count counter c s in
   let s2 := dispatch run get_dir c' s1 in
   c' = ch " "
   /\ trace s2 =
      putQIO :: moveCursorRelative :: eraseLine MSG_LINE 0
      :: printMessage "Invalid command with a count." :: trace s
   /\ player_free_turn s2 = true
   /\ command_count s2 = 0
   /\ last_command s2 = ch " ")
  /\ (valid_countcommand (ch "Q") = false
      /\ valid_countcommand (CTRL_KEY "X") = false
      /\ valid_countcommand (ch "?") = false
      /\ valid_countcommand (ch "v") = false)
  /\ (forallb valid_countcommand movement_commands = true
      /\ valid_countcommand (ch "s") = true
      /\ valid_countcommand (ch "R") = true
      /\ valid_countcommand (ch ".") = true)
  /\ (forall c', In c' inventory_commands ->
        valid_countcommand c' = false
        /\ exists k, forall p g, do_command_switch run c' p g = run (inven_command k) g).
Proof.
  intros Hc Hv. split; [|split; [|split]].
  - unfold check_count. destruct (counter >? 0) eqn:E; [|lia]. rewrite Hv. cbn [negb].
    unfold dispatch. rewrite do_command_space.
    open_state s. records.
    split; [reflexivity|].
    match goal with
    | |- context [if ?b then _ else _] => destruct b
    end; records; repeat split; reflexivity.
  - repeat split; reflexivity.
  - repeat split; reflexivity.
  - intros c' Hin. cbn in Hin.
    repeat (destruct Hin as [<-|Hin]; [split; [reflexivity | eexists; intros; reflexivity]|]).
    contradiction.
Qed.

Lemma count_off_the_allow_list_is_refused_witness :
  let '(c', s1) := check_count 5 (ch "Q") quiet_game in
  let s2 := dispatch no_handler no_direction c' s1 in
  c' = ch " "
  /\ trace s2 =
     [putQIO; moveCursorRelative; eraseLine MSG_LINE 0;
      printMessage "Invalid command with a count."]
  /\ player_free_turn s2 = true
  /\ command_count s2 = 0
  /\ last_command s2 = ch " ".
Proof.
  exact (proj1 (count_off_the_allow_list_is_refused
                  no_handler no_direction 5 (ch "Q") quiet_game eq_refl eq_refl)).
Defined.

Example count_on_quit_is_refused :
  let '(c, s) :=
    executeInputCommands_once umoria_constants no_handler no_direction (ch " ")
      (set_input [ch "5"; ch "Q"] quiet_game) in
  c = ch " " /\ player_free_turn s = true /\ command_count s = 0
  /\ In (printMessage "Invalid command with a count.") (trace s).
Proof. vm_compute. repeat split. auto 10. Qed.

Example count_on_move_is_kept :
  let '(c, s) :=
    executeInputCommands_once umoria_constants no_handler no_direction (ch " ")
      (set_input [ch "1"; ch "2"; ch "h"] quiet_game) in
  c = ch "h" /\ player_free_turn s = false /\ command_count s = 11.
Proof. vm_compute. repeat split. Qed.

(** C8, as stated, fails: not one of the six inventory commands takes a
    count, nor does any command that uses up an item. *)
Lemma no_inventory_command_takes_a_count :
  inventory_commands = [ch "d"; ch "e"; ch "i"; ch "T"; ch "w"; ch "X"]
  /\ filter valid_countcommand inventory_commands = []
  /\ filter valid_countcommand item_commands = [].
Proof. repeat split; reflexivity. Qed.

(** * Properties of the further code *)

Lemma direction_cases d :
  is_direction d = true ->
  d = 1 \/ d = 2 \/ d = 3 \/ d = 4 \/ d = 6 \/ d = 7 \/ d = 8 \/ d = 9.
Proof. unfold is_direction. lia. Qed.

(** X1 ([original_commands], [do_command], [valid_countcommand]): with the
    original keys, a keypad digit other than 5 needs no prompt and leaves the
    state alone; it becomes the letter whose handler is the move in that very
    direction, and that letter takes a repeat count. *)
Theorem original_digits_move_in_their_direction
  (run : handler -> game -> game) (get_dir : game -> option Z * game)
  (d : Z) (do_pickup : bool) (s g : game) :
  is_direction d = true ->
  let '(c, s') := original_commands get_dir (ch "0" + d) s in
  s' = s
  /\ do_command_switch run c do_pickup g = run (move_char d do_pickup) g
  /\ valid_countcommand c = true.
Proof.
  intros Hd.
  destruct (direction_cases d Hd) as [->|[->|[->|[->|[->|[->|[->| ->]]]]]]];
    repeat split; reflexivity.
Qed.

Lemma original_digits_move_in_their_direction_witness :
  let '(c, s') := original_commands no_direction (ch "7") quiet_game in
  s' = quiet_game
  /\ do_command_switch no_handler c true quiet_game
     = no_handler (move_char 7 true) quiet_game
  /\ valid_countcommand c = true.
Proof.
  exact (original_digits_move_in_their_direction
           no_handler no_direction 7 true quiet_game quiet_game eq_refl).
Defined.

(** X2 ([original_commands], [do_command]): the original keys [.] and [T]
    ask for a direction once, keep whatever the prompt did to the state, and
    on a keypad direction other than 5 become the command that runs
    ([find_init]), respectively tunnels ([tunnel]), in that direction, both of
    which take a repeat count; on any other answer, or none, they become the
    blank command. *)
Theorem direction_prefixes_reach_their_handler
  (run : handler -> game -> game) (get_dir : game -> option Z * game)
  (answer : option Z) (do_pickup : bool) (s s' g : game) :
  get_dir s = (answer, s') ->
  (let '(c, t) := original_commands get_dir (ch ".") s in
   t = s'
   /\ match answer with
      | Some d =>
          if is_direction d
          then do_command_switch run c do_pickup g = run (find_init d) g
               /\ valid_countcommand c = true
          else c = ch " "
      | None => c = ch " "
      end)
  /\ (let '(c, t) := original_commands get_dir (ch "T") s in
      t = s'
      /\ match answer with
         | Some d =>
             if is_direction d
             then do_command_switch run c do_pickup g = run (tunnel d) g
                  /\ valid_countcommand c = true
             else c = ch " "
         | None => c = ch " "
         end).
Proof.
  intros Hg.
  assert (Hrun : forall d, is_direction d = false -> run_command d = ch " ").
  { intros d Hd. unfold is_direction in Hd. unfold run_command.
    repeat match goal with |- context [if ?b then _ else _] => destruct b eqn:? end;
      try reflexivity; lia. }
  assert (Htun : forall d, is_direction d = false -> tunnel_command d = ch " ").
  { intros d Hd. unfold is_direction in Hd. unfold tunnel_command.
    repeat match goal with |- context [if ?b then _ else _] => destruct b eqn:? end;
      try reflexivity; lia. }
  split.
  - change (original_commands get_dir (ch ".") s)
      with (match get_dir s with
            | (Some dir_val, s0) => (run_command dir_val, s0)
            | (None, s0) => (ch " ", s0)
            end).
    rewrite Hg. destruct answer as [d|]; [|split; reflexivity].
    split; [reflexivity|].
    destruct (is_direction d) eqn:Hd; [|apply Hrun; exact Hd].
    destruct (direction_cases d Hd) as [->|[->|[->|[->|[->|[->|[->| ->]]]]]]];
      split; reflexivity.
  - change (original_commands get_dir (ch "T") s)
      with (match get_dir s with
            | (Some dir_val, s0) => (tunnel_command dir_val, s0)
            | (None, s0) => (ch " ", s0)
            end).
    rewrite Hg. destruct answer as [d|]; [|split; reflexivity].
    split; [reflexivity|].
    destruct (is_direction d) eqn:Hd; [|apply Htun; exact Hd].
    destruct (direction_cases d Hd) as [->|[->|[->|[->|[->|[->|[->| ->]]]]]]];
      split; reflexivity.
Qed.

Lemma direction_prefixes_reach_their_handler_witness :
  let get_dir := answer_direction 2 in
  get_dir quiet_game = (Some 2, quiet_game)
  /\ (let '(c, t) := original_commands get_dir (ch "T") quiet_game in
      t = quiet_game
      /\ do_command_switch no_handler c true quiet_game
         = no_handler (tunnel 2) quiet_game
      /\ valid_countcommand c = true).
Proof.
  intros get_dir. split; [reflexivity|].
  exact (proj2 (direction_prefixes_reach_their_handler
                  no_handler get_dir (Some 2) true quiet_game quiet_game quiet_game
                  eq_refl)).
Defined.

(** X3 ([moveWithoutPickup], [do_command]): the prefix [-] asks for a
    direction, gives the pending repeat count back after the prompt, and then
    moves in that direction without picking up, recording the movement letter
    (which takes a count) as the last command; with no direction it is a free
    turn recorded as the blank command. *)
Theorem move_without_pickup_keeps_the_count
  (run : handler -> game -> game) (get_dir : game -> option Z * game)
  (answer : option Z) (s s' : game) :
  get_dir s = (answer, s') ->
  match answer with
  | Some d =>
      is_direction d = true ->
      do_command run get_dir (ch "-") s =
      set_last_command (move_command d)
        (run (move_char d false) (set_command_count (command_count s) s'))
      /\ valid_countcommand (move_command d) = true
  | None =>
      do_command run get_dir (ch "-") s = set_last_command (ch " ") (free_turn s')
  end.
Proof.
  intros Hg. unfold do_command, moveWithoutPickup.
  change (negb (ch "-" =? ch "-")) with false. cbv beta iota. rewrite Hg.
  destruct answer as [d|]; [|reflexivity].
  intros Hd.
  destruct (direction_cases d Hd) as [->|[->|[->|[->|[->|[->|[->| ->]]]]]]];
    split; reflexivity.
Qed.

Lemma move_without_pickup_keeps_the_count_witness :
  let s := set_command_count 4 quiet_game in
  do_command no_handler (answer_direction 6) (ch "-") s =
  set_last_command (ch "l") s.
Proof.
  intros s.
  exact (proj1 (move_without_pickup_keeps_the_count
                  no_handler (answer_direction 6) (Some 6) s s eq_refl eq_refl)).
Defined.

Lemma lookup_key_none c t :
  ~ In c (map fst t) -> lookup_key c t = None.
Proof.
  induction t as [|[k v] t IH]; intros H; [reflexivity|].
  cbn [lookup_key]. cbn [map fst In] in H.
  destruct (c =? k) eqn:E; [exfalso; apply H; left; lia|].
  apply IH. intros Hin. apply H. right. exact Hin.
Qed.

(** X4 ([original_commands], [do_command]): an original key that is in no
    case of the translation becomes [~]; outside wizard mode [~] costs no
    turn, only prints the help hint, and never takes a repeat count. *)
Theorem unknown_original_key_costs_no_turn
  (run : handler -> game -> game) (get_dir : game -> option Z * game)
  (c : Z) (s : game) :
  c <> ch "." -> c <> ch "T" -> ~ In c (map fst original_table) ->
  wizard_mode s = false ->
  let '(c', s1) := original_commands get_dir c s in
  c' = ch "~" /\ s1 = s
  /\ valid_countcommand c' = false
  /\ do_command run get_dir c' s1 =
     set_last_command (ch "~")
       (call_ (putStringClearToEOL "Type '?' for help." 0 0) (free_turn s)).
Proof.
  intros H1 H2 Hin Hw. unfold original_commands.
  destruct (c =? ch ".") eqn:E1; [lia|].
  destruct (c =? ch "T") eqn:E2; [lia|].
  rewrite (lookup_key_none _ _ Hin).
  split; [reflexivity|]. split; [reflexivity|]. split; [reflexivity|].
  unfold do_command, moveWithoutPickup.
  change (negb (ch "~" =? ch "-")) with true. cbv beta iota.
  change (do_command_switch run (ch "~") true s)
    with (let s0 := free_turn s in
          if wizard_mode s0 then run (doWizardCommands (ch "~")) s0
          else call_ (putStringClearToEOL "Type '?' for help." 0 0) s0).
  cbv zeta.
  replace (wizard_mode (free_turn s)) with (wizard_mode s) by (destruct s; reflexivity).
  rewrite Hw. reflexivity.
Qed.

Lemma unknown_original_key_costs_no_turn_witness :
  let '(c', s1) := original_commands no_direction (ch "k") quiet_game in
  c' = ch "~" /\ s1 = quiet_game
  /\ valid_countcommand c' = false
  /\ do_command no_handler no_direction c' s1 =
     set_last_command (ch "~")
       (call_ (putStringClearToEOL "Type '?' for help." 0 0) (free_turn quiet_game)).
Proof.
  apply (unknown_original_key_costs_no_turn no_handler no_direction (ch "k") quiet_game).
  - discriminate.
  - discriminate.
  - cbv. intuition discriminate.
  - reflexivity.
Defined.

(** X5 (the control-code block of [executeInputCommands]): after the
    prefix [^] a letter gives the same control code, letter - 64 for the
    capital, in either case, in 1..26; the two cases leave the same state,
    with exactly that one key read. *)
Theorem control_prefix_folds_case (a : Z) (pending : list Z) (s : game) :
  ch "A" <= a <= ch "Z" ->
  let upper := control_code (ch "^") (set_input (a :: pending) s) in
  let lower := control_code (ch "^") (set_input (a + 32 :: pending) s) in
  fst upper = a - 64 /\ fst lower = a - 64 /\ 1 <= a - 64 <= 26
  /\ snd upper = snd lower /\ input (snd upper) = pending.
Proof.
  change (ch "A") with 65. change (ch "Z") with 90. intros Ha.
  unfold control_code, getCommand, getKeyInput.
  change (ch "^" =? ch "^") with true. cbv beta iota.
  replace (input (call_ (putStringClearToEOL "Control-" 0 0)
             (if command_count (set_input (a :: pending) s) >? 0
              then call_ prt_state (set_input (a :: pending) s)
              else set_input (a :: pending) s)))
    with (a :: pending) by (destruct s; cbn; destruct (_ >? 0); reflexivity).
  replace (input (call_ (putStringClearToEOL "Control-" 0 0)
             (if command_count (set_input (a + 32 :: pending) s) >? 0
              then call_ prt_state (set_input (a + 32 :: pending) s)
              else set_input (a + 32 :: pending) s)))
    with (a + 32 :: pending) by (destruct s; cbn; destruct (_ >? 0); reflexivity).
  cbv beta iota zeta.
  change (ch "A") with 65. change (ch "Z") with 90.
  change (ch "a") with 97. change (ch "z") with 122. unfold ESCAPE.
  destruct (a =? 27) eqn:E1; [lia|].
  destruct (a + 32 =? 27) eqn:E2; [lia|]. cbn [negb].
  destruct ((65 <=? a) && (a <=? 90)) eqn:E3; [|lia].
  destruct ((65 <=? a + 32) && (a + 32 <=? 90)) eqn:E4; [lia|].
  destruct ((97 <=? a + 32) && (a + 32 <=? 122)) eqn:E5; [|lia].
  cbn [fst snd].
  split; [lia|]. split; [lia|]. split; [lia|].
  split; destruct s; cbn;
    repeat match goal with |- context [if ?b then _ else _] => destruct b end;
    reflexivity.
Qed.

Lemma control_prefix_folds_case_witness :
  fst (control_code (ch "^") (set_input [ch "P"] quiet_game)) = CTRL_KEY "P"
  /\ fst (control_code (ch "^") (set_input [ch "p"] quiet_game)) = CTRL_KEY "P".
Proof.
  destruct (control_prefix_folds_case (ch "P") [] quiet_game) as (H1 & H2 & _).
  - split; discriminate.
  - split; [exact H1 | exact H2].
Defined.



Lemma split_16_16 inc :
  0 <= inc < 2147483648 ->
  int32 inc = inc
  /\ inc = Z.shiftr inc 16 * 65536 + Z.land inc 65535
  /\ 0 <= Z.land inc 65535 < 65536
  /\ 0 <= Z.shiftr inc 16 < 32768.
Proof.
  intros H.
  rewrite Z.shiftr_div_pow2 by lia. change 65535 with (Z.ones 16).
  rewrite Z.land_ones by lia. change (2 ^ 16) with 65536.
  pose proof (Z.div_mod inc 65536 ltac:(lia)).
  pose proof (Z.mod_pos_bound inc 65536 ltac:(lia)).
  assert (0 <= inc / 65536 < 32768).
  { split; [apply Z.div_pos; lia | apply Z.div_lt_upper_bound; lia]. }
  repeat split; try lia. apply int32_small. lia.
Qed.

Ltac exact_16_16 s :=
  entry_tests;
  open_state s; records; records_in_all;
  repeat match goal with
  | H : context [int16 ?z] |- _ => rewrite (int16_small z) in H by lia
  | |- context [int16 ?z] => rewrite (int16_small z) by lia
  | H : context [uint16 ?z] |- _ => rewrite (uint16_small z) in H by lia
  | |- context [uint16 ?z] => rewrite (uint16_small z) by lia
  end;
  unfold MAX_SHORT in *; repeat split; intros; try lia.

Lemma regenhp_exact (K : constants) (percent : Z) (s : game) :
  let inc := mhp (misc s) * percent + PLAYER_REGEN_HPBASE K in
  0 <= inc < 2147483648 ->
  0 <= chp (misc s) -> mhp (misc s) <= 32767 ->
  0 <= chp_frac (misc s) < 65536 ->
  chp (misc s) + Z.shiftr inc 16 < 32767 ->
  let s' := regenhp K percent s in
  (hp_total s + inc < mhp (misc s) * 65536 ->
     hp_total s' = hp_total s + inc /\ 0 <= chp_frac (misc s') < 65536)
  /\ (mhp (misc s) * 65536 <= hp_total s + inc ->
     chp (misc s') = mhp (misc s) /\ chp_frac (misc s') = 0)
  /\ (chp (misc s) <= mhp (misc s) -> chp (misc s) <= chp (misc s')).
Proof.
  intros inc Hinc Hchp Hmhp Hfrac Hno s'. subst s'.
  destruct (split_16_16 inc Hinc) as (H32 & Hsplit & Hlow & Hhigh).
  unfold hp_total.
  cbv beta iota zeta delta [regenhp].
  fold inc. rewrite H32.
  set (q := Z.shiftr inc 16) in *. set (r := Z.land inc 65535) in *.
  exact_16_16 s.
Qed.

Lemma regenmana_exact (K : constants) (percent : Z) (s : game) :
  let inc := mana (misc s) * percent + PLAYER_REGEN_MNBASE K in
  0 <= inc < 2147483648 ->
  0 <= cmana (misc s) -> mana (misc s) <= 32767 ->
  0 <= cmana_frac (misc s) < 65536 ->
  cmana (misc s) + Z.shiftr inc 16 < 32767 ->
  let s' := regenmana K percent s in
  (mana_total s + inc < mana (misc s) * 65536 ->
     mana_total s' = mana_total s + inc /\ 0 <= cmana_frac (misc s') < 65536)
  /\ (mana (misc s) * 65536 <= mana_total s + inc ->
     cmana (misc s') = mana (misc s) /\ cmana_frac (misc s') = 0)
  /\ (cmana (misc s) <= mana (misc s) -> cmana (misc s) <= cmana (misc s')).
Proof.
  intros inc Hinc Hchp Hmhp Hfrac Hno s'. subst s'.
  destruct (split_16_16 inc Hinc) as (H32 & Hsplit & Hlow & Hhigh).
  unfold mana_total.
  cbv beta iota zeta delta [regenmana].
  fold inc. rewrite H32.
  set (q := Z.shiftr inc 16) in *. set (r := Z.land inc 65535) in *.
  exact_16_16 s.
Qed.

(** X7 ([regenhp], [regenmana]): away from the 16- and 32-bit wrap-around,
    current and fraction together are one 16.16 fixed-point number to which a
    call adds exactly maximum times percent plus the bias, stopping at the
    maximum; the
    whole part never goes down. *)
Theorem regeneration_accumulates_exactly (K : constants) (percent : Z) (s : game) :
  let hp_inc := mhp (misc s) * percent + PLAYER_REGEN_HPBASE K in
  let mana_inc := mana (misc s) * percent + PLAYER_REGEN_MNBASE K in
  0 <= hp_inc < 2147483648 -> 0 <= mana_inc < 2147483648 ->
  0 <= chp (misc s) <= mhp (misc s) -> mhp (misc s) <= 32767 ->
  0 <= cmana (misc s) <= mana (misc s) -> mana (misc s) <= 32767 ->
  0 <= chp_frac (misc s) < 65536 -> 0 <= cmana_frac (misc s) < 65536 ->
  chp (misc s) + Z.shiftr hp_inc 16 < 32767 ->
  cmana (misc s) + Z.shiftr mana_inc 16 < 32767 ->
  (if hp_total s + hp_inc <? mhp (misc s) * 65536
   then hp_total (regenhp K percent s) = hp_total s + hp_inc
   else hp_total (regenhp K percent s) = mhp (misc s) * 65536)
  /\ (if mana_total s + mana_inc <? mana (misc s) * 65536
      then mana_total (regenmana K percent s) = mana_total s + mana_inc
      else mana_total (regenmana K percent s) = mana (misc s) * 65536)
  /\ chp (misc s) <= chp (misc (regenhp K percent s))
  /\ cmana (misc s) <= cmana (misc (regenmana K percent s)).
Proof.
  intros hp_inc mana_inc H1 H2 H3 H4 H5 H6 H7 H8 H9 H10.
  destruct (regenhp_exact K percent s H1 ltac:(lia) H4 H7 H9) as (A1 & A2 & A3).
  destruct (regenmana_exact K percent s H2 ltac:(lia) H6 H8 H10) as (B1 & B2 & B3).
  fold hp_inc in A1, A2. fold mana_inc in B1, B2.
  split; [|split; [|split; [apply A3; lia | apply B3; lia]]].
  - destruct (hp_total s + hp_inc <? mhp (misc s) * 65536) eqn:E.
    + apply A1. lia.
    + destruct A2 as (A & B); [lia|]. unfold hp_total at 1. rewrite A, B. lia.
  - destruct (mana_total s + mana_inc <? mana (misc s) * 65536) eqn:E.
    + apply B1. lia.
    + destruct B2 as (A & B); [lia|]. unfold mana_total at 1. rewrite A, B. lia.
Qed.

Lemma regeneration_accumulates_exactly_witness :
  let s := upd_misc (fun m => set_cmana 2 (set_chp 5 m)) quiet_game in
  hp_total (regenhp umoria_constants 197 s) = 5 * 65536 + 3412
  /\ mana_total (regenmana umoria_constants 197 s) = 2 * 65536 + 1509.
Proof.
  intros s.
  destruct (regeneration_accumulates_exactly umoria_constants 197 s)
    as (H1 & H2 & _);
    [ vm_compute; repeat split; (discriminate || reflexivity) .. | ].
  split; [exact H1 | exact H2].
Defined.



Section Bonuses.
Variable K : constants.
Variable ca : game -> Z.






End Bonuses.



Lemma resting_step s :
  0 < rest (flags s) ->
  rest (flags (playerUpdateRestingState s)) = rest (flags s) - 1
  /\ rest_offs (trace (playerUpdateRestingState s)) =
     Nat.add (rest_offs (trace s)) (if rest (flags s) =? 1 then 1%nat else 0%nat).
Proof.
  intros H. unfold playerUpdateRestingState. entry_tests.
  all: open_state s; records; records_in_all; cbn [rest_offs]; split; try reflexivity; lia.
Qed.

Lemma resting_idle s :
  rest (flags s) = 0 -> playerUpdateRestingState s = s.
Proof.
  intros H. unfold playerUpdateRestingState. rewrite H. reflexivity.
Qed.

(** X9 ([playerUpdateRestingState]): a positive rest counter goes down by
    one per update and stays at 0, and [rest_off] is called exactly once, on
    the update that brings it to 0. *)
Theorem resting_counts_down_and_stops_once (n k : nat) (s : game) :
  rest (flags s) = Z.of_nat n -> (0 < n)%nat ->
  let s' := iterate k playerUpdateRestingState s in
  rest (flags s') = Z.max 0 (Z.of_nat n - Z.of_nat k)
  /\ rest_offs (trace s') =
     (rest_offs (trace s) + if (n <=? k)%nat then 1 else 0)%nat.
Proof.
  revert n s. induction k as [|k IH]; intros n s Hr Hn; cbn [iterate].
  - split; [lia|]. destruct (n <=? 0)%nat eqn:E; lia.
  - destruct (resting_step s ltac:(lia)) as (H1 & H2).
    destruct (Nat.eq_dec n 1) as [->|Hn1].
    + assert (Hidle : forall j t, rest (flags t) = 0 ->
                iterate j playerUpdateRestingState t = t).
      { induction j as [|j IHj]; intros t Ht; [reflexivity|].
        cbn [iterate]. rewrite (resting_idle t Ht). apply IHj. exact Ht. }
      rewrite Hidle by lia.
      rewrite H1, H2, Hr. split; [lia|]. cbn. lia.
    + destruct (IH (n - 1)%nat (playerUpdateRestingState s) ltac:(lia) ltac:(lia))
        as (I1 & I2).
      rewrite I1, I2, H2. split; [lia|].
      destruct (rest (flags s) =? 1) eqn:E1; [lia|].
      destruct (n - 1 <=? k)%nat eqn:E2; destruct (n <=? S k)%nat eqn:E3; lia.
Qed.

Lemma resting_counts_down_and_stops_once_witness :
  let s := upd_flags (set_rest 3) quiet_game in
  rest (flags (iterate 5 playerUpdateRestingState s)) = 0
  /\ rest_offs (trace (iterate 5 playerUpdateRestingState s)) = 1%nat
  /\ rest_offs (trace (iterate 2 playerUpdateRestingState s)) = 0%nat.
Proof.
  intros s.
  destruct (resting_counts_down_and_stops_once 3 5 s eq_refl ltac:(lia)) as (H1 & H2).
  destruct (resting_counts_down_and_stops_once 3 2 s eq_refl ltac:(lia)) as (_ & H3).
  split; [exact H1|]. split; [exact H2 | exact H3].
Defined.



Section EndOfInput.
Variable save_char_ok : game -> bool.

Lemma inkey_at_end s :
  input s = [] -> character_generated s = true -> character_saved s = false ->
  0 <= eof_flag s ->
  if eof_flag s <? 100
  then exists s', inkey save_char_ok s = Returned ESCAPE s'
         /\ input s' = [] /\ character_generated s' = true
         /\ character_saved s' = false /\ eof_flag s' = eof_flag s + 1
  else exists s', inkey save_char_ok s = Exited s' /\ panic_save s' = true.
Proof.
  intros Hi Hg Hs He. unfold inkey.
  replace (input (set_command_count 0 (put_qio s))) with (input s) by (destruct s; reflexivity).
  rewrite Hi. cbn [inkey_loop]. unfold inkey_eof, put_qio.
  destruct (eof_flag s <? 100) eqn:E.
  - open_state s. records. records_in_all. subst. cbn [negb orb].
    match goal with
    | |- context [if ?a >? 100 then _ else _] => destruct (a >? 100) eqn:E'; [lia|]
    end.
    eexists. repeat split.
  - open_state s. records. records_in_all. subst. cbn [negb orb].
    match goal with
    | |- context [if ?a >? 100 then _ else _] => destruct (a >? 100) eqn:E'; [|lia]
    end.
    match goal with
    | |- context [if ?b then _ else _] => destruct b
    end; eexists; split; reflexivity.
Qed.

Lemma inkey_times_at_end (n : nat) : forall s,
  input s = [] -> character_generated s = true -> character_saved s = false ->
  0 <= eof_flag s -> eof_flag s + Z.of_nat n = 100 ->
  exists s',
    inkey_times save_char_ok (S n) s = (repeat ESCAPE n, Exited s')
    /\ panic_save s' = true.
Proof.
  induction n as [|n IH]; intros s Hi Hg Hs He Hn.
  - pose proof (inkey_at_end s Hi Hg Hs He) as H.
    destruct (eof_flag s <? 100) eqn:E; [lia|].
    destruct H as (s' & H1 & H2). exists s'. cbn [inkey_times repeat].
    rewrite H1. split; [reflexivity | exact H2].
  - pose proof (inkey_at_end s Hi Hg Hs He) as H.
    destruct (eof_flag s <? 100) eqn:E; [|lia].
    destruct H as (s1 & H1 & H2 & H3 & H4 & H5).
    destruct (IH s1 H2 H3 H4 ltac:(lia) ltac:(lia)) as (s' & I1 & I2).
    exists s'. split; [|exact I2].
    change (inkey_times save_char_ok (S (S n)) s)
      with (match inkey save_char_ok s with
            | Returned k s0 =>
                let '(keys, r) := inkey_times save_char_ok (S n) s0 in (k :: keys, r)
            | Exited s0 => ([], Exited s0)
            end).
    rewrite H1, I1. reflexivity.
Qed.

End EndOfInput.

(** X11 ([inkey]): at end of input with a character generated and not
    saved, the reader answers [ESCAPE] to each call until the end-of-input
    counter stands at 100, and the next call ends the process with a panic
    save: from a counter of c that is 100 - c escapes and then the exit. *)
Theorem end_of_input_ends_the_process (save_char_ok : game -> bool) (s : game) :
  input s = [] -> character_generated s = true -> character_saved s = false ->
  0 <= eof_flag s <= 100 ->
  exists s',
    inkey_times save_char_ok (Z.to_nat (101 - eof_flag s)) s =
      (repeat ESCAPE (Z.to_nat (100 - eof_flag s)), Exited s')
    /\ panic_save s' = true.
Proof.
  intros Hi Hg Hs He.
  replace (Z.to_nat (101 - eof_flag s)) with (S (Z.to_nat (100 - eof_flag s))) by lia.
  apply inkey_times_at_end; auto; lia.
Qed.

Lemma end_of_input_ends_the_process_witness :
  exists s',
    inkey_times (fun _ => true) 101 quiet_game = (repeat ESCAPE 100, Exited s')
    /\ panic_save s' = true.
Proof.
  apply (end_of_input_ends_the_process (fun _ => true) quiet_game);
    try reflexivity. split; discriminate.
Defined.

Ltac dungeon_records :=
  cbv [set_player set_food set_food_digested set_speed set_protevil
       set_resist_heat set_resist_cold set_word_recall set_max_dlv
       set_current_dungeon_level set_generate_new_level set_player_carrying_light
       set_light_p1 set_light_subval set_messages set_last_message_id set_dice
       set_rolls set_journal
       player food food_digested speed protevil resist_heat resist_cold
       word_recall max_dlv current_dungeon_level generate_new_level
       player_carrying_light light_p1 light_subval messages last_message_id dice
       rolls journal
       note tell upd_player randomNumber] in *.

Ltac open_dungeon d :=
  let g := fresh "g" in destruct d as [g]; dungeon_records.

Lemma iterate_fixed {A : Type} (f : A -> A) (x : A) (k : nat) :
  f x = x -> iterate k f x = x.
Proof.
  intros H. induction k as [|k IH]; [reflexivity|].
  cbn [iterate]. rewrite H. exact IH.
Qed.

Lemma light_step d :
  player_carrying_light d = true -> 0 < light_p1 d ->
  light_p1 (playerUpdateLightStatus d) = light_p1 d - 1
  /\ player_carrying_light (playerUpdateLightStatus d) = negb (light_p1 d =? 1)
  /\ printed "Your light has gone out!" (journal (playerUpdateLightStatus d)) =
     Nat.add (printed "Your light has gone out!" (journal d))
       (if light_p1 d =? 1 then 1%nat else 0%nat).
Proof.
  intros Hc Hp. unfold playerUpdateLightStatus. rewrite Hc.
  destruct (light_p1 d >? 0) eqn:E; [|lia].
  open_dungeon d. subst.
  repeat match goal with
  | |- context [if ?b then _ else _] => destruct b eqn:?
  end; cbn; repeat split; try reflexivity; try lia.
Qed.

Lemma light_out d :
  player_carrying_light d = false -> light_p1 d = 0 -> playerUpdateLightStatus d = d.
Proof.
  intros Hc Hp. unfold playerUpdateLightStatus. rewrite Hc, Hp. reflexivity.
Qed.

(** X12 ([playerUpdateLightStatus]): a lit light with n > 0 turns of fuel
    loses one turn per update whatever the dice show, is lit for exactly the
    first n - 1 updates, and goes out with its message exactly once, on the
    n-th update; afterwards nothing changes. *)
Theorem light_burns_down_and_goes_out_once (n k : nat) (d : dungeon) :
  player_carrying_light d = true -> light_p1 d = Z.of_nat n -> (0 < n)%nat ->
  let d' := iterate k playerUpdateLightStatus d in
  light_p1 d' = Z.max 0 (Z.of_nat n - Z.of_nat k)
  /\ player_carrying_light d' = (k <? n)%nat
  /\ printed "Your light has gone out!" (journal d') =
     Nat.add (printed "Your light has gone out!" (journal d))
       (if (n <=? k)%nat then 1%nat else 0%nat).
Proof.
  revert n d. induction k as [|k IH]; intros n d Hc Hp Hn; cbn [iterate].
  - split; [lia|]. split; [|destruct (n <=? 0)%nat eqn:E; lia].
    rewrite Hc. symmetry. apply Nat.ltb_lt. lia.
  - destruct (light_step d Hc ltac:(lia)) as (H1 & H2 & H3).
    destruct (Nat.eq_dec n 1) as [->|Hn1].
    + rewrite iterate_fixed.
      * rewrite H1, H2, H3, Hp. change (Z.of_nat 1) with 1.
        change (1 =? 1) with true. cbv beta iota. split; [lia|].
        split; [reflexivity|]. destruct (1 <=? S k)%nat eqn:E; lia.
      * apply light_out; [rewrite H2, Hp; reflexivity | lia].
    + destruct (IH (n - 1)%nat (playerUpdateLightStatus d)) as (I1 & I2 & I3).
      * rewrite H2. destruct (light_p1 d =? 1) eqn:E; [lia | reflexivity].
      * lia.
      * lia.
      * rewrite I1, I2, I3, H3. split; [lia|]. split.
        -- destruct (k <? n - 1)%nat eqn:A, (S k <? n)%nat eqn:B; try reflexivity;
             (apply Nat.ltb_lt in A || apply Nat.ltb_ge in A);
             (apply Nat.ltb_lt in B || apply Nat.ltb_ge in B); lia.
        -- destruct (light_p1 d =? 1) eqn:E1; [lia|].
           destruct (n - 1 <=? k)%nat eqn:E2, (n <=? S k)%nat eqn:E3; lia.
Qed.

Lemma light_burns_down_and_goes_out_once_witness :
  let d' := iterate 5 playerUpdateLightStatus quiet_dungeon in
  light_p1 d' = 0 /\ player_carrying_light d' = false
  /\ printed "Your light has gone out!" (journal d') = 1%nat.
Proof.
  intros d'.
  exact (light_burns_down_and_goes_out_once 3 5 quiet_dungeon eq_refl eq_refl
           ltac:(repeat constructor)).
Defined.


(** X13 ([refill_lamp]): refilling never leaves more than [OBJ_LAMP_MAX]
    turns in the lamp: with a lamp in hand and a flask in the pack the fuel
    becomes the smaller of old fuel + oil and the capacity, the turn is used
    and the flask is destroyed after its count is described; with no lamp or
    no flask the fuel is untouched, the turn is free and only a message is
    printed. *)
Theorem refill_stops_at_the_capacity
  (K : more_constants) (find_flask : option (Z * Z)) (d : dungeon) :
  0 <= light_p1 d <= OBJ_LAMP_MAX K -> OBJ_LAMP_MAX K <= 32767 ->
  match find_flask with
  | Some (i, oil) => 0 <= oil /\ light_p1 d + oil <= 32767
  | None => True
  end ->
  let d' := Dungeon.refill_lamp K find_flask d in
  match (if light_subval d =? 0 then find_flask else None) with
  | Some (i, oil) =>
      light_p1 d' = Z.min (light_p1 d + oil) (OBJ_LAMP_MAX K)
      /\ light_p1 d <= light_p1 d'
      /\ player_free_turn (player d') = false
      /\ exists m,
           journal d' =
           inven_destroy i :: itemTypeRemainingCountDescription i :: (m ++ journal d)%list
           /\ Forall (fun c => exists text, c = known (printMessage text)) m
  | None =>
      light_p1 d' = light_p1 d
      /\ player_free_turn (player d') = true
      /\ exists text, journal d' = known (printMessage text) :: journal d
  end.
Proof.
  intros Hp Hmax Hoil d'. subst d'. unfold Dungeon.refill_lamp.
  destruct d as [g]. dungeon_records.
  match goal with
  | |- context [negb (?v =? 0)] => destruct (v =? 0) eqn:Hs
  end; cbn [negb]; cbv beta iota.
  - destruct find_flask as [[i oil]|].
    + destruct Hoil as (Ho1 & Ho2).
      rewrite (int16_small (_ + oil)) by lia.
      assert (Hf : forall c j,
                exists m, (inven_destroy i :: itemTypeRemainingCountDescription i
                           :: known (printMessage c) :: j)
                          = inven_destroy i :: itemTypeRemainingCountDescription i
                            :: (m ++ j)%list
                /\ Forall (fun c => exists text, c = known (printMessage text)) m).
      { intros c j. exists [known (printMessage c)]. split; [reflexivity|].
        repeat constructor. eexists; reflexivity. }
      repeat match goal with
      | |- context [if ?b then _ else _] => destruct b eqn:?
      end; dungeon_records;
        (split; [lia|]; split; [lia|]; split; [destruct g; reflexivity|]).
      * eexists [_; _]. split; [reflexivity|].
        repeat constructor; eexists; reflexivity.
      * apply Hf.
      * apply Hf.
      * apply Hf.
    + split; [reflexivity|].
      split; [destruct g; reflexivity|]. eexists; reflexivity.
  - split; [reflexivity|].
    split; [destruct g; reflexivity|]. eexists; reflexivity.
Qed.

Lemma refill_stops_at_the_capacity_witness :
  let d' := Dungeon.refill_lamp umoria_more_constants (Some (4, 14999)) quiet_dungeon in
  light_p1 d' = 15000 /\ player_free_turn (player d') = false.
Proof.
  intros d'.
  destruct (refill_stops_at_the_capacity umoria_more_constants (Some (4, 14999))
              quiet_dungeon) as (H1 & _ & H2 & _).
  - split; discriminate.
  - discriminate.
  - split; discriminate.
  - split; [exact H1 | exact H2].
Defined.

(** X14 ([refill_lamp], [playerUpdateLightStatus]): refilling does not
    light the lamp; the next light update does: after an empty, unlit lamp is
    refilled with some oil, that update lights it and burns the first turn
    of the new fuel. *)
Theorem refilled_lamp_lights_on_the_next_update
  (K : more_constants) (i oil : Z) (d : dungeon) :
  light_subval d = 0 -> light_p1 d = 0 -> player_carrying_light d = false ->
  0 < oil <= 32767 -> 0 <= OBJ_LAMP_MAX K ->
  let d1 := Dungeon.refill_lamp K (Some (i, oil)) d in
  let d2 := playerUpdateLightStatus d1 in
  player_carrying_light d1 = false
  /\ (0 < OBJ_LAMP_MAX K ->
      player_carrying_light d2 = true
      /\ light_p1 d2 = Z.min oil (OBJ_LAMP_MAX K) - 1).
Proof.
  intros Hs Hp Hc Hoil Hmax d1 d2. subst d2 d1.
  unfold Dungeon.refill_lamp.
  destruct d as [g]. dungeon_records. subst. cbn [Z.eqb negb]. cbv beta iota.
  rewrite (int16_small (0 + oil)) by lia.
  unfold playerUpdateLightStatus.
  repeat match goal with
  | |- context [if ?b then _ else _] =>
      lazymatch b with
      | context [if _ then _ else _] => fail
      | _ => destruct b eqn:?; dungeon_records
      end
  end; split; try reflexivity; intros; try lia; split; try reflexivity; lia.
Qed.

Lemma refilled_lamp_lights_on_the_next_update_witness :
  let d := set_player_carrying_light false (set_light_p1 0 quiet_dungeon) in
  let d2 := playerUpdateLightStatus
              (Dungeon.refill_lamp umoria_more_constants (Some (4, 7500)) d) in
  player_carrying_light d2 = true /\ light_p1 d2 = 7499.
Proof.
  intros d.
  destruct (refilled_lamp_lights_on_the_next_update umoria_more_constants 4 7500 d)
    as (_ & H).
  - reflexivity.
  - reflexivity.
  - reflexivity.
  - split; [reflexivity | discriminate].
  - discriminate.
  - apply H. reflexivity.
Defined.

Lemma recall_wait d :
  1 < word_recall d ->
  playerUpdateWordOfRecall d = set_word_recall (word_recall d - 1) d.
Proof.
  intros H. unfold playerUpdateWordOfRecall.
  destruct (word_recall d <=? 0) eqn:E1; [lia|].
  destruct (word_recall d =? 1) eqn:E2; [lia|]. reflexivity.
Qed.

Lemma recall_idle d :
  word_recall d <= 0 -> playerUpdateWordOfRecall d = d.
Proof.
  intros H. unfold playerUpdateWordOfRecall.
  destruct (word_recall d <=? 0) eqn:E1; [reflexivity | lia].
Qed.

Lemma recall_fire d :
  word_recall d = 1 ->
  -32768 <= paralysis (flags (player d)) < 32767 -> 0 <= max_dlv d <= 32767 ->
  let d' := playerUpdateWordOfRecall d in
  word_recall d' = 0 /\ generate_new_level d' = true
  /\ paralysis (flags (player d')) = paralysis (flags (player d)) + 1
  /\ current_dungeon_level d' = recall_destination d
  /\ max_dlv d' = max_dlv d.
Proof.
  intros H Hp Hm d'. subst d'. unfold playerUpdateWordOfRecall, recall_destination.
  rewrite H. cbn [Z.leb Z.eqb Z.compare Pos.eqb]. cbv beta iota.
  destruct d as [g]. dungeon_records.
  destruct g as [f m]; destruct f. records. records_in_all.
  repeat match goal with
  | |- context [int16 ?z] => rewrite (int16_small z) by lia
  end.
  repeat match goal with
  | |- context [if ?b then _ else _] => destruct b eqn:?
  end; cbn [negb] in *; try discriminate; repeat split; reflexivity.
Qed.

Lemma recall_run (n : nat) : forall d,
  word_recall d = Z.of_nat (S n) ->
  -32768 <= paralysis (flags (player d)) < 32767 -> 0 <= max_dlv d <= 32767 ->
  (forall k, (k <= n)%nat ->
     iterate k playerUpdateWordOfRecall d =
     set_word_recall (Z.of_nat (S n) - Z.of_nat k) d)
  /\ (let d' := iterate (S n) playerUpdateWordOfRecall d in
      word_recall d' = 0 /\ generate_new_level d' = true
      /\ paralysis (flags (player d')) = paralysis (flags (player d)) + 1
      /\ current_dungeon_level d' = recall_destination d
      /\ max_dlv d' = max_dlv d).
Proof.
  induction n as [|n IH]; intros d Hw Hp Hm.
  - split.
    + intros k Hk. assert (k = O) by lia. subst k. cbn [iterate].
      rewrite Z.sub_0_r, <- Hw. destruct d; reflexivity.
    + cbn [iterate]. apply recall_fire; assumption.
  - assert (Hstep : playerUpdateWordOfRecall d = set_word_recall (Z.of_nat (S n)) d).
    { rewrite recall_wait by lia. f_equal. lia. }
    destruct (IH (set_word_recall (Z.of_nat (S n)) d)) as (I1 & I2).
    { destruct d; reflexivity. }
    { destruct d; exact Hp. }
    { destruct d; exact Hm. }
    split.
    + intros k Hk. destruct k as [|k].
      * cbn [iterate]. rewrite Z.sub_0_r, <- Hw. destruct d; reflexivity.
      * cbn [iterate]. rewrite Hstep, I1 by lia.
        replace (Z.of_nat (S (S n)) - Z.of_nat (S k))
          with (Z.of_nat (S n) - Z.of_nat k) by lia.
        destruct d; reflexivity.
    + cbn [iterate]. cbn [iterate] in I2. rewrite Hstep.
      destruct I2 as (A & B & C & D & E).
      split; [exact A|]. split; [exact B|].
      split; [rewrite C; destruct d; reflexivity|].
      split; [rewrite D; destruct d; reflexivity|].
      rewrite E; destruct d; reflexivity.
Qed.

(** X15 ([playerUpdateWordOfRecall]): Word-of-Recall is a delayed action:
    with the timer at n > 0, the first n - 1 updates change nothing but the
    timer, and the n-th asks for a new level, stops the timer, adds a turn of
    paralysis and moves the player to the town from the dungeon, or from the
    town to the deepest level visited (nowhere if there is none); after that
    the update does nothing. *)
Theorem word_of_recall_fires_on_time (n : nat) (d : dungeon) :
  word_recall d = Z.of_nat (S n) ->
  -32768 <= paralysis (flags (player d)) < 32767 -> 0 <= max_dlv d <= 32767 ->
  (forall k, (k <= n)%nat ->
     iterate k playerUpdateWordOfRecall d =
     set_word_recall (Z.of_nat (S n) - Z.of_nat k) d)
  /\ (let d' := iterate (S n) playerUpdateWordOfRecall d in
      word_recall d' = 0 /\ generate_new_level d' = true
      /\ paralysis (flags (player d')) = paralysis (flags (player d)) + 1
      /\ current_dungeon_level d' = recall_destination d
      /\ forall j, iterate j playerUpdateWordOfRecall d' = d').
Proof.
  intros Hw Hp Hm. destruct (recall_run n d Hw Hp Hm) as (H1 & H2).
  split; [exact H1|]. cbv zeta in *. destruct H2 as (A & B & C & D & _).
  repeat (split; [assumption|]).
  intros j. apply iterate_fixed. apply recall_idle. lia.
Qed.

Lemma word_of_recall_fires_on_time_witness :
  let d := set_word_recall 3 quiet_dungeon in
  word_recall (iterate 2 playerUpdateWordOfRecall d) = 1
  /\ current_dungeon_level (iterate 2 playerUpdateWordOfRecall d) = 3
  /\ current_dungeon_level (iterate 3 playerUpdateWordOfRecall d) = 0
  /\ generate_new_level (iterate 3 playerUpdateWordOfRecall d) = true.
Proof.
  intros d.
  destruct (word_of_recall_fires_on_time 2 d) as (H1 & H2 & H3 & H4 & H5 & H6).
  - reflexivity.
  - split; [discriminate | reflexivity].
  - split; discriminate.
  - rewrite (H1 2%nat) by repeat constructor.
    split; [reflexivity|]. split; [reflexivity|].
    split; [exact H5 | exact H3].
Defined.

(** X16 ([playerUpdateDeepestDungeonLevelVisited],
    [playerUpdateWordOfRecall]): once the level has been recorded, a recall
    from a dungeon level leads to the town, and a second recall from there
    leads to the deepest level recorded, which is at least as deep as the
    level the player left. *)
Theorem recall_round_trip_returns_as_deep (n m : nat) (d : dungeon) :
  0 < current_dungeon_level d <= 32767 -> 0 <= max_dlv d <= 32767 ->
  -32768 <= paralysis (flags (player d)) < 32766 ->
  let d0 := playerUpdateDeepestDungeonLevelVisited d in
  let d1 := iterate (S n) playerUpdateWordOfRecall
              (set_word_recall (Z.of_nat (S n)) d0) in
  let d2 := iterate (S m) playerUpdateWordOfRecall
              (set_word_recall (Z.of_nat (S m)) d1) in
  current_dungeon_level d1 = 0
  /\ current_dungeon_level d2 = Z.max (max_dlv d) (current_dungeon_level d)
  /\ current_dungeon_level d <= current_dungeon_level d2.
Proof.
  intros Hl Hm Hp d0 d1 d2.
  assert (H0 : max_dlv d0 = Z.max (max_dlv d) (current_dungeon_level d)
               /\ current_dungeon_level d0 = current_dungeon_level d
               /\ player d0 = player d).
  { subst d0. unfold playerUpdateDeepestDungeonLevelVisited.
    destruct (current_dungeon_level d >? max_dlv d) eqn:E.
    - destruct d; dungeon_records. rewrite uint16_small by lia.
      repeat split; lia.
    - repeat split; lia. }
  destruct H0 as (M0 & L0 & P0).
  destruct (recall_run n (set_word_recall (Z.of_nat (S n)) d0)) as (_ & H1).
  { destruct d0; reflexivity. }
  { replace (player (set_word_recall (Z.of_nat (S n)) d0)) with (player d)
      by (rewrite <- P0; destruct d0; reflexivity). lia. }
  { replace (max_dlv (set_word_recall (Z.of_nat (S n)) d0)) with (max_dlv d0)
      by (destruct d0; reflexivity). lia. }
  fold d1 in H1. cbv zeta in H1. destruct H1 as (_ & _ & P1 & L1 & M1).
  replace (player (set_word_recall (Z.of_nat (S n)) d0)) with (player d) in P1
    by (rewrite <- P0; destruct d0; reflexivity).
  replace (max_dlv (set_word_recall (Z.of_nat (S n)) d0)) with (max_dlv d0) in M1
    by (destruct d0; reflexivity).
  assert (L1' : current_dungeon_level d1 = 0).
  { rewrite L1. unfold recall_destination.
    replace (current_dungeon_level (set_word_recall (Z.of_nat (S n)) d0))
      with (current_dungeon_level d0) by (destruct d0; reflexivity).
    destruct (current_dungeon_level d0 >? 0) eqn:E; [reflexivity | lia]. }
  destruct (recall_run m (set_word_recall (Z.of_nat (S m)) d1)) as (_ & H2).
  { destruct d1; reflexivity. }
  { replace (player (set_word_recall (Z.of_nat (S m)) d1)) with (player d1)
      by (destruct d1; reflexivity). lia. }
  { replace (max_dlv (set_word_recall (Z.of_nat (S m)) d1)) with (max_dlv d1)
      by (destruct d1; reflexivity). lia. }
  fold d2 in H2. cbv zeta in H2. destruct H2 as (_ & _ & _ & L2 & _).
  assert (L2' : current_dungeon_level d2 = Z.max (max_dlv d) (current_dungeon_level d)).
  { rewrite L2. unfold recall_destination.
    replace (current_dungeon_level (set_word_recall (Z.of_nat (S m)) d1))
      with (current_dungeon_level d1) by (destruct d1; reflexivity).
    replace (max_dlv (set_word_recall (Z.of_nat (S m)) d1)) with (max_dlv d1)
      by (destruct d1; reflexivity).
    rewrite L1', M1, M0. cbn [Z.gtb Z.compare].
    destruct (Z.max (max_dlv d) (current_dungeon_level d) =? 0) eqn:E; [lia|reflexivity]. }
  split; [exact L1'|]. split; [exact L2' | lia].
Qed.

Lemma recall_round_trip_returns_as_deep_witness :
  let d := set_current_dungeon_level 9 quiet_dungeon in
  let d0 := playerUpdateDeepestDungeonLevelVisited d in
  let d1 := iterate 2 playerUpdateWordOfRecall (set_word_recall 2 d0) in
  let d2 := iterate 4 playerUpdateWordOfRecall (set_word_recall 4 d1) in
  current_dungeon_level d1 = 0 /\ current_dungeon_level d2 = 9.
Proof.
  intros d d0 d1 d2.
  destruct (recall_round_trip_returns_as_deep 1 3 d) as (H1 & H2 & _).
  - split; [reflexivity | discriminate].
  - split; discriminate.
  - split; [discriminate | reflexivity].
  - split; [exact H1 | exact H2].
Defined.

Lemma ward_step w d :
  0 < ward_timer w d ->
  ward_timer w (ward_update w d) = ward_timer w d - 1
  /\ (forall w', w' <> w -> ward_timer w' (ward_update w d) = ward_timer w' d)
  /\ forall m,
       printed m (journal (ward_update w d)) =
       Nat.add (printed m (journal d))
         (if (ward_timer w d =? 1) && String.eqb m (ward_farewell w)
          then 1%nat else 0%nat).
Proof.
  intros H.
  destruct w; cbn [ward_timer ward_update ward_farewell] in *;
    unfold playerUpdateEvilProtection, playerUpdateHeatResistance,
      playerUpdateColdResistance;
    match goal with
    | |- context [if ?b then _ else _] => destruct b eqn:E0; [lia|]
    end;
    destruct d as [g]; dungeon_records;
    match goal with
    | |- context [if ?a - 1 =? 0 then _ else _] =>
        destruct (a - 1 =? 0) eqn:E1; destruct (a =? 1) eqn:E2; try lia
    end;
    (split; [reflexivity|]);
    (split; [intros w' Hw'; destruct w'; try reflexivity; contradiction|]);
    intros m; cbn [printed andb];
    try (destruct (String.eqb m _); lia); lia.
Qed.

Lemma ward_idle w d : ward_timer w d <= 0 -> ward_update w d = d.
Proof.
  intros H.
  destruct w; cbn [ward_timer ward_update] in *;
    unfold playerUpdateEvilProtection, playerUpdateHeatResistance,
      playerUpdateColdResistance;
    match goal with
    | |- context [if ?b then _ else _] => destruct b eqn:E0; [reflexivity | lia]
    end.
Qed.

(** X17 ([playerUpdateEvilProtection], [playerUpdateHeatResistance],
    [playerUpdateColdResistance]): each of the three protections counts down
    by one per update and stays at 0, never touches the timers of the other
    two, and prints its farewell exactly once, on the update that brings its
    timer to 0. *)
Theorem protections_run_out_with_one_farewell (w : ward) (n k : nat) (d : dungeon) :
  ward_timer w d = Z.of_nat n -> (0 < n)%nat ->
  let d' := iterate k (ward_update w) d in
  ward_timer w d' = Z.max 0 (Z.of_nat n - Z.of_nat k)
  /\ (forall w', w' <> w -> ward_timer w' d' = ward_timer w' d)
  /\ printed (ward_farewell w) (journal d') =
     Nat.add (printed (ward_farewell w) (journal d))
       (if (n <=? k)%nat then 1%nat else 0%nat).
Proof.
  revert n d. induction k as [|k IH]; intros n d Hp Hn; cbn [iterate].
  - split; [lia|]. split; [reflexivity|]. destruct (n <=? 0)%nat eqn:E; lia.
  - destruct (ward_step w d ltac:(lia)) as (H1 & H2 & H3).
    specialize (H3 (ward_farewell w)). rewrite String.eqb_refl, andb_true_r in H3.
    destruct (Nat.eq_dec n 1) as [->|Hn1].
    + rewrite iterate_fixed by (apply ward_idle; lia).
      rewrite H1, H3, Hp. change (Z.of_nat 1) with 1.
      change (1 =? 1) with true. cbv beta iota. split; [lia|].
      split; [exact H2|]. destruct (1 <=? S k)%nat eqn:E; lia.
    + destruct (IH (n - 1)%nat (ward_update w d) ltac:(lia) ltac:(lia))
        as (I1 & I2 & I3).
      rewrite I1, I3, H3. split; [lia|]. split.
      * intros w' Hw'. rewrite I2, H2 by assumption. reflexivity.
      * destruct (ward_timer w d =? 1) eqn:E1; [lia|].
        destruct (n - 1 <=? k)%nat eqn:E2, (n <=? S k)%nat eqn:E3; lia.
Qed.

Lemma protections_run_out_with_one_farewell_witness :
  let d := set_resist_heat 2 (set_protevil 7 quiet_dungeon) in
  let d' := iterate 6 playerUpdateHeatResistance d in
  resist_heat d' = 0 /\ protevil d' = 7
  /\ printed "You no longer feel safe from flame." (journal d') = 1%nat.
Proof.
  intros d d'.
  destruct (protections_run_out_with_one_farewell HeatResistance 2 6 d eq_refl
              ltac:(repeat constructor)) as (H1 & H2 & H3).
  split; [exact H1|]. split; [|exact H3].
  apply (H2 EvilProtection). discriminate.
Defined.

Lemma print_changed_stats_journal (K : more_constants) (d : dungeon) :
  exists j, print_changed_stats K d = set_journal j d.
Proof.
  unfold print_changed_stats.
  assert (H : forall l d, exists j,
            fold_left
              (fun d n =>
                 if negb (Z.land (Z.shiftl (PY_STR K) n) (status (flags (player d))) =? 0)
                 then note (prt_stat n) d else d) l d = set_journal j d).
  { induction l as [|n l IH]; intros d0.
    - exists (journal d0). destruct d0; reflexivity.
    - cbn [fold_left].
      destruct (negb (Z.land (Z.shiftl (PY_STR K) n) (status (flags (player d0))) =? 0)).
      + destruct (IH (note (prt_stat n) d0)) as [j Hj]. exists j. rewrite Hj.
        destruct d0; reflexivity.
      + apply IH. }
  apply H.
Qed.

Lemma land_lnot_absent st m : Z.land st m = 0 -> Z.land st (Z.lnot m) = st.
Proof.
  intros H. apply Z.bits_inj'. intros i Hi.
  rewrite Z.land_spec, Z.lnot_spec by exact Hi.
  pose proof (f_equal (fun z => Z.testbit z i) H) as Hb. cbv beta in Hb.
  rewrite Z.land_spec, Z.bits_0 in Hb.
  destruct (Z.testbit st i), (Z.testbit m i); cbn in *; congruence.
Qed.

Lemma with_status_twice a b g : with_status a (with_status b g) = with_status a g.
Proof. destruct g as [f]; destruct f; reflexivity. Qed.

Lemma with_status_status a g : status (flags (with_status a g)) = a.
Proof. destruct g as [f]; destruct f; reflexivity. Qed.

Lemma with_status_paralysis a g :
  paralysis (flags (with_status a g)) = paralysis (flags g).
Proof. destruct g as [f]; destruct f; reflexivity. Qed.

Lemma with_status_same g : with_status (status (flags g)) g = g.
Proof. destruct g as [f]; destruct f; reflexivity. Qed.

Lemma andnot_with_status m g :
  status_andnot m g = with_status (Z.land (status (flags g)) (Z.lnot m)) g.
Proof. destruct g as [f]; destruct f; reflexivity. Qed.

Lemma or_with_status m g :
  status_or m g = with_status (Z.lor (status (flags g)) m) g.
Proof. destruct g as [f]; destruct f; reflexivity. Qed.

Ltac block_player d :=
  unfold status_has;
  repeat match goal with
  | |- context [if ?b then _ else _] => destruct b eqn:?
  end;
  cbn [negb andb] in *;
  repeat match goal with
  | H : negb (?a =? 0) = false |- _ =>
      apply negb_false_iff in H; apply Z.eqb_eq in H
  end;
  try (rewrite land_lnot_absent by assumption);
  try (symmetry; apply with_status_same);
  destruct d; dungeon_records;
  rewrite ?andnot_with_status, ?or_with_status; try reflexivity.

Section StatusBlocks.
Variable K : more_constants.

Lemma speed_block_player d :
  player (speed_block K d) =
  with_status (Z.land (status (flags (player d))) (Z.lnot (PY_SPEED K))) (player d).
Proof. unfold speed_block. block_player d. Qed.

Lemma paralysis_block_player d :
  player (paralysis_block K d) =
  with_status (paralysed_after K (status (flags (player d)))
                 (paralysis (flags (player d)))) (player d).
Proof. unfold paralysis_block, paralysed_after. block_player d. Qed.

Lemma armor_block_player d :
  player (armor_block K d) =
  with_status (Z.land (status (flags (player d))) (Z.lnot (PY_ARMOR K))) (player d).
Proof. unfold armor_block. block_player d. Qed.

Lemma stats_block_player d :
  player (stats_block K d) =
  with_status (Z.land (status (flags (player d))) (Z.lnot (PY_STATS K))) (player d).
Proof.
  unfold stats_block, status_has.
  destruct (print_changed_stats_journal K d) as [j ->].
  destruct (Z.land (status (flags (player d))) (PY_STATS K) =? 0) eqn:E; cbn [negb].
  - rewrite land_lnot_absent by lia. symmetry. apply with_status_same.
  - destruct d; dungeon_records. rewrite andnot_with_status. reflexivity.
Qed.

Lemma hp_block_player d :
  player (hp_block K d) =
  with_status (Z.land (status (flags (player d))) (Z.lnot (PY_HP K))) (player d).
Proof. unfold hp_block. block_player d. Qed.

Lemma mana_block_player d :
  player (mana_block K d) =
  with_status (Z.land (status (flags (player d))) (Z.lnot (PY_MANA K))) (player d).
Proof. unfold mana_block. block_player d. Qed.

Lemma update_status_flags_player d :
  player (playerUpdateStatusFlags K d) =
  with_status (status_after K (status (flags (player d)))
                 (paralysis (flags (player d)))) (player d).
Proof.
  unfold playerUpdateStatusFlags, status_after. cbv zeta.
  rewrite mana_block_player, hp_block_player, stats_block_player, armor_block_player,
    paralysis_block_player, speed_block_player.
  repeat rewrite ?with_status_twice, ?with_status_status, ?with_status_paralysis.
  reflexivity.
Qed.

End StatusBlocks.

(** X18 ([playerUpdateStatusFlags]): bringing the display up to date
    changes nothing of the player but the status word; there it clears the
    five redisplay bits (speed, armour, statistics, hit points, mana), makes
    the paralysis bit say whether the paralysis timer is running, and leaves
    every other bit, those of the timed effects among them, as it was;
    provided the paralysis bit is none of the redisplay bits. *)
Theorem status_flags_are_brought_up_to_date (K : more_constants) (d : dungeon) :
  (forall m, In m (display_bits K) -> Z.land (PY_PARALYSED K) m = 0) ->
  let st := status (flags (player d)) in
  let d' := playerUpdateStatusFlags K d in
  let st' := status (flags (player d')) in
  player d' = with_status st' (player d)
  /\ (forall m, In m (display_bits K) -> Z.land st' m = 0)
  /\ Z.land st' (PY_PARALYSED K) =
     (if paralysis (flags (player d)) >? 0 then PY_PARALYSED K else 0)
  /\ forall i, 0 <= i ->
       Z.testbit (PY_PARALYSED K) i = false ->
       (forall m, In m (display_bits K) -> Z.testbit m i = false) ->
       Z.testbit st' i = Z.testbit st i.
Proof.
  intros Hdis st d' st'. subst st' d'.
  rewrite update_status_flags_player, !with_status_status.
  split; [reflexivity|]. fold st.
  set (par := paralysis (flags (player d))).
  assert (Hbit : forall m i, In m (display_bits K) -> 0 <= i ->
            Z.testbit (PY_PARALYSED K) i && Z.testbit m i = false).
  { intros m i Hm Hi. rewrite <- Z.land_spec, (Hdis m Hm). apply Z.bits_0. }
  assert (Hpar : forall x i, 0 <= i ->
            Z.testbit (paralysed_after K x par) i =
            if Z.testbit (PY_PARALYSED K) i then (par >? 0) else Z.testbit x i).
  { intros x i Hi. unfold paralysed_after.
    destruct (Z.land x (PY_PARALYSED K) =? 0) eqn:E0; cbn [negb andb].
    - assert (Hx : Z.testbit x i && Z.testbit (PY_PARALYSED K) i = false).
      { rewrite <- Z.land_spec. replace (Z.land x (PY_PARALYSED K)) with 0 by lia.
        apply Z.bits_0. }
      destruct (par >? 0) eqn:E1.
      + rewrite Z.lor_spec. destruct (Z.testbit x i), (Z.testbit (PY_PARALYSED K) i);
          cbn in *; congruence.
      + destruct (Z.testbit x i), (Z.testbit (PY_PARALYSED K) i); cbn in *; congruence.
    - destruct (par <? 1) eqn:E1.
      + rewrite Z.land_spec, Z.lnot_spec by exact Hi.
        destruct (par >? 0) eqn:E2; [lia|].
        destruct (Z.testbit x i), (Z.testbit (PY_PARALYSED K) i); reflexivity.
      + destruct (par >? 0) eqn:E2; [|lia].
        rewrite Z.lor_spec.
        destruct (Z.testbit x i), (Z.testbit (PY_PARALYSED K) i); reflexivity. }
  assert (Hafter : forall i, 0 <= i ->
            Z.testbit (status_after K st par) i =
            (if Z.testbit (PY_PARALYSED K) i then (par >? 0)
             else Z.testbit st i && negb (Z.testbit (PY_SPEED K) i))
            && negb (Z.testbit (PY_ARMOR K) i) && negb (Z.testbit (PY_STATS K) i)
            && negb (Z.testbit (PY_HP K) i) && negb (Z.testbit (PY_MANA K) i)).
  { intros i Hi. unfold status_after. cbv zeta.
    rewrite !Z.land_spec, !Z.lnot_spec, Hpar by exact Hi.
    rewrite Z.land_spec, Z.lnot_spec by exact Hi. reflexivity. }
  assert (Hin : forall m, In m (display_bits K) ->
            m = PY_SPEED K \/ m = PY_ARMOR K \/ m = PY_STATS K \/ m = PY_HP K
            \/ m = PY_MANA K).
  { intros m Hm. cbn in Hm. intuition auto. }
  split; [|split].
  - intros m Hm. apply Z.bits_inj'. intros i Hi.
    rewrite Z.land_spec, Hafter, Z.bits_0 by exact Hi.
    pose proof (Hbit m i Hm Hi) as Hb.
    destruct (Hin m Hm) as [->|[->|[->|[->| ->]]]];
      destruct (Z.testbit (PY_PARALYSED K) i), (Z.testbit st i),
        (Z.testbit (PY_SPEED K) i), (Z.testbit (PY_ARMOR K) i),
        (Z.testbit (PY_STATS K) i), (Z.testbit (PY_HP K) i),
        (Z.testbit (PY_MANA K) i), (par >? 0); cbn in *; congruence.
  - apply Z.bits_inj'. intros i Hi.
    rewrite Z.land_spec, Hafter by exact Hi.
    assert (H1 := Hbit (PY_SPEED K) i ltac:(cbn; tauto) Hi).
    assert (H2 := Hbit (PY_ARMOR K) i ltac:(cbn; tauto) Hi).
    assert (H3 := Hbit (PY_STATS K) i ltac:(cbn; tauto) Hi).
    assert (H4 := Hbit (PY_HP K) i ltac:(cbn; tauto) Hi).
    assert (H5 := Hbit (PY_MANA K) i ltac:(cbn; tauto) Hi).
    destruct (par >? 0) eqn:E; [|rewrite Z.bits_0];
      destruct (Z.testbit (PY_PARALYSED K) i), (Z.testbit st i),
        (Z.testbit (PY_SPEED K) i), (Z.testbit (PY_ARMOR K) i),
        (Z.testbit (PY_STATS K) i), (Z.testbit (PY_HP K) i),
        (Z.testbit (PY_MANA K) i); cbn in *; congruence.
  - intros i Hi Hp Hm. rewrite Hafter by exact Hi. rewrite Hp.
    rewrite (Hm (PY_SPEED K)), (Hm (PY_ARMOR K)), (Hm (PY_STATS K)), (Hm (PY_HP K)),
      (Hm (PY_MANA K)) by (cbn; tauto).
    cbn [negb]. rewrite !andb_true_r. reflexivity.
Qed.

Lemma status_flags_are_brought_up_to_date_witness :
  let d := upd_player
             (fun g => upd_flags (fun f => set_paralysis 2 (set_status (262144 + 8192) f)) g)
             quiet_dungeon in
  status (flags (player (playerUpdateStatusFlags umoria_more_constants d)))
  = 1048576 + 8192.
Proof.
  intros d.
  destruct (status_flags_are_brought_up_to_date umoria_more_constants d) as (H & _).
  - intros m Hm. cbn in Hm.
    repeat (destruct Hm as [<-|Hm]; [reflexivity|]). contradiction.
  - exact (f_equal (fun g => status (flags g)) H).
Defined.

Ltac hunger_cases d :=
  unfold hunger_notices, status_clear;
  repeat match goal with
  | |- context [if ?b then _ else _] =>
      lazymatch b with
      | context [if _ then _ else _] => fail
      | _ => destruct b eqn:?; cbv beta iota
      end
  end;
  destruct d as [g]; destruct g as [f m]; destruct f;
  dungeon_records; records;
  repeat match goal with
  | |- context [if ?b then _ else _] =>
      lazymatch b with
      | context [if _ then _ else _] => fail
      | _ => destruct b eqn:?; cbv beta iota; dungeon_records; records
      end
  end.

Lemma hunger_notices_frame (K : more_constants) (d : dungeon) :
  let d' := snd (hunger_notices K d) in
  food d' = food d /\ speed d' = speed d /\ food_digested d' = food_digested d
  /\ blows (journal d') = blows (journal d).
Proof. hunger_cases d; repeat split. Qed.

Lemma digestion_food (d : dungeon) :
  let burnt := (if speed d <? 0 then speed d * speed d else 0) + food_digested d in
  0 <= food_digested d -> food d <= 32767 -> -32768 <= food d - burnt ->
  food (digestion d) = food d - burnt
  /\ blows (journal (digestion d)) =
     ((if food d - burnt <? 0 then [(- (food d - burnt)) / 16] else [])
      ++ blows (journal d))%list.
Proof.
  intros burnt Hd Hf Hb. subst burnt.
  assert (Hq : forall x, x < 0 -> Z.quot (- x) 16 = (- x) / 16).
  { intros x Hx. apply Z.quot_div_nonneg; lia. }
  assert (Hs : 0 <= speed d * speed d) by nia.
  unfold digestion.
  destruct (speed d <? 0) eqn:E.
  - replace (food (set_food (int16 (food d - speed d * speed d)) d))
      with (int16 (food d - speed d * speed d)) by (destruct d; reflexivity).
    replace (food_digested (set_food (int16 (food d - speed d * speed d)) d))
      with (food_digested d) by (destruct d; reflexivity).
    rewrite (int16_small (food d - speed d * speed d)) by lia.
    replace (food d - (speed d * speed d + food_digested d))
      with (food d - speed d * speed d - food_digested d) by lia.
    set (left := food d - speed d * speed d - food_digested d) in *.
    replace (food (set_food (int16 left) (set_food (food d - speed d * speed d) d)))
      with (int16 left) by (destruct d; reflexivity).
    rewrite (int16_small left) by lia.
    destruct (left <? 0) eqn:E1.
    + rewrite Hq by lia. destruct d; split; reflexivity.
    + destruct d; split; reflexivity.
  - replace (food d - (0 + food_digested d)) with (food d - food_digested d) by lia.
    set (left := food d - food_digested d) in *.
    replace (food (set_food (int16 left) d)) with (int16 left)
      by (destruct d; reflexivity).
    rewrite (int16_small left) by lia.
    destruct (left <? 0) eqn:E1.
    + rewrite Hq by lia. destruct d; split; reflexivity.
    + destruct d; split; reflexivity.
Qed.

(** X19 ([playerFoodConsumption]): a turn burns [food_digested] units of
    food, and the square of the speed on top for a sped-up character; when
    the food left is below zero the player is hit for one sixteenth of the
    debt, rounded down, so that a debt under 16 units is a hit for no hit
    point at all. *)
Theorem starvation_costs_a_sixteenth_of_the_debt (K : more_constants) (d : dungeon) :
  let burnt := (if speed d <? 0 then speed d * speed d else 0) + food_digested d in
  0 <= food_digested d -> food d <= 32767 -> -32768 <= food d - burnt ->
  let d' := snd (playerFoodConsumption K d) in
  food d' = food d - burnt
  /\ blows (journal d') =
     ((if food d' <? 0 then [(- food d') / 16] else []) ++ blows (journal d))%list
  /\ (-16 < food d' < 0 -> blows (journal d') = 0 :: blows (journal d)).
Proof.
  intros burnt Hd Hf Hb d'. subst d'. unfold playerFoodConsumption.
  pose proof (hunger_notices_frame K d) as Hn. cbv zeta in Hn.
  destruct (hunger_notices K d) as [regen d1]. cbn [snd] in *.
  destruct Hn as (N1 & N2 & N3 & N4).
  destruct (digestion_food d1) as (D1 & D2).
  { rewrite N3. exact Hd. }
  { rewrite N1. exact Hf. }
  { rewrite N1, N2, N3. exact Hb. }
  rewrite N1, N2, N3, N4 in *. fold burnt in D1, D2.
  rewrite D1, D2. split; [reflexivity|]. split; [reflexivity|].
  intros Hlt. destruct (food d - burnt <? 0) eqn:E; [|lia].
  cbn [app]. f_equal. apply Z.div_small. lia.
Qed.

Lemma starvation_costs_a_sixteenth_of_the_debt_witness :
  let d := set_speed (-2) (set_food 1 quiet_dungeon) in
  let d' := snd (playerFoodConsumption umoria_more_constants d) in
  food d' = -5 /\ blows (journal d') = [0].
Proof.
  intros d d'.
  destruct (starvation_costs_a_sixteenth_of_the_debt umoria_more_constants d)
    as (H1 & _ & H3).
  - discriminate.
  - discriminate.
  - discriminate.
  - split; [exact H1|]. apply H3. split; reflexivity.
Defined.

(** X20 ([playerFoodConsumption]): with the thresholds in their order
    (0 <= faint <= weak <= alert), the regeneration class returned is none
    below 0 food, faint below the faint threshold, weak below the weak
    threshold and normal from there on, hungry or not; the notice of weakness
    is printed exactly when the food is below the weak threshold and the weak
    bit is not yet set, the notice of hunger exactly when the food is between
    the weak and the alert threshold and the hungry bit is not yet set; and
    no dice are rolled unless the food is below the faint threshold. *)
Theorem hunger_sets_the_regeneration_class (K : more_constants) (d : dungeon) :
  0 <= PLAYER_FOOD_FAINT K <= PLAYER_FOOD_WEAK K ->
  PLAYER_FOOD_WEAK K <= PLAYER_FOOD_ALERT K ->
  let r := playerFoodConsumption K d in
  fst r =
    (if food d <? 0 then 0
     else if food d <? PLAYER_FOOD_FAINT K then PLAYER_REGEN_FAINT K
     else if food d <? PLAYER_FOOD_WEAK K then PLAYER_REGEN_WEAK K
     else PLAYER_REGEN_NORMAL K)
  /\ printed "You are getting weak from hunger." (journal (snd r)) =
     Nat.add (printed "You are getting weak from hunger." (journal d))
       (if (food d <? PLAYER_FOOD_WEAK K) && status_clear (PY_WEAK K) (player d)
        then 1%nat else 0%nat)
  /\ printed "You are getting hungry." (journal (snd r)) =
     Nat.add (printed "You are getting hungry." (journal d))
       (if negb (food d <? PLAYER_FOOD_WEAK K) && (food d <? PLAYER_FOOD_ALERT K)
           && status_clear (PY_HUNGRY K) (player d)
        then 1%nat else 0%nat)
  /\ (PLAYER_FOOD_FAINT K <= food d ->
      rolls (snd r) = rolls d
      /\ paralysis (flags (player (snd r))) = paralysis (flags (player d))).
Proof.
  intros H1 H2 r. subst r. unfold playerFoodConsumption.
  assert (Hdig : forall x, journal (digestion x) = journal x
                 \/ exists a,
                      journal (digestion x) =
                      known (disturb 1 0) :: known (take_hit a "starvation") :: journal x).
  { intros x. unfold digestion.
    repeat match goal with
    | |- context [if ?b then _ else _] =>
        lazymatch b with
        | context [if _ then _ else _] => fail
        | _ => destruct b eqn:?; cbv beta iota
        end
    end; destruct x; dungeon_records; (left; reflexivity) || (right; eexists; reflexivity). }
  assert (Hdig' : forall x, rolls (digestion x) = rolls x
                            /\ player (digestion x) = player x).
  { intros x. unfold digestion.
    repeat match goal with
    | |- context [if ?b then _ else _] =>
        lazymatch b with
        | context [if _ then _ else _] => fail
        | _ => destruct b eqn:?; cbv beta iota
        end
    end; destruct x; dungeon_records; split; reflexivity. }
  assert (Hpr : forall m x, printed m (journal (digestion x)) = printed m (journal x)).
  { intros m x. destruct (Hdig x) as [->|[a ->]]; reflexivity. }
  assert (Hn :
    let r := hunger_notices K d in
    fst r =
      (if food d <? 0 then 0
       else if food d <? PLAYER_FOOD_FAINT K then PLAYER_REGEN_FAINT K
       else if food d <? PLAYER_FOOD_WEAK K then PLAYER_REGEN_WEAK K
       else PLAYER_REGEN_NORMAL K)
    /\ printed "You are getting weak from hunger." (journal (snd r)) =
       Nat.add (printed "You are getting weak from hunger." (journal d))
         (if (food d <? PLAYER_FOOD_WEAK K) && status_clear (PY_WEAK K) (player d)
          then 1%nat else 0%nat)
    /\ printed "You are getting hungry." (journal (snd r)) =
       Nat.add (printed "You are getting hungry." (journal d))
         (if negb (food d <? PLAYER_FOOD_WEAK K) && (food d <? PLAYER_FOOD_ALERT K)
             && status_clear (PY_HUNGRY K) (player d)
          then 1%nat else 0%nat)
    /\ (PLAYER_FOOD_FAINT K <= food d ->
        rolls (snd r) = rolls d
        /\ paralysis (flags (player (snd r))) = paralysis (flags (player d)))).
  { cbv zeta. hunger_cases d.
    all: cbn [fst snd printed String.eqb Ascii.eqb Bool.eqb andb negb Nat.add] in *.
    all: repeat split; intros; try reflexivity; try lia. }
  cbv zeta in Hn. destruct (hunger_notices K d) as [regen d1]. cbn [fst snd] in *.
  destruct Hn as (A & B & C & D).
  rewrite !Hpr. destruct (Hdig' d1) as (R1 & R2). rewrite R1, R2.
  repeat split; try assumption; apply D; assumption.
Qed.

Lemma hunger_sets_the_regeneration_class_witness :
  let r := playerFoodConsumption umoria_more_constants (set_food 1500 quiet_dungeon) in
  fst r = 197 /\ printed "You are getting hungry." (journal (snd r)) = 1%nat.
Proof.
  intros r.
  destruct (hunger_sets_the_regeneration_class umoria_more_constants
              (set_food 1500 quiet_dungeon)) as (H1 & _ & H3 & _).
  - split; discriminate.
  - discriminate.
  - split; [exact H1 | exact H3].
Defined.

Lemma show_messages_rows (K : more_constants) (n : nat) : forall msgID d,
  0 <= msgID < MAX_SAVE_MSG K ->
  Dungeon.show_messages K n msgID d =
  set_journal (message_rows K n msgID d ++ journal d)%list d.
Proof.
  induction n as [|n IH]; intros msgID d Hm.
  - cbn. destruct d; reflexivity.
  - cbn [Dungeon.show_messages]. cbv zeta.
    rewrite IH by (destruct (msgID =? 0) eqn:E; lia).
    unfold message_rows. rewrite seq_S, map_app. cbn [map Nat.add].
    rewrite <- app_assoc. cbn [app].
    assert (Hlast : (msgID - (Z.of_nat (S n) - 1 - Z.of_nat n)) mod MAX_SAVE_MSG K = msgID).
    { replace (msgID - (Z.of_nat (S n) - 1 - Z.of_nat n)) with msgID by lia.
      apply Z.mod_small. exact Hm. }
    rewrite Hlast.
    assert (Hrows :
      map (fun r =>
             known (putStringClearToEOL
                      (Dungeon.message_at
                         (((if msgID =? 0 then MAX_SAVE_MSG K - 1 else msgID - 1)
                           - (Z.of_nat n - 1 - Z.of_nat r)) mod MAX_SAVE_MSG K)
                         (tell (putStringClearToEOL (Dungeon.message_at msgID d)
                                  (Z.of_nat n) 0) d))
                      (Z.of_nat r) 0)) (seq 0 n)
      = map (fun r =>
             known (putStringClearToEOL
                      (Dungeon.message_at
                         ((msgID - (Z.of_nat (S n) - 1 - Z.of_nat r)) mod MAX_SAVE_MSG K) d)
                      (Z.of_nat r) 0)) (seq 0 n)).
    { apply map_ext. intros r. f_equal. f_equal.
      replace (Dungeon.message_at _ (tell _ d)) with
        (Dungeon.message_at
           (((if msgID =? 0 then MAX_SAVE_MSG K - 1 else msgID - 1)
             - (Z.of_nat n - 1 - Z.of_nat r)) mod MAX_SAVE_MSG K) d)
        by (destruct d; reflexivity).
      f_equal.
      destruct (msgID =? 0) eqn:E.
      - replace (MAX_SAVE_MSG K - 1 - (Z.of_nat n - 1 - Z.of_nat r))
          with (msgID - (Z.of_nat (S n) - 1 - Z.of_nat r) + 1 * MAX_SAVE_MSG K) by lia.
        apply Z.mod_add. lia.
      - f_equal. lia. }
    rewrite Hrows. destruct d; reflexivity.
Qed.

(** X21 ([commandPreviousMessage]): the command shows as many kept
    messages as the repeat count says, at most the whole ring, and the whole
    ring when it directly follows itself, otherwise one.  Several messages
    are written between saving and restoring the screen, oldest on the top
    row and newest on the last, walking the ring backwards with wrap-around,
    and the line below is cleared for the prompt; a single one is written on
    the top row behind a [>].  A count is used up; without one the count is
    left alone. *)
Theorem previous_messages_are_shown_oldest_first (K : more_constants) (d : dungeon) :
  0 <= last_message_id d < MAX_SAVE_MSG K ->
  let d' := Dungeon.commandPreviousMessage K d in
  let shown := messages_shown K d in
  journal d' =
    (if shown >? 1 then
       handled terminalRestoreScreen :: waitForContinueKey shown
       :: known (eraseLine shown 0)
       :: message_rows K (Z.to_nat shown) (last_message_id d) d
       ++ handled terminalSaveScreen :: journal d
     else
       [known (putStringClearToEOL (Dungeon.message_at (last_message_id d) d) 0 1);
        putString ">" 0 0] ++ journal d)%list
  /\ command_count (player d') =
     (if command_count (player d) >? 0 then 0 else command_count (player d))
  /\ messages d' = messages d /\ last_message_id d' = last_message_id d.
Proof.
  intros Hl d' shown. subst d' shown.
  unfold Dungeon.commandPreviousMessage, messages_shown.
  assert (Hmin : (if command_count (player d) >? MAX_SAVE_MSG K then MAX_SAVE_MSG K
                  else command_count (player d))
                 = Z.min (command_count (player d)) (MAX_SAVE_MSG K)).
  { destruct (command_count (player d) >? MAX_SAVE_MSG K) eqn:E; lia. }
  cbv zeta. rewrite Hmin.
  set (c := Z.min (command_count (player d)) (MAX_SAVE_MSG K)).
  destruct (command_count (player d) >? 0) eqn:Ec.
  - replace (last_message_id (upd_player (set_command_count 0) d))
      with (last_message_id d) by (destruct d; reflexivity).
    destruct (c >? 1) eqn:E1.
    + rewrite show_messages_rows by exact Hl.
      destruct d as [g]; dungeon_records. destruct g; repeat split.
    + destruct d as [g]; dungeon_records. destruct g; repeat split.
  - destruct (last_command (player d) =? CTRL_KEY "P") eqn:Ep; cbn [negb].
    + destruct (MAX_SAVE_MSG K >? 1) eqn:E1.
      * rewrite show_messages_rows by exact Hl.
        destruct d as [g]; dungeon_records. repeat split.
      * destruct d as [g]; dungeon_records. repeat split.
    + change (1 >? 1) with false. cbv beta iota.
      destruct d as [g]; dungeon_records. repeat split.
Qed.

Lemma previous_messages_are_shown_oldest_first_witness :
  let d := upd_player (set_command_count 3) quiet_dungeon in
  journal (Dungeon.commandPreviousMessage umoria_more_constants d) =
  [handled terminalRestoreScreen; waitForContinueKey 3; known (eraseLine 3 0);
   known (putStringClearToEOL "fourth" 0 0);
   known (putStringClearToEOL "first" 1 0);
   known (putStringClearToEOL "second" 2 0);
   handled terminalSaveScreen].
Proof.
  intros d.
  destruct (previous_messages_are_shown_oldest_first umoria_more_constants d)
    as (H & _).
  - split; [discriminate | reflexivity].
  - exact H.
Defined.

(** ** The terminal routines *)

Ltac terminal_records :=
  cbv [set_globals set_old_msg set_last_msg set_wait_for_more set_screen set_message
       globals old_msg last_msg wait_for_more sound_beep_flag screen message] in *.

Ltac io_steps := cbv [bind ret get modify curse global rounds_left] in *.

Lemma substring_prefix_length (n : nat) : forall s,
  String.length (substring 0 n s) = Nat.min n (String.length s).
Proof.
  induction n as [|n IH]; intros s.
  - destruct s; reflexivity.
  - destruct s as [|c s]; [reflexivity|]. cbn [substring String.length].
    rewrite IH. reflexivity.
Qed.

Lemma substring_prefix_all (n : nat) : forall s,
  (String.length s <= n)%nat -> substring 0 n s = s.
Proof.
  induction n as [|n IH]; intros s H.
  - destruct s; [reflexivity | cbn in H; lia].
  - destruct s as [|c s]; [reflexivity|]. cbn [substring]. f_equal.
    apply IH. cbn in H. lia.
Qed.

Section TerminalFacts.
Variable K : more_constants.
Variable save_char_ok : game -> bool.
Variable mvaddstr_ERR : Z -> Z -> string -> bool.
Variable getyx : terminal -> Z * Z.

Lemma put_buffer_result (s : string) (row col : Z) (t : terminal) :
  let c := Z.min col 79 in
  let text := substring 0 (Z.to_nat (79 - c)) s in
  let t' := set_screen (mvaddstr row c text :: screen t) t in
  put_buffer mvaddstr_ERR s row col t =
  Some (if mvaddstr_ERR row c text
        then Gone (set_screen (abort :: screen t') t')
        else Back tt t').
Proof.
  cbv zeta. unfold put_buffer.
  replace (if col >? 79 then 79 else col) with (Z.min col 79)
    by (destruct (col >? 79) eqn:E; lia).
  io_steps. destruct (mvaddstr_ERR row (Z.min col 79) _); reflexivity.
Qed.

End TerminalFacts.

(** X23 ([put_buffer]): whatever the text and the column (from 0 on), what
    is handed to the screen starts at the column asked for, at column 79 at
    most, is the beginning of the text and ends by column 79, so that it
    never goes past the right edge; a text that fits is written whole.
    Nothing but the screen is touched, and the routine comes back unless the
    library answers [ERR], when it aborts. *)
Theorem put_buffer_stays_on_the_line
  (mvaddstr_ERR : Z -> Z -> string -> bool) (s : string) (row col : Z) (t : terminal) :
  0 <= col ->
  exists text t',
    written (screen t') = (row, Z.min col 79, text) :: written (screen t)
    /\ text = substring 0 (String.length text) s
    /\ Z.min col 79 + Z.of_nat (String.length text) <= 79
    /\ (col + Z.of_nat (String.length s) <= 79 -> text = s)
    /\ globals t' = globals t /\ old_msg t' = old_msg t /\ last_msg t' = last_msg t
    /\ put_buffer mvaddstr_ERR s row col t =
       Some (if mvaddstr_ERR row (Z.min col 79) text
             then Gone (set_screen (abort :: screen t') t') else Back tt t').
Proof.
  intros Hc.
  exists (substring 0 (Z.to_nat (79 - Z.min col 79)) s).
  exists (set_screen
            (mvaddstr row (Z.min col 79) (substring 0 (Z.to_nat (79 - Z.min col 79)) s)
             :: screen t) t).
  pose proof (substring_prefix_length (Z.to_nat (79 - Z.min col 79)) s) as Hlen.
  split; [destruct t; reflexivity|]. split.
  - rewrite Hlen.
    destruct (Nat.le_gt_cases (Z.to_nat (79 - Z.min col 79)) (String.length s)) as [H|H].
    + rewrite Nat.min_l by exact H. reflexivity.
    + rewrite Nat.min_r by lia. rewrite !substring_prefix_all by lia. reflexivity.
  - split; [rewrite Hlen; lia|]. split.
    + intros Hfit. apply substring_prefix_all. lia.
    + split; [destruct t; reflexivity|]. split; [destruct t; reflexivity|].
      split; [destruct t; reflexivity|]. apply put_buffer_result.
Qed.

Lemma put_buffer_stays_on_the_line_witness :
  exists text t',
    written (screen t') = (0, 75, text) :: written (screen quiet_terminal)
    /\ text = substring 0 (String.length text) "-more-"
    /\ 75 + Z.of_nat (String.length text) <= 79.
Proof.
  destruct (put_buffer_stays_on_the_line no_ERR "-more-" 0 75 quiet_terminal)
    as (text & t' & H1 & H2 & H3 & _).
  - discriminate.
  - exists text, t'. split; [exact H1|]. split; [exact H2 | exact H3].
Defined.

Section KeyFacts.
Variable save_char_ok : game -> bool.

Lemma inkey_eof_input s :
  match inkey_eof save_char_ok s with
  | Returned k s' => k = ESCAPE /\ input s' = input s
  | Exited s' => True
  end.
Proof.
  unfold inkey_eof. entry_tests.
  all: open_state s; records; try split; reflexivity.
Qed.

Lemma inkey_loop_progress pending : forall s,
  match inkey_loop save_char_ok pending s with
  | Returned k s' =>
      (List.length (input s') <= List.length pending)%nat
      /\ (k <> ESCAPE -> (List.length (input s') < List.length pending)%nat)
  | Exited s' => True
  end.
Proof.
  induction pending as [|i pending IH]; intros s; cbn [inkey_loop].
  - pose proof (inkey_eof_input (set_input [] s)) as H.
    destruct (inkey_eof save_char_ok (set_input [] s)) as [k s'|s']; [|exact I].
    destruct H as [-> H]. rewrite H. split; [destruct s; cbn; lia | congruence].
  - destruct (i =? EOF) eqn:E.
    + pose proof (inkey_eof_input (set_input pending s)) as H.
      destruct (inkey_eof save_char_ok (set_input pending s)) as [k s'|s']; [|exact I].
      destruct H as [-> H]. rewrite H. split; [destruct s; cbn; lia | congruence].
    + destruct (i =? CTRL_KEY "R") eqn:E'; cbn [negb].
      * specialize (IH (call_ moriaterm (call_ wrefresh_curscr s))).
        destruct (inkey_loop save_char_ok pending _); [|exact I].
        cbn [List.length]. destruct IH as (I1 & I2). split; [lia|].
        intros Hk. specialize (I2 Hk). lia.
      * destruct s; cbn. split; intros; lia.
Qed.

Lemma inkey_progress s :
  match inkey save_char_ok s with
  | Returned k s' =>
      (List.length (input s') <= List.length (input s))%nat
      /\ (k <> ESCAPE -> (List.length (input s') < List.length (input s))%nat)
  | Exited s' => True
  end.
Proof.
  unfold inkey.
  pose proof (inkey_loop_progress (input (set_command_count 0 (put_qio s)))
                (set_command_count 0 (put_qio s))) as H.
  replace (input (set_command_count 0 (put_qio s))) with (input s) in *
    by (destruct s; reflexivity).
  exact H.
Qed.

(** A plain key is handed out as it is. *)
Lemma inkey_plain s k rest :
  input s = k :: rest -> plain_key k ->
  inkey save_char_ok s = Returned k (set_input rest (set_command_count 0 (put_qio s))).
Proof.
  intros Hi (Hk & Hr). unfold inkey.
  replace (input (set_command_count 0 (put_qio s))) with (input s)
    by (destruct s; reflexivity).
  rewrite Hi. cbn [inkey_loop]. unfold EOF.
  destruct (k =? -1) eqn:E; [lia|].
  destruct (k =? CTRL_KEY "R") eqn:E'; [lia|]. cbn [negb].
  rewrite to_char_byte by lia. destruct (k <? 128) eqn:E2; [|lia].
  destruct s; reflexivity.
Qed.

(** With no key left and a character in play, the reader answers
    [ESCAPE] and drops the message flag. *)
Lemma inkey_dry s spare :
  input s = [] -> calm spare s -> 0 < spare ->
  exists s',
    inkey save_char_ok s = Returned ESCAPE s'
    /\ input s' = [] /\ msg_flag s' = false /\ command_count s' = 0
    /\ calm (spare - 1) s'.
Proof.
  intros Hi (Hg & Hs & He & Hsp & Hk) Hpos. unfold inkey.
  replace (input (set_command_count 0 (put_qio s))) with (input s)
    by (destruct s; reflexivity).
  rewrite Hi. cbn [inkey_loop]. unfold inkey_eof, put_qio, calm.
  open_state s. records. records_in_all. subst. cbn [negb orb].
  match goal with
  | |- context [if ?a >? 100 then _ else _] => destruct (a >? 100) eqn:E'; [lia|]
  end.
  eexists. split; [reflexivity|]. records.
  repeat split; try reflexivity; try lia. constructor.
Qed.

End KeyFacts.

Lemma keeps_display_refl t : keeps_display t t.
Proof. repeat split. Qed.

Lemma keeps_display_trans t0 t1 t2 :
  keeps_display t0 t1 -> keeps_display t1 t2 -> keeps_display t0 t2.
Proof. unfold keeps_display. intuition congruence. Qed.

Lemma keeps_display_globals g t : keeps_display t (set_globals g t).
Proof. destruct t; repeat split. Qed.

Section Loops.
Variable save_char_ok : game -> bool.

Lemma inkey_io_any t :
  match inkey_io save_char_ok t with
  | Some (Back k t') =>
      keeps_display t t'
      /\ (List.length (keys t') <= List.length (keys t))%nat
      /\ (k <> ESCAPE -> (List.length (keys t') < List.length (keys t))%nat)
  | Some (Gone t') => keeps_display t t'
  | None => False
  end.
Proof.
  unfold inkey_io, keys. pose proof (inkey_progress save_char_ok (globals t)) as H.
  destruct (inkey save_char_ok (globals t)) as [k g|g].
  - split; [apply keeps_display_globals|]. destruct t; exact H.
  - apply keeps_display_globals.
Qed.

(** A loop on [inkey] that [ESCAPE] ends comes to an end within one round
    more than there are keys. *)
Lemma inkey_while_any (again : Z -> bool) :
  again ESCAPE = false ->
  forall rounds t,
    (List.length (keys t) < rounds)%nat ->
    match inkey_while save_char_ok again rounds t with
    | Some (Back k t') =>
        again k = false /\ keeps_display t t'
        /\ (List.length (keys t') <= List.length (keys t))%nat
    | Some (Gone t') => keeps_display t t'
    | None => False
    end.
Proof.
  intros Hesc. induction rounds as [|rounds IH]; intros t Hr; [lia|].
  cbn [inkey_while]. unfold bind at 1.
  pose proof (inkey_io_any t) as H.
  destruct (inkey_io save_char_ok t) as [[k t1|t1]|]; [|exact H|exact H].
  destruct H as (H1 & H2 & H3).
  destruct (again k) eqn:Ek.
  - assert (Hk : k <> ESCAPE) by (intros ->; congruence).
    specialize (H3 Hk). specialize (IH t1 ltac:(lia)).
    destruct (inkey_while save_char_ok again rounds t1) as [[k' t2|t2]|].
    + destruct IH as (I1 & I2 & I3). split; [exact I1|].
      split; [eapply keeps_display_trans; eassumption | lia].
    + eapply keeps_display_trans; eassumption.
    + exact IH.
  - cbv [ret]. split; [exact Ek|]. split; [exact H1 | exact H2].
Qed.

(** The same loop in good order: blanks apart, it hands out the first key
    it does not wait on, or [ESCAPE] when the keys run out first. *)
Lemma inkey_while_calm (again : Z -> bool) :
  again ESCAPE = false ->
  forall skipped rest rounds spare t,
    keys t = (skipped ++ rest)%list ->
    Forall (fun k => again k = true) skipped ->
    match rest with k :: _ => again k = false | [] => True end ->
    calm spare (globals t) -> 0 < spare ->
    (List.length (keys t) < rounds)%nat ->
    exists t',
      inkey_while save_char_ok again rounds t =
        Some (Back (match rest with k :: _ => k | [] => ESCAPE end) t')
      /\ keys t' = tl rest
      /\ keeps_display t t'
      /\ calm (spare - 1) (globals t')
      /\ command_count (globals t') = 0
      /\ msg_flag (globals t') =
         match rest with _ :: _ => msg_flag (globals t) | [] => false end.
Proof.
  intros Hesc. induction skipped as [|k skipped IH];
    intros rest rounds spare t Hk Hs Hrest Hcalm Hspare Hr.
  - destruct rounds as [|rounds]; [lia|]. cbn [app] in Hk.
    cbn [inkey_while]. unfold bind at 1. unfold inkey_io.
    destruct rest as [|k rest].
    + destruct (inkey_dry save_char_ok (globals t) spare Hk Hcalm Hspare)
        as (g' & H1 & H2 & H3 & H4 & H5).
      rewrite H1, Hesc. cbv [ret]. eexists. split; [reflexivity|].
      split; [destruct t; exact H2|].
      split; [apply keeps_display_globals|].
      split; [destruct t; exact H5|].
      split; [destruct t; exact H4 | destruct t; exact H3].
    + assert (Hp : plain_key k).
      { destruct Hcalm as (_ & _ & _ & _ & Hf). unfold keys in Hk. rewrite Hk in Hf.
        inversion Hf; assumption. }
      rewrite (inkey_plain save_char_ok (globals t) k rest Hk Hp), Hrest. cbv [ret].
      eexists. split; [reflexivity|].
      destruct Hcalm as (C1 & C2 & C3 & C4 & C5). unfold keys in Hk.
      rewrite Hk in C5. inversion C5; subst.
      split; [destruct t as [g]; destruct g; reflexivity|].
      split; [apply keeps_display_globals|].
      unfold calm. destruct t as [g]; destruct g; cbn in *.
      repeat split; try assumption; try reflexivity; lia.
  - destruct rounds as [|rounds]; [lia|]. cbn [app] in Hk.
    cbn [inkey_while]. unfold bind at 1. unfold inkey_io.
    assert (Hp : plain_key k).
    { destruct Hcalm as (_ & _ & _ & _ & Hf). unfold keys in Hk. rewrite Hk in Hf.
      inversion Hf; assumption. }
    rewrite (inkey_plain save_char_ok (globals t) k _ Hk Hp).
    inversion Hs as [|? ? Hk1 Hs1]; subst. rewrite Hk1.
    set (t1 := set_globals _ t).
    destruct (IH rest rounds spare t1) as (t' & I1 & I2 & I3 & I4 & I5 & I6).
    + subst t1. unfold keys. destruct t as [g]; destruct g; reflexivity.
    + exact Hs1.
    + exact Hrest.
    + destruct Hcalm as (C1 & C2 & C3 & C4 & C5). unfold keys in Hk.
      rewrite Hk in C5. inversion C5; subst.
      subst t1. unfold calm. destruct t as [g]; destruct g; cbn in *.
      repeat split; assumption.
    + exact Hspare.
    + subst t1. unfold keys in *. rewrite Hk in Hr.
      destruct t as [g]; destruct g; cbn in *. lia.
    + exists t'. split; [exact I1|]. split; [exact I2|].
      split; [eapply keeps_display_trans; [|exact I3]; subst t1;
              apply keeps_display_globals|].
      split; [exact I4|]. split; [exact I5|].
      rewrite I6. subst t1. destruct rest; [reflexivity|].
      destruct t as [g]; destruct g; reflexivity.
Qed.

End Loops.

Lemma more_waits_ESCAPE : more_waits ESCAPE = false.
Proof. reflexivity. Qed.

Lemma store_length (m : string) (l : list string) : forall i,
  List.length (store i m l) = List.length l.
Proof.
  induction l as [|x l IH]; intros i; [reflexivity|].
  destruct i; cbn [store List.length]; [reflexivity|]. rewrite IH. reflexivity.
Qed.

Lemma store_Forall (P : string -> Prop) (m : string) (l : list string) : forall i,
  Forall P l -> P m -> Forall P (store i m l).
Proof.
  induction l as [|x l IH]; intros i Hl Hm; [constructor|].
  inversion Hl; subst. destruct i; cbn [store]; constructor; auto.
Qed.

Lemma store_nth_same (m : string) (l : list string) : forall i,
  (i < List.length l)%nat -> nth i (store i m l) EmptyString = m.
Proof.
  induction l as [|x l IH]; intros i Hi; [cbn in Hi; lia|].
  destruct i; cbn [store nth]; [reflexivity|]. apply IH. cbn in Hi. lia.
Qed.

Lemma store_nth_other (m : string) (l : list string) : forall i j,
  i <> j -> nth j (store i m l) EmptyString = nth j l EmptyString.
Proof.
  induction l as [|x l IH]; intros i j Hij; [reflexivity|].
  destruct i, j; cbn [store nth]; try reflexivity; [congruence|].
  apply IH. congruence.
Qed.

Lemma append_length (a b : string) :
  String.length (a ++ b) = (String.length a + String.length b)%nat.
Proof.
  induction a as [|c a IH]; [reflexivity|]. cbn. rewrite IH. reflexivity.
Qed.

Section Messages.
Variable K : more_constants.
Variable save_char_ok : game -> bool.
Variable mvaddstr_ERR : Z -> Z -> string -> bool.

Lemma flush_message_any (m : option string) (t : terminal) :
  match flush_message save_char_ok mvaddstr_ERR m t with
  | Some (Back (old_len, combine) t') =>
      old_msg t' = old_msg t /\ last_msg t' = last_msg t
      /\ (combine = true ->
          t' = t /\ msg_flag (globals t) = true
          /\ match m with
             | Some s =>
                 Z.of_nat (String.length s)
                 + Z.of_nat (String.length (message (last_msg t) t)) + 3 < 73
             | None => False
             end)
  | Some (Gone t') => old_msg t' = old_msg t /\ last_msg t' = last_msg t
  | None => False
  end.
Proof.
  unfold flush_message. unfold bind at 1. unfold get at 1.
  destruct (msg_flag (globals t)) eqn:Hflag;
    [|cbv [ret]; repeat split; discriminate].
  unfold bind at 1. unfold get at 1.
  set (old_len := Z.of_nat (String.length (message (last_msg t) t)) + 1).
  destruct ((match m with None => true | Some _ => false end)
            || (match m with Some s => Z.of_nat (String.length s) | None => 0 end
                + old_len + 2 >=? 73)) eqn:Hwait.
  - unfold bind at 1. rewrite put_buffer_result. cbv zeta.
    destruct (mvaddstr_ERR _ _ _); [destruct t; split; reflexivity|].
    unfold bind at 1. unfold modify at 1.
    unfold bind at 1. unfold rounds_left at 1. unfold get at 1.
    unfold bind at 1.
    match goal with
    | |- context [inkey_while save_char_ok more_waits ?r ?x] =>
        pose proof (inkey_while_any save_char_ok more_waits more_waits_ESCAPE r x
                      ltac:(unfold keys; lia)) as H;
        destruct (inkey_while save_char_ok more_waits r x) as [[k t2|t2]|]
    end; [| |exact H].
    + destruct H as (_ & (H1 & H2 & _) & _). cbv [bind modify ret].
      split; [transitivity (old_msg t2);
              [destruct t2; reflexivity | rewrite H1; destruct t; reflexivity]|].
      split; [transitivity (last_msg t2);
              [destruct t2; reflexivity | rewrite H2; destruct t; reflexivity]|].
      discriminate.
    + destruct H as (H1 & H2 & _). rewrite H1, H2. destruct t; split; reflexivity.
  - cbv [ret]. split; [reflexivity|]. split; [reflexivity|]. intros _.
    split; [reflexivity|]. split; [reflexivity|].
    destruct m as [s|]; [|discriminate]. cbn [orb] in Hwait. subst old_len. lia.
Qed.

Lemma show_message_any (m : option string) (old_len : Z) (combine : bool) (t : terminal) :
  match show_message K mvaddstr_ERR m old_len combine t with
  | Some (Back _ t') =>
      match m with
      | None =>
          old_msg t' = old_msg t /\ last_msg t' = last_msg t
          /\ msg_flag (globals t') = false
          /\ command_count (globals t') = command_count (globals t)
          /\ input (globals t') = input (globals t)
      | Some s =>
          command_count (globals t') = 0 /\ msg_flag (globals t') = true
          /\ input (globals t') = input (globals t)
          /\ if combine then
               last_msg t' = last_msg t
               /\ old_msg t' =
                  store (Z.to_nat (last_msg t)) (message (last_msg t) t ++ "  " ++ s)
                    (old_msg t)
             else
               last_msg t' =
                 (if last_msg t + 1 >=? MAX_SAVE_MSG K then 0 else last_msg t + 1)
               /\ old_msg t' =
                  store (Z.to_nat (last_msg t'))
                    (substring 0 (Z.to_nat (VTYPESIZ K - 1)) s) (old_msg t)
      end
  | Some (Gone t') => old_msg t' = old_msg t /\ last_msg t' = last_msg t
  | None => False
  end.
Proof.
  unfold show_message.
  destruct combine; cbn [negb]; destruct m as [s|].
  - cbv [bind ret global modify]. rewrite put_buffer_result. cbv zeta.
    destruct (mvaddstr_ERR _ _ _); [destruct t; split; reflexivity|].
    destruct t as [g]; destruct g; cbn. repeat split.
  - cbv [bind ret global modify]. destruct t as [g]; destruct g; cbn. repeat split.
  - cbv [bind ret global modify curse]. rewrite put_buffer_result. cbv zeta.
    destruct (mvaddstr_ERR _ _ _); [destruct t; split; reflexivity|].
    destruct t as [g]; destruct g; cbn.
    match goal with
    | |- context [if ?b then _ else _] => destruct b
    end; cbn; repeat split.
  - cbv [bind ret global modify curse]. destruct t as [g]; destruct g; cbn.
    repeat split.
Qed.

Lemma msg_print_any (m : option string) (t : terminal) :
  match msg_print K save_char_ok mvaddstr_ERR m t with
  | Some (Back _ t') =>
      match m with
      | None =>
          old_msg t' = old_msg t /\ last_msg t' = last_msg t
          /\ msg_flag (globals t') = false
      | Some s =>
          command_count (globals t') = 0 /\ msg_flag (globals t') = true
          /\ ((last_msg t' = last_msg t
               /\ old_msg t' =
                  store (Z.to_nat (last_msg t)) (message (last_msg t) t ++ "  " ++ s)
                    (old_msg t)
               /\ Z.of_nat (String.length s)
                  + Z.of_nat (String.length (message (last_msg t) t)) + 3 < 73)
              \/ (last_msg t' =
                    (if last_msg t + 1 >=? MAX_SAVE_MSG K then 0 else last_msg t + 1)
                  /\ old_msg t' =
                     store (Z.to_nat (last_msg t'))
                       (substring 0 (Z.to_nat (VTYPESIZ K - 1)) s) (old_msg t)))
      end
  | Some (Gone t') => old_msg t' = old_msg t /\ last_msg t' = last_msg t
  | None => False
  end.
Proof.
  unfold msg_print. unfold bind at 1.
  pose proof (flush_message_any m t) as HA.
  destruct (flush_message save_char_ok mvaddstr_ERR m t) as [[[old_len combine] t1|t1]|];
    [|exact HA|exact HA].
  destruct HA as (A1 & A2 & A3).
  pose proof (show_message_any m old_len combine t1) as HB.
  destruct (show_message K mvaddstr_ERR m old_len combine t1) as [[[] t2|t2]|];
    [| |exact HB].
  - destruct m as [s|].
    + destruct HB as (B1 & B2 & _ & B4). split; [exact B1|]. split; [exact B2|].
      destruct combine.
      * destruct (A3 eq_refl) as (-> & _ & A5). left.
        destruct B4 as (B4 & B5). repeat split; assumption.
      * right. destruct B4 as (B4 & B5). rewrite A1, A2 in *. split; assumption.
    + destruct HB as (B1 & B2 & B3 & _). repeat split; congruence.
  - destruct HB as (B1 & B2). split; congruence.
Qed.

End Messages.

(** X24 ([msg_print]): the ring of kept messages stays in order whatever
    is printed and whatever is typed at the [-more-] prompt: the index of the
    newest message stays within the ring and every kept message fits its
    buffer, the two messages combined on one line included, as long as a
    buffer holds 72 characters or more; and the routine always comes to an
    end. *)
Theorem message_ring_stays_in_order
  (K : more_constants) (save_char_ok : game -> bool)
  (mvaddstr_ERR : Z -> Z -> string -> bool) (m : option string) (t : terminal) :
  72 <= VTYPESIZ K -> ring_ok K t ->
  match msg_print K save_char_ok mvaddstr_ERR m t with
  | Some (Back _ t') => ring_ok K t'
  | Some (Gone t') => ring_ok K t'
  | None => False
  end.
Proof.
  intros HV (R1 & R2 & R3).
  pose proof (msg_print_any K save_char_ok mvaddstr_ERR m t) as H.
  destruct (msg_print K save_char_ok mvaddstr_ERR m t) as [[[] t'|t']|];
    [| |exact H].
  - destruct m as [s|].
    + destruct H as (_ & _ & [(H1 & H2 & H3)|(H1 & H2)]).
      * unfold ring_ok. rewrite H1, H2, store_length. split; [exact R1|].
        split; [exact R2|]. apply store_Forall; [exact R3|].
        rewrite !append_length. cbn [String.length]. lia.
      * unfold ring_ok. rewrite H2, store_length, H1. split.
        -- destruct (last_msg t + 1 >=? MAX_SAVE_MSG K) eqn:E; lia.
        -- split; [exact R2|]. apply store_Forall; [exact R3|].
           rewrite substring_prefix_length. lia.
    + destruct H as (H1 & H2 & _). unfold ring_ok. rewrite H1, H2.
      split; [exact R1|]. split; [exact R2 | exact R3].
  - destruct H as (H1 & H2). unfold ring_ok. rewrite H1, H2.
    split; [exact R1|]. split; [exact R2 | exact R3].
Qed.

Lemma message_ring_stays_in_order_witness :
  match msg_print umoria_more_constants (fun _ => true) no_ERR (Some "Hello.")
          quiet_terminal with
  | Some (Back _ t') => ring_ok umoria_more_constants t'
  | Some (Gone t') => ring_ok umoria_more_constants t'
  | None => False
  end.
Proof.
  apply (message_ring_stays_in_order umoria_more_constants (fun _ => true) no_ERR
           (Some "Hello.") quiet_terminal).
  - discriminate.
  - split; [split; [discriminate | reflexivity]|].
    split; [reflexivity|]. repeat constructor.
Defined.

(** X25 ([msg_print]): with no message waiting on the line, printing a
    message reads no key and always comes back (unless the library fails);
    it resets the repeat count, raises the message flag, writes the message
    from column 0 cut to the 79 columns of the line, and keeps it, cut to the
    size of a buffer, in the slot after the newest one, wrapping round at the
    end of the ring; the other slots are untouched. *)
Theorem fresh_message_is_shown_and_kept
  (K : more_constants) (save_char_ok : game -> bool)
  (mvaddstr_ERR : Z -> Z -> string -> bool) (s : string) (t : terminal) :
  msg_flag (globals t) = false -> ring_ok K t ->
  mvaddstr_ERR MSG_LINE 0 (substring 0 79 s) = false ->
  exists t',
    msg_print K save_char_ok mvaddstr_ERR (Some s) t = Some (Back tt t')
    /\ keys t' = keys t
    /\ command_count (globals t') = 0 /\ msg_flag (globals t') = true
    /\ last_msg t' = (last_msg t + 1) mod MAX_SAVE_MSG K
    /\ message (last_msg t') t' = substring 0 (Z.to_nat (VTYPESIZ K - 1)) s
    /\ (forall i, 0 <= i -> i <> last_msg t' -> message i t' = message i t)
    /\ written (screen t') = (MSG_LINE, 0, substring 0 79 s) :: written (screen t).
Proof.
  intros Hflag (R1 & R2 & R3) Herr.
  unfold msg_print, flush_message, show_message.
  cbv [bind get ret]. rewrite Hflag. cbv [negb curse modify global bind ret].
  rewrite put_buffer_result. cbv zeta.
  change (Z.to_nat (79 - Z.min 0 79)) with 79%nat. change (Z.min 0 79) with 0.
  rewrite Herr.
  assert (Hnext : (if last_msg t + 1 >=? MAX_SAVE_MSG K then 0 else last_msg t + 1)
                  = (last_msg t + 1) mod MAX_SAVE_MSG K).
  { destruct (last_msg t + 1 >=? MAX_SAVE_MSG K) eqn:E.
    - replace (last_msg t + 1) with (MAX_SAVE_MSG K) by lia.
      rewrite Z.mod_same by lia. reflexivity.
    - rewrite Z.mod_small by lia. reflexivity. }
  eexists. split; [reflexivity|].
  destruct t as [g old last w b scr]. terminal_records. unfold keys. cbn [globals].
  destruct (last + 1 >=? MAX_SAVE_MSG K) eqn:E; terminal_records.
  - split; [destruct g; reflexivity|]. split; [destruct g; reflexivity|].
    split; [destruct g; reflexivity|]. split; [exact Hnext|].
    split; [apply store_nth_same; lia|].
    split; [|reflexivity].
    intros i Hi Hne. apply store_nth_other. lia.
  - split; [destruct g; reflexivity|]. split; [destruct g; reflexivity|].
    split; [destruct g; reflexivity|]. split; [exact Hnext|].
    split; [apply store_nth_same; lia|].
    split; [|reflexivity].
    intros i Hi Hne. apply store_nth_other. lia.
Qed.

Lemma fresh_message_is_shown_and_kept_witness :
  exists t',
    msg_print umoria_more_constants (fun _ => true) no_ERR (Some "Hello.")
      (set_last_msg 3 quiet_terminal) = Some (Back tt t')
    /\ last_msg t' = 0 /\ message 0 t' = "Hello." /\ message 1 t' = "second".
Proof.
  destruct (fresh_message_is_shown_and_kept umoria_more_constants (fun _ => true)
              no_ERR "Hello." (set_last_msg 3 quiet_terminal))
    as (t' & H1 & _ & _ & _ & H2 & H3 & H4 & _).
  - reflexivity.
  - split; [split; [discriminate | reflexivity]|].
    split; [reflexivity|]. repeat constructor.
  - reflexivity.
  - exists t'. split; [exact H1|]. split; [exact H2|].
    split; [rewrite H2 in H3; exact H3|].
    apply (H4 1); [discriminate | rewrite H2; discriminate].
Defined.

(** X26 ([msg_print], [inkey]): with a message waiting on the line, the
    null message puts the [-more-] prompt behind it, at column 73 at most,
    and waits: keys are read and dropped up to the first blank, escape,
    newline or return, which is taken too; when the keys run out instead, the
    escape of the reader ends the wait.  Either way the routine comes back
    with the message flag down and the ring of messages as it was.  The
    prompt is written whole only behind a message of less than 72
    characters; behind a longer one its last character is cut off. *)
Theorem more_prompt_waits_for_an_answer
  (K : more_constants) (save_char_ok : game -> bool)
  (mvaddstr_ERR : Z -> Z -> string -> bool)
  (skipped rest : list Z) (spare : Z) (t : terminal) :
  msg_flag (globals t) = true ->
  (forall row col text, mvaddstr_ERR row col text = false) ->
  calm spare (globals t) -> 0 < spare ->
  keys t = (skipped ++ rest)%list ->
  Forall (fun k => more_waits k = true) skipped ->
  match rest with k :: _ => more_waits k = false | [] => True end ->
  let len := Z.of_nat (String.length (message (last_msg t) t)) in
  exists t',
    msg_print K save_char_ok mvaddstr_ERR None t = Some (Back tt t')
    /\ keys t' = tl rest
    /\ msg_flag (globals t') = false
    /\ old_msg t' = old_msg t /\ last_msg t' = last_msg t
    /\ wait_for_more t' = false
    /\ written (screen t') =
       (MSG_LINE, Z.min (len + 1) 73, if len <? 72 then " -more-" else " -more")
       :: written (screen t).
Proof.
  intros Hflag Herr Hcalm Hspare Hkeys Hskip Hrest len.
  unfold msg_print, flush_message.
  unfold bind at 1. unfold bind at 1. unfold get at 1. rewrite Hflag.
  unfold bind at 1. unfold get at 1. fold len. cbn [orb].
  unfold bind at 1. rewrite put_buffer_result. cbv zeta. rewrite Herr.
  unfold bind at 1. unfold modify at 1.
  unfold bind at 1. unfold rounds_left at 1. unfold get at 1.
  unfold bind at 1.
  replace (if len + 1 >? 73 then 73 else len + 1) with (Z.min (len + 1) 73)
    by (destruct (len + 1 >? 73) eqn:E; lia).
  replace (Z.min (Z.min (len + 1) 73) 79) with (Z.min (len + 1) 73) by lia.
  set (text := substring 0 (Z.to_nat (79 - Z.min (len + 1) 73)) " -more-").
  assert (Htext : text = if len <? 72 then " -more-" else " -more").
  { subst text. destruct (len <? 72) eqn:E.
    - apply substring_prefix_all. change (String.length " -more-") with 7%nat. lia.
    - replace (Z.min (len + 1) 73) with 73 by lia. reflexivity. }
  set (t1 := set_wait_for_more true _).
  destruct (inkey_while_calm save_char_ok more_waits more_waits_ESCAPE
              skipped rest (S (List.length (input (globals t1)))) spare t1)
    as (t2 & H1 & H2 & H3 & H4 & H5 & H6).
  - subst t1. unfold keys in *. destruct t; exact Hkeys.
  - exact Hskip.
  - exact Hrest.
  - subst t1. destruct t; exact Hcalm.
  - exact Hspare.
  - unfold keys. lia.
  - rewrite H1. unfold show_message. cbv [bind modify ret negb curse global].
    eexists. split; [reflexivity|].
    destruct H3 as (D1 & D2 & D3 & D4 & D5).
    destruct t2 as [g2 old2 last2 w2 b2 scr2]. unfold keys in *.
    terminal_records. subst. cbn [written].
    split; [destruct g2; exact H2|]. split; [destruct g2; reflexivity|].
    split; [destruct t; reflexivity|]. split; [destruct t; reflexivity|].
    split; [reflexivity|]. subst t1. destruct t. terminal_records.
    rewrite <- Htext. reflexivity.
Qed.

Lemma more_prompt_waits_for_an_answer_witness :
  let t := set_globals
             (set_input [ch "x"; ch " "; ch "y"] (set_msg_flag true quiet_game))
             quiet_terminal in
  exists t',
    msg_print umoria_more_constants (fun _ => true) no_ERR None t = Some (Back tt t')
    /\ keys t' = [ch "y"] /\ msg_flag (globals t') = false.
Proof.
  intros t.
  destruct (more_prompt_waits_for_an_answer umoria_more_constants (fun _ => true)
              no_ERR [ch "x"] [ch " "; ch "y"] 1 t)
    as (t' & H1 & H2 & H3 & _).
  - reflexivity.
  - reflexivity.
  - repeat split; try discriminate; try reflexivity.
    repeat (constructor; [split; [split; [discriminate | reflexivity] | discriminate]|]).
    constructor.
  - reflexivity.
  - reflexivity.
  - repeat constructor.
  - reflexivity.
  - exists t'. split; [exact H1|]. split; [exact H2 | exact H3].
Defined.

(** X27 ([count_msg_print], [msg_print]): printing a message puts the
    repeat count to 0, which is how a message interrupts a counted command;
    [count_msg_print] prints the same way and comes back with the count it
    found.  Both always come to an end. *)
Theorem counted_message_keeps_the_count
  (K : more_constants) (save_char_ok : game -> bool)
  (mvaddstr_ERR : Z -> Z -> string -> bool) (s : string) (t : terminal) :
  match msg_print K save_char_ok mvaddstr_ERR (Some s) t with
  | Some (Back _ t') => command_count (globals t') = 0
  | Some (Gone _) => True
  | None => False
  end
  /\ match count_msg_print K save_char_ok mvaddstr_ERR (Some s) t with
     | Some (Back _ t') =>
         command_count (globals t') = command_count (globals t)
         /\ msg_flag (globals t') = true
     | Some (Gone _) => True
     | None => False
     end.
Proof.
  pose proof (msg_print_any K save_char_ok mvaddstr_ERR (Some s) t) as H.
  unfold count_msg_print. cbv [bind get].
  destruct (msg_print K save_char_ok mvaddstr_ERR (Some s) t) as [[[] t'|t']|].
  - destruct H as (H1 & H2 & _). split; [exact H1|].
    cbv [global modify]. destruct t' as [g]; destruct g; cbn in *.
    split; [reflexivity | exact H2].
  - split; exact I.
  - split; exact H.
Qed.

(** X28 ([get_check]): with no message waiting on the line, the
    confirmation prompt skips blanks and takes the first other key as the
    answer: it is yes for [y] and [Y] and no for every other key; and it is no
    when the keys run out.  The keys behind the answer are left for the next
    reader, and the ring of messages is untouched. *)
Theorem confirmation_takes_only_y
  (K : more_constants) (save_char_ok : game -> bool)
  (mvaddstr_ERR : Z -> Z -> string -> bool) (getyx : terminal -> Z * Z)
  (prompt : string) (blanks : nat) (rest : list Z) (spare : Z) (t : terminal) :
  msg_flag (globals t) = false ->
  (forall row col text, mvaddstr_ERR row col text = false) ->
  calm spare (globals t) -> 0 < spare ->
  keys t = (repeat (ch " ") blanks ++ rest)%list ->
  match rest with k :: _ => k <> ch " " | [] => True end ->
  exists t',
    get_check K save_char_ok mvaddstr_ERR getyx prompt t =
      Some (Back (match rest with
                  | k :: _ => (k =? ch "Y") || (k =? ch "y")
                  | [] => false
                  end) t')
    /\ keys t' = tl rest
    /\ msg_flag (globals t') = false
    /\ old_msg t' = old_msg t /\ last_msg t' = last_msg t.
Proof.
  intros Hflag Herr Hcalm Hspare Hkeys Hrest.
  unfold get_check, prt.
  unfold bind at 1. unfold bind at 1. unfold get at 1. rewrite Hflag.
  change ((0 =? MSG_LINE) && false) with false. cbv beta iota.
  unfold bind at 1. unfold ret at 1.
  unfold bind at 1. unfold curse at 1. unfold modify at 1.
  unfold bind at 1. unfold curse at 1. unfold modify at 1.
  rewrite put_buffer_result. cbv zeta. rewrite Herr.
  unfold bind at 1. unfold get at 1.
  set (t1 := set_screen (mvaddstr 0 _ _ :: _) _).
  destruct (getyx t1) as [y x].
  unfold bind at 1.
  set (t2 := if x >? 73 then set_screen (move 0 73 :: screen t1) t1 else t1).
  assert (Hstep : (if x >? 73 then curse (move 0 73) else ret tt) t1
                  = Some (Back tt t2)).
  { subst t2. destruct (x >? 73); reflexivity. }
  rewrite Hstep.
  unfold bind at 1. unfold curse at 1. unfold modify at 1.
  unfold bind at 1. unfold rounds_left at 1. unfold get at 1.
  unfold bind at 1.
  set (t3 := set_screen (addstr " [y/n]" :: screen t2) t2).
  assert (Hg : globals t3 = globals t).
  { subst t3 t2 t1. destruct (x >? 73); destruct t; reflexivity. }
  assert (Hr : old_msg t3 = old_msg t /\ last_msg t3 = last_msg t).
  { subst t3 t2 t1. destruct (x >? 73); destruct t; split; reflexivity. }
  destruct (inkey_while_calm save_char_ok (fun res => res =? ch " ") eq_refl
              (repeat (ch " ") blanks) rest
              (S (List.length (input (globals t3)))) spare t3)
    as (t4 & H1 & H2 & H3 & H4 & H5 & H6).
  - unfold keys in *. rewrite Hg. exact Hkeys.
  - clear. induction blanks; cbn [repeat]; constructor; [reflexivity | assumption].
  - destruct rest as [|k rest]; [exact I|]. apply Z.eqb_neq. exact Hrest.
  - rewrite Hg. exact Hcalm.
  - exact Hspare.
  - unfold keys. lia.
  - rewrite H1. unfold erase_line.
    assert (Hf4 : msg_flag (globals t4) = false).
    { rewrite H6, Hg. destruct rest; [reflexivity | exact Hflag]. }
    cbv [bind get]. rewrite Hf4.
    change ((0 =? MSG_LINE) && false) with false. cbv [ret curse modify].
    destruct H3 as (D1 & D2 & _). destruct Hr as (R1 & R2).
    destruct rest as [|k rest].
    + change (ESCAPE =? ch "Y") with false. change (ESCAPE =? ch "y") with false.
      cbv [orb ret]. eexists. split; [reflexivity|].
      destruct t4; unfold keys in *; cbn in *.
      repeat split; congruence.
    + destruct ((k =? ch "Y") || (k =? ch "y")); cbv [ret];
        (eexists; split; [reflexivity|]);
        destruct t4; unfold keys in *; cbn in *; repeat split; congruence.
Qed.

Lemma confirmation_takes_only_y_witness :
  let t := set_globals (set_input [ch " "; ch " "; ch "Y"; ch "q"] quiet_game)
             quiet_terminal in
  exists t',
    get_check umoria_more_constants (fun _ => true) no_ERR cursor_home
      "Do you really want to quit?" t = Some (Back true t')
    /\ keys t' = [ch "q"].
Proof.
  intros t.
  destruct (confirmation_takes_only_y umoria_more_constants (fun _ => true) no_ERR
              cursor_home "Do you really want to quit?" 2 [ch "Y"; ch "q"] 1 t)
    as (t' & H1 & H2 & _).
  - reflexivity.
  - reflexivity.
  - repeat split; try discriminate; try reflexivity.
    repeat (constructor; [split; [split; [discriminate | reflexivity] | discriminate]|]).
    constructor.
  - reflexivity.
  - reflexivity.
  - discriminate.
  - exists t'. split; [exact H1 | exact H2].
Defined.

Lemma trim_facts (typed : list Z) :
  (List.length (trim typed) <= List.length typed)%nat
  /\ (forall P : Z -> Prop, Forall P typed -> Forall P (trim typed))
  /\ match trim typed with c :: _ => c <> ch " " | [] => True end.
Proof.
  induction typed as [|c typed IH]; cbn [trim].
  - split; [lia|]. split; [auto | exact I].
  - destruct (c =? ch " ") eqn:E.
    + destruct IH as (I1 & I2 & I3). split; [cbn; lia|]. split; [|exact I3].
      intros P HP. inversion HP; subst. auto.
    + split; [lia|]. split; [auto | lia].
Qed.

Section StringField.
Variable save_char_ok : game -> bool.
Variable mvaddstr_ERR : Z -> Z -> string -> bool.

Lemma bell_keys t :
  exists t', bell t = Some (Back tt t') /\ keys t' = keys t.
Proof.
  unfold bell. cbv [bind global modify get ret curse].
  destruct (negb (sound_beep_flag _)); eexists; (split; [reflexivity|]);
    destruct t as [g]; destruct g; reflexivity.
Qed.

Lemma get_string_loop_any (row start_col end_col : Z) (rounds : nat) :
  forall typed column t,
    (List.length (keys t) < rounds)%nat ->
    field_ok start_col end_col typed column ->
    match get_string_loop save_char_ok mvaddstr_ERR row start_col end_col rounds
            typed column t with
    | Some (Back (Some typed') _) => exists column', field_ok start_col end_col typed' column'
    | Some (Back None _) => True
    | Some (Gone _) => True
    | None => False
    end.
Proof.
  induction rounds as [|rounds IH]; intros typed column t Hr Hok; [lia|].
  cbn [get_string_loop]. unfold bind at 1.
  pose proof (inkey_io_any save_char_ok t) as H.
  destruct (inkey_io save_char_ok t) as [[i t1|t1]|]; [|exact I|exact H].
  destruct H as (_ & H2 & H3).
  destruct (i =? ESCAPE) eqn:E1; [exact I|].
  assert (Hlt : (List.length (keys t1) < rounds)%nat).
  { assert (i <> ESCAPE) by lia. specialize (H3 ltac:(assumption)). lia. }
  destruct ((i =? CTRL_KEY "J") || (i =? CTRL_KEY "M")) eqn:E2.
  { cbv [ret]. exists column. exact Hok. }
  destruct ((i =? DELETE) || (i =? CTRL_KEY "H")) eqn:E3.
  { destruct (column >? start_col) eqn:E4.
    - unfold bind at 1. rewrite put_buffer_result. cbv zeta.
      destruct (mvaddstr_ERR _ _ _); [exact I|].
      unfold bind at 1. unfold curse at 1. unfold modify at 1.
      apply IH.
      + unfold keys in *. destruct t1; exact Hlt.
      + destruct Hok as (O1 & O2 & O3). destruct typed as [|c typed].
        * cbn in O1. lia.
        * inversion O3; subst. cbn [tl]. cbn [List.length] in O1.
          split; [lia|]. split; [lia | assumption].
    - apply IH; assumption. }
  destruct (negb (isprint i) || (column >? end_col)) eqn:E4.
  { unfold bind at 1. destruct (bell_keys t1) as (t2 & -> & Hk).
    apply IH; [rewrite Hk; exact Hlt | exact Hok]. }
  unfold bind at 1. unfold curse at 1. unfold modify at 1.
  apply IH.
  - unfold keys in *. destruct t1; exact Hlt.
  - destruct Hok as (O1 & O2 & O3). apply orb_false_iff in E4. destruct E4 as (P1 & P2).
    apply negb_false_iff in P1.
    split; [cbn [List.length]; lia|]. split; [lia|]. constructor; assumption.
Qed.

Lemma blank_out_keys (n : nat) : forall t,
  exists t', blank_out n t = Some (Back tt t') /\ keys t' = keys t.
Proof.
  induction n as [|n IH]; intros t; cbn [blank_out].
  - eexists. split; reflexivity.
  - unfold bind at 1. unfold curse at 1. unfold modify at 1.
    destruct (IH (set_screen (addch (ch " ") :: screen t) t)) as (t' & H1 & H2).
    exists t'. split; [exact H1|]. rewrite H2. destruct t; reflexivity.
Qed.

End StringField.

(** X29 ([get_string]): whatever is typed, the routine comes to an end,
    and a string it returns fits the field: it has at most [slen]
    characters and does not reach past column 79, it holds printable
    characters only, backspaces and refused keys having left no trace, and it
    does not end in a blank. *)
Theorem typed_string_fits_its_field
  (save_char_ok : game -> bool) (mvaddstr_ERR : Z -> Z -> string -> bool)
  (row column slen : Z) (t : terminal) :
  match get_string save_char_ok mvaddstr_ERR row column slen t with
  | Some (Back (Some in_str) _) =>
      Z.of_nat (List.length in_str) <= Z.max 0 (Z.min slen (80 - column))
      /\ Forall (fun c => isprint c = true) in_str
      /\ match rev in_str with c :: _ => c <> ch " " | [] => True end
  | Some (Back None _) => True
  | Some (Gone _) => True
  | None => False
  end.
Proof.
  unfold get_string.
  unfold bind at 1. unfold curse at 1. unfold modify at 1.
  unfold bind at 1.
  destruct (blank_out_keys (Z.to_nat slen)
              (set_screen (move row column :: screen t) t)) as (t1 & -> & Hk1).
  unfold bind at 1. unfold curse at 1. unfold modify at 1.
  unfold bind at 1. unfold rounds_left at 1. unfold get at 1.
  unfold bind at 1.
  set (end_col := if column + slen - 1 >? 79 then 79 else column + slen - 1).
  set (t2 := set_screen _ t1).
  pose proof (get_string_loop_any save_char_ok mvaddstr_ERR row column end_col
                (S (List.length (input (globals t2)))) [] column t2
                ltac:(unfold keys; lia)) as H.
  destruct (get_string_loop save_char_ok mvaddstr_ERR row column end_col _ [] column t2)
    as [[[typed|] t3|t3]|].
  - destruct H as (column' & O1 & O2 & O3).
    { split; [cbn; lia|]. split; [lia | constructor]. }
    cbv [ret]. destruct (trim_facts typed) as (T1 & T2 & T3).
    rewrite length_rev, rev_involutive. split.
    + subst end_col. destruct (column + slen - 1 >? 79) eqn:E; lia.
    + split; [|exact T3]. apply Forall_rev. apply T2. exact O3.
  - exact I.
  - exact I.
  - apply H. split; [cbn; lia|]. split; [lia | constructor].
Qed.

Example typed_string_takes_edits :
  let t := set_globals
             (set_input [ch "a"; ch "b"; DELETE; ch "c"; ch " "; CTRL_KEY "M"; ch "z"]
                quiet_game) quiet_terminal in
  match get_string (fun _ => true) no_ERR 0 10 8 t with
  | Some (Back r t') => r = Some [ch "a"; ch "c"] /\ keys t' = [ch "z"]
  | _ => False
  end.
Proof. vm_compute. split; reflexivity. Qed.

(** One call of the reader in good order: the next key, or [ESCAPE] when
    there is none. *)
Lemma inkey_io_calm (save_char_ok : game -> bool) (spare : Z) (t : terminal) :
  calm spare (globals t) -> 0 < spare ->
  exists t',
    inkey_io save_char_ok t =
      Some (Back (match keys t with k :: _ => k | [] => ESCAPE end) t')
    /\ keys t' = tl (keys t)
    /\ keeps_display t t'
    /\ msg_flag (globals t') =
       match keys t with _ :: _ => msg_flag (globals t) | [] => false end.
Proof.
  intros Hcalm Hspare. unfold inkey_io, keys.
  destruct (input (globals t)) as [|k rest] eqn:Hk.
  - destruct (inkey_dry save_char_ok (globals t) spare Hk Hcalm Hspare)
      as (g' & H1 & H2 & H3 & _).
    rewrite H1. eexists. split; [reflexivity|].
    split; [destruct t; exact H2|].
    split; [apply keeps_display_globals | destruct t; exact H3].
  - assert (Hp : plain_key k).
    { destruct Hcalm as (_ & _ & _ & _ & Hf). rewrite Hk in Hf.
      inversion Hf; assumption. }
    rewrite (inkey_plain save_char_ok (globals t) k rest Hk Hp).
    eexists. split; [reflexivity|].
    split; [destruct t as [g]; destruct g; reflexivity|].
    split; [apply keeps_display_globals|].
    destruct t as [g]; destruct g; reflexivity.
Qed.

(** X30 ([get_com], [pause_line]): with no message waiting on the line,
    a prompt for a command takes exactly one key: [get_com] hands it back
    together with the flag that it is not [ESCAPE], and [pause_line] drops
    it, whatever it is; when there is no key left, the key is the escape of
    the reader and the flag is false.  The keys behind it are left for the
    next reader and the ring of messages is untouched. *)
Theorem a_prompt_takes_one_key
  (K : more_constants) (save_char_ok : game -> bool)
  (mvaddstr_ERR : Z -> Z -> string -> bool)
  (prompt : option string) (prt_line : Z) (spare : Z) (t : terminal) :
  msg_flag (globals t) = false ->
  (forall row col text, mvaddstr_ERR row col text = false) ->
  calm spare (globals t) -> 0 < spare ->
  let k := match keys t with k :: _ => k | [] => ESCAPE end in
  (exists t',
     get_com K save_char_ok mvaddstr_ERR prompt t =
       Some (Back (negb (k =? ESCAPE), k) t')
     /\ keys t' = tl (keys t)
     /\ old_msg t' = old_msg t /\ last_msg t' = last_msg t)
  /\ (exists t',
        pause_line K save_char_ok mvaddstr_ERR prt_line t = Some (Back tt t')
        /\ keys t' = tl (keys t)
        /\ old_msg t' = old_msg t /\ last_msg t' = last_msg t).
Proof.
  intros Hflag Herr Hcalm Hspare k.
  assert (Hprt : forall text row col,
            exists t1, prt K save_char_ok mvaddstr_ERR text row col t = Some (Back tt t1)
                       /\ globals t1 = globals t /\ old_msg t1 = old_msg t
                       /\ last_msg t1 = last_msg t).
  { intros text row col. unfold prt. cbv [bind get]. rewrite Hflag, andb_false_r.
    cbv [ret curse modify]. rewrite put_buffer_result. cbv zeta. rewrite Herr.
    eexists. split; [reflexivity|]. destruct t; repeat split. }
  assert (Herase : forall row col t1,
            msg_flag (globals t1) = false ->
            exists t2, erase_line K save_char_ok mvaddstr_ERR row col t1 = Some (Back tt t2)
                       /\ globals t2 = globals t1 /\ old_msg t2 = old_msg t1
                       /\ last_msg t2 = last_msg t1).
  { intros row col t1 Hf. unfold erase_line. cbv [bind get]. rewrite Hf, andb_false_r.
    cbv [ret curse modify]. eexists. split; [reflexivity|]. destruct t1; repeat split. }
  assert (Hkey : forall t1,
            globals t1 = globals t -> old_msg t1 = old_msg t -> last_msg t1 = last_msg t ->
            exists t2,
              inkey_io save_char_ok t1 = Some (Back k t2)
              /\ keys t2 = tl (keys t) /\ old_msg t2 = old_msg t
              /\ last_msg t2 = last_msg t /\ msg_flag (globals t2) = false).
  { intros t1 G1 O1 L1.
    destruct (inkey_io_calm save_char_ok spare t1) as (t2 & H1 & H2 & H3 & H4).
    - rewrite G1. exact Hcalm.
    - exact Hspare.
    - unfold keys in *. rewrite G1 in *. exists t2. split; [exact H1|].
      split; [exact H2|]. destruct H3 as (D1 & D2 & _).
      split; [congruence|]. split; [congruence|].
      rewrite H4. destruct (input (globals t)); [reflexivity | exact Hflag]. }
  split.
  - unfold get_com. unfold bind at 1.
    assert (Hfirst : exists t1,
              match prompt with
              | Some s => prt K save_char_ok mvaddstr_ERR s 0 0
              | None => ret tt
              end t = Some (Back tt t1)
              /\ globals t1 = globals t /\ old_msg t1 = old_msg t
              /\ last_msg t1 = last_msg t).
    { destruct prompt as [s|]; [apply Hprt|].
      exists t. repeat split. }
    destruct Hfirst as (t1 & -> & G1 & O1 & L1).
    unfold bind at 1.
    destruct (Hkey t1 G1 O1 L1) as (t2 & -> & K2 & O2 & L2 & F2).
    unfold bind at 1.
    destruct (Herase MSG_LINE 0 t2 F2) as (t3 & -> & G3 & O3 & L3).
    cbv [ret]. exists t3.
    replace (if k =? ESCAPE then false else true) with (negb (k =? ESCAPE))
      by (destruct (k =? ESCAPE); reflexivity).
    split; [reflexivity|]. unfold keys in *. rewrite G3.
    split; [exact K2|]. split; congruence.
  - unfold pause_line. unfold bind at 1.
    destruct (Hprt "[Press any key to continue.]" prt_line 23)
      as (t1 & -> & G1 & O1 & L1).
    unfold bind at 1.
    destruct (Hkey t1 G1 O1 L1) as (t2 & -> & K2 & O2 & L2 & F2).
    destruct (Herase prt_line 0 t2 F2) as (t3 & -> & G3 & O3 & L3).
    exists t3. split; [reflexivity|]. unfold keys in *. rewrite G3.
    split; [exact K2|]. split; congruence.
Qed.

Lemma a_prompt_takes_one_key_witness :
  let t := set_globals (set_input [ch "q"; ch "x"] quiet_game) quiet_terminal in
  exists t',
    get_com umoria_more_constants (fun _ => true) no_ERR (Some "Command:") t =
      Some (Back (true, ch "q") t')
    /\ keys t' = [ch "x"].
Proof.
  intros t.
  destruct (a_prompt_takes_one_key umoria_more_constants (fun _ => true) no_ERR
              (Some "Command:") 0 1 t) as ((t' & H1 & H2 & _) & _).
  - reflexivity.
  - reflexivity.
  - repeat split; try discriminate; try reflexivity.
    repeat (constructor; [split; [split; [discriminate | reflexivity] | discriminate]|]).
    constructor.
  - reflexivity.
  - exists t'. split; [exact H1 | exact H2].
Defined.
